(** * SEO analyzer, scorer and suggestion generator of [src/seo_optimizer.py]

    A shallow embedding of the class [SEOOptimizer] and the properties its
    specification states about it.

    Conventions of the embedding.
    - A Python [str] is a [string]; a character is a code point below 256.
    - A Python [int] is a [Z].
    - A Python [float] is a [Q]. The keyword density, whose rounding to two
      decimals depends on the binary value, is computed as binary64 does:
      every operation yields the double nearest to its exact result
      ([Py.nearest]; the exponent range is taken unbounded). Elsewhere a
      float is the exact rational the arithmetic denotes, and binary
      rounding error is outside the model. Infinities and NaN do not occur.
    - A Python [dict] whose iteration order is observed is an association
      list in insertion order.
    - An operation that may raise returns [option]; [None] is the raised
      exception. *)

From Stdlib Require Import Bool Arith ZArith QArith Qround Qabs Lia Lqa.
From Stdlib Require Import List Ascii String.
From Stdlib Require Import Sorting.Sorted Sorting.Permutation.
Import ListNotations.

Local Close Scope Q_scope.
Local Open Scope string_scope.
Local Open Scope list_scope.
Local Open Scope nat_scope.

(** ** The exception monad *)

Module Exn.

Definition ret {A : Type} (a : A) : option A := Some a.

Definition bind {A B : Type} (m : option A) (k : A -> option B) : option B :=
  match m with
  | Some a => k a
  | None => None
  end.

End Exn.

Notation "x <- m ;; k" := (Exn.bind m (fun x => k))
  (at level 61, m at next level, right associativity).

(** ** Python built-ins used by the module *)

Module Py.

(** [ch in 'aeiouy'] and friends work on code points. *)
Definition code (c : ascii) : nat := nat_of_ascii c.

(** [str.isspace] on one character, for code points below 256:
    TAB..CR, FS..US, SPACE, NEL and NBSP. *)
Definition isspace (c : ascii) : bool :=
  let n := code c in
  ((9 <=? n) && (n <=? 13)) || ((28 <=? n) && (n <=? 32))
  || (n =? 133) || (n =? 160).

(** [str.lower] on one character, for code points below 256: [A-Z] and the
    Latin-1 capitals (all of 192..222 but the multiplication sign 215). *)
Definition lower_char (c : ascii) : ascii :=
  let n := code c in
  if ((65 <=? n) && (n <=? 90))
     || ((192 <=? n) && (n <=? 222) && negb (n =? 215))
  then ascii_of_nat (n + 32)
  else c.

(** [s.lower()], character by character. A code point above 255 that
    [str.lower] turns into two is outside the model, so no property below
    is stated of the length of a string against that of its lower-cased
    form. *)
Fixpoint lower (s : string) : string :=
  match s with
  | EmptyString => EmptyString
  | String c s' => String (lower_char c) (lower s')
  end.

(** [bool(s)] *)
Definition truthy (s : string) : bool :=
  match s with
  | EmptyString => false
  | String _ _ => true
  end.

(** [s.startswith(p)] *)
Definition startswith (s p : string) : bool := String.prefix p s.

(** The last character of [s], if any. *)
Fixpoint last_char (s : string) : option ascii :=
  match s with
  | EmptyString => None
  | String c EmptyString => Some c
  | String _ s' => last_char s'
  end.

(** [s.endswith(c)] for a one-character suffix. *)
Definition endswith_char (s : string) (c : ascii) : bool :=
  match last_char s with
  | Some d => Ascii.eqb d c
  | None => false
  end.

(** Appending one character to a token under construction. *)
Definition snoc (s : string) (c : ascii) : string :=
  String.append s (String c EmptyString).

(** [s.split()]: the maximal runs of non-whitespace characters, in order.
    [cur] is the token being read. *)
Fixpoint split_go (s cur : string) : list string :=
  match s with
  | EmptyString => if truthy cur then [cur] else []
  | String c s' =>
      if isspace c
      then (if truthy cur then cur :: split_go s' EmptyString
            else split_go s' EmptyString)
      else split_go s' (snoc cur c)
  end.

Definition split (s : string) : list string := split_go s EmptyString.

(** [s.split(sep)] for a one-character separator: every separator cuts,
    so the result has one more piece than there are separators. *)
Fixpoint split_on_go (sep : ascii) (s cur : string) : list string :=
  match s with
  | EmptyString => [cur]
  | String c s' =>
      if Ascii.eqb c sep
      then cur :: split_on_go sep s' EmptyString
      else split_on_go sep s' (snoc cur c)
  end.

Definition split_on (sep : ascii) (s : string) : list string :=
  split_on_go sep s EmptyString.

(** The character class [[.!?]]. *)
Definition is_terminator (c : ascii) : bool :=
  Ascii.eqb c "."%char || Ascii.eqb c "!"%char || Ascii.eqb c "?"%char.

(** [re.split(r'[.!?]+', s)]: a maximal run of terminators is one cut; the
    pieces before the first and after the last cut are kept even when they
    are empty. [in_run] tells that the previous character was a terminator. *)
Fixpoint re_split_go (s cur : string) (in_run : bool) : list string :=
  match s with
  | EmptyString => [cur]
  | String c s' =>
      if is_terminator c
      then (if in_run then re_split_go s' EmptyString true
            else cur :: re_split_go s' EmptyString true)
      else re_split_go s' (snoc cur c) false
  end.

Definition re_split (s : string) : list string := re_split_go s EmptyString false.

(** [s.lstrip()] *)
Fixpoint lstrip (s : string) : string :=
  match s with
  | EmptyString => EmptyString
  | String c s' => if isspace c then lstrip s' else s
  end.

(** [s.rstrip()] *)
Fixpoint rstrip (s : string) : string :=
  match s with
  | EmptyString => EmptyString
  | String c s' =>
      let r := rstrip s' in
      if isspace c && negb (truthy r) then EmptyString else String c r
  end.

(** [s.strip()] *)
Definition strip (s : string) : string := rstrip (lstrip s).

(** [s.count(sub)]: scan left to right; at a position where [sub] starts,
    count it and resume after its last character. [skip] is the number of
    characters still covered by the occurrence just counted. For the empty
    [sub] every position counts, the end of [s] included. *)
Fixpoint count_go (sub s : string) (skip : nat) : nat :=
  match s with
  | EmptyString =>
      match sub with EmptyString => 1 | String _ _ => 0 end
  | String _ s' =>
      match skip with
      | S k => count_go sub s' k
      | O =>
          if String.prefix sub s
          then S (count_go sub s' (String.length sub - 1))
          else count_go sub s' 0
      end
  end.

Definition count (s sub : string) : Z := Z.of_nat (count_go sub s 0).

(** [len] *)
Definition len_str (s : string) : Z := Z.of_nat (String.length s).
Definition len {A : Type} (l : list A) : Z := Z.of_nat (List.length l).

(** [sum] of integers. *)
Definition sum (l : list Z) : Z := fold_left Z.add l 0%Z.

(** [a / b] on integers: true division, [ZeroDivisionError] on [b = 0]. *)
Definition truediv (a b : Z) : option Q :=
  if (b =? 0)%Z then None else Some (inject_Z a / inject_Z b)%Q.

(** Rounding a rational to the nearest integer, ties to the even one. *)
Definition round_half_even (q : Q) : Z :=
  let f := Qfloor q in
  let r := (q - inject_Z f)%Q in
  match (r ?= 1 # 2)%Q with
  | Lt => f
  | Gt => (f + 1)%Z
  | Eq => if Z.even f then f else (f + 1)%Z
  end.

(** The double nearest to [n / d], for [n] and [d] positive, ties to the
    even significand: with [a] and [b] the positions of the leading bits of
    [n] and [d], the quotient lies between [2 ^ (a - b - 1)] and
    [2 ^ (a - b + 1)]; it is scaled by a power of two to a significand [s]
    between [2 ^ 52] and [2 ^ 53], which is rounded to an integer and scaled
    back. *)
Definition nearest_pos (n d : Z) : Q :=
  let a := Z.log2 n in
  let b := Z.log2 d in
  let c := if (n * 2 ^ b <? d * 2 ^ a)%Z then 53%Z else 52%Z in
  let s := (inject_Z (n * 2 ^ (b + c)) / inject_Z (d * 2 ^ a))%Q in
  (inject_Z (round_half_even s * 2 ^ a) / inject_Z (2 ^ (b + c)))%Q.

(** The double nearest to a rational (the exponent range unbounded). *)
Definition nearest (q : Q) : Q :=
  match Qnum q with
  | Z0 => 0%Q
  | Zpos _ => nearest_pos (Qnum q) (Zpos (Qden q))
  | Zneg _ => (- nearest_pos (- Qnum q) (Zpos (Qden q)))%Q
  end.

(** [a / b] on integers, as the double it yields. *)
Definition truediv_float (a b : Z) : option Q :=
  q <- truediv a b ;; Exn.ret (nearest q).

(** [x * y] on doubles. *)
Definition mul_float (x y : Q) : Q := nearest (x * y)%Q.

(** [round(x, 2)] on a double: the decimal with two places nearest to the
    value of [x], ties to the even last digit, read back as a double. On
    the integer 0 it is 0. *)
Definition round2 (x : Q) : Q :=
  nearest (inject_Z (round_half_even (x * 100)) / 100)%Q.

(** [max(a, b)] and [min(a, b)] return the first argument unless the second
    is strictly better. *)
Definition Qlt_bool (a b : Q) : bool := negb (Qle_bool b a).
Definition maxQ (a b : Q) : Q := if Qlt_bool a b then b else a.
Definition minQ (a b : Q) : Q := if Qlt_bool b a then b else a.

(** [x in l] on a list of strings. *)
Definition mem (x : string) (l : list string) : bool :=
  existsb (String.eqb x) l.

(** [s[:n]] *)
Fixpoint take (n : nat) (s : string) : string :=
  match n, s with
  | S k, String c r => String c (take k r)
  | _, _ => EmptyString
  end.

(** [sub in s] *)
Fixpoint contains (s sub : string) : bool :=
  String.prefix sub s
  || match s with
     | EmptyString => false
     | String _ r => contains r sub
     end.

(** [s.replace(a, b)] for one-character [a] and [b]. *)
Fixpoint replace_char (a b : ascii) (s : string) : string :=
  match s with
  | EmptyString => EmptyString
  | String c r =>
      String (if Ascii.eqb c a then b else c) (replace_char a b r)
  end.

(** [sep.join(parts)] *)
Definition join (sep : string) (parts : list string) : string :=
  String.concat sep parts.

(** [l[:n]] *)
Definition take_list {A : Type} (n : nat) (l : list A) : list A := firstn n l.

End Py.

(** ** Dictionaries in insertion order *)

Module Dict.

Definition t (V : Type) : Type := list (string * V).

(** [d.get(k)] *)
Fixpoint lookup {V : Type} (d : t V) (k : string) : option V :=
  match d with
  | [] => None
  | (k', v) :: d' => if String.eqb k' k then Some v else lookup d' k
  end.

(** [d[k] = v]: an existing key keeps its place, a new one goes last. *)
Fixpoint set {V : Type} (d : t V) (k : string) (v : V) : t V :=
  match d with
  | [] => [(k, v)]
  | (k', v') :: d' =>
      if String.eqb k' k then (k', v) :: d' else (k', v') :: set d' k v
  end.

Definition keys {V : Type} (d : t V) : list string := map fst d.

(** [d.get(k, default)] on a key that may be missing from a record. *)
Definition get {A : Type} (field : option A) (default : A) : A :=
  match field with
  | Some a => a
  | None => default
  end.

End Dict.

(** ** [collections.Counter] *)

Module Counter.

Definition t : Type := Dict.t Z.

Fixpoint add (c : t) (w : string) : t :=
  match c with
  | [] => [(w, 1%Z)]
  | (k, n) :: c' =>
      if String.eqb k w then (k, (n + 1)%Z) :: c' else (k, n) :: add c' w
  end.

(** [Counter(words)] *)
Definition of_list (words : list string) : t := fold_left add words [].

(** Insertion below every entry whose count is strictly greater: among equal
    counts the entry met first stays first. *)
Fixpoint insert (e : string * Z) (sorted : t) : t :=
  match sorted with
  | [] => [e]
  | e' :: rest =>
      if (snd e <? snd e')%Z then e' :: insert e rest else e :: sorted
  end.

(** [c.most_common(n)] *)
Definition most_common (n : nat) (c : t) : t :=
  firstn n (fold_right insert [] c).

End Counter.

(** ** The data of an analysis *)

(** One value of [keyword_density]: [{'count': ..., 'density': ...}]. *)
Record KeywordDensityEntry : Type := mkEntry {
  count : Z;
  density : Q
}.

(** The dictionary of [_analyze_headings]. The scorer and the suggestion
    generator read it with [.get(key, default)], so a key may be missing. *)
Record HeadingStructure : Type := mkHeadings {
  has_h1 : option bool;
  h1_count : option Z;
  h2_count : option Z;
  h3_count : option Z;
  proper_hierarchy : option bool
}.

(** The dictionary of [_calculate_readability], read with [.get] as well. *)
Record ReadabilityMetrics : Type := mkReadability {
  flesch_score : option Q;
  sentence_count : option Z;
  r_word_count : option Z;
  syllable_count : option Z
}.

(** The dictionary of [analyze_seo]. ['word_count'], ['keyword_density'],
    ['heading_structure'] and ['readability'] are read with [analysis[key]];
    ['has_meta_description'] and ['average_sentence_length'] with [.get]. *)
Record SeoAnalysis : Type := mkAnalysis {
  word_count : Z;
  keyword_density : Dict.t KeywordDensityEntry;
  primary_keywords : list string;
  heading_structure : HeadingStructure;
  readability : ReadabilityMetrics;
  has_meta_description : option bool;
  average_sentence_length : option Q
}.

(** The three settings [__init__] reads from the configuration. *)
Record Config : Type := mkConfig {
  target_keyword_density : Q;
  min_word_count : Z;
  max_word_count : Z
}.

(** [SEOOptimizer({})]: 2%, 800 and 2500. *)
Definition default_config : Config := mkConfig 0.02 800 2500.

(** The messages of [_generate_suggestions], one constructor per f-string. *)
Inductive Suggestion : Type :=
  | IncreaseWordCount (min_words : Z)
  | ReduceWordCount (max_words : Z)
  | IncreaseKeyword (keyword : string) (current : Q)
  | ReduceKeyword (keyword : string) (current : Q)
  | AddH1
  | AddH2
  | SimplifyLanguage
  | ShorterSentences
  | VarySentences.

(** The text of a message, given the decimal printers of [int] and [float]. *)
Section Render.

Variable show_int : Z -> string.
Variable show_float : Q -> string.

Definition render (m : Suggestion) : string :=
  match m with
  | IncreaseWordCount n =>
      "Increase word count to at least " ++ show_int n ++ " words"
  | ReduceWordCount n =>
      "Consider reducing word count to under " ++ show_int n ++ " words"
  | IncreaseKeyword k d =>
      "Increase usage of keyword '" ++ k ++ "' (current: "
        ++ show_float d ++ "%)"
  | ReduceKeyword k d =>
      "Reduce keyword stuffing for '" ++ k ++ "' (current: "
        ++ show_float d ++ "%)"
  | AddH1 => "Add a clear H1 heading"
  | AddH2 => "Add more H2 subheadings to improve structure"
  | SimplifyLanguage => "Simplify language to improve readability"
  | ShorterSentences => "Use shorter sentences for better readability"
  | VarySentences => "Vary sentence length for better flow"
  end%string.

End Render.

(** ** The methods of [SEOOptimizer] *)

Local Open Scope Z_scope.

(** [_get_stop_words] *)
Definition _get_stop_words : list string :=
  ["the"; "a"; "an"; "and"; "or"; "but"; "in"; "on"; "at"; "to"; "for";
   "of"; "with"; "by"; "from"; "as"; "is"; "was"; "are"; "been"; "be";
   "have"; "has"; "had"; "do"; "does"; "did"; "will"; "would"; "could";
   "should"; "may"; "might"; "must"; "can"; "this"; "that"; "these";
   "those"; "i"; "you"; "he"; "she"; "it"; "we"; "they"; "what"; "which";
   "who"; "when"; "where"; "why"; "how"; "all"; "each"; "every"; "both";
   "few"; "more"; "most"; "other"; "some"; "such"; "no"; "nor"; "not";
   "only"; "same"; "so"; "than"; "too"; "very"; "just"; "there"]%string.

(** [char in 'aeiouy'] *)
Definition is_vowel (c : ascii) : bool :=
  existsb (Ascii.eqb c) ["a"; "e"; "i"; "o"; "u"; "y"]%char.

(** The [for char in word] loop of [_count_syllables], on the state
    [(count, previous_was_vowel)]. *)
Fixpoint syllable_loop (word : string) (count : Z) (previous_was_vowel : bool)
  : Z :=
  match word with
  | EmptyString => count
  | String char rest =>
      let count' :=
        if is_vowel char && negb previous_was_vowel then count + 1 else count in
      syllable_loop rest count' (is_vowel char)
  end.

(** [_count_syllables] *)
Definition _count_syllables (word : string) : Z :=
  let word := Py.lower word in
  let count := syllable_loop word 0 false in
  let count := if Py.endswith_char word "e" then count - 1 else count in
  Z.max 1 count.

(** The Flesch Reading Ease branch of [_calculate_readability], on the three
    lengths it reads: [len(sentences)], [len(words)] and [syllables]. *)
Definition flesch_reading_ease (n_sentences n_words syllables : Z) : option Q :=
  if (n_sentences >? 0) && (n_words >? 0)
  then
    avg_sentence_length <- Py.truediv n_words n_sentences ;;
    avg_syllables_per_word <- Py.truediv syllables n_words ;;
    Exn.ret (206.835 - 1.015 * avg_sentence_length
             - 84.6 * avg_syllables_per_word)%Q
  else Exn.ret 0%Q.

(** [max(0, min(100, flesch_score))] *)
Definition clamp_score (flesch : Q) : Q := Py.maxQ 0 (Py.minQ 100 flesch).

(** [_calculate_readability] *)
Definition _calculate_readability (text : string) : option ReadabilityMetrics :=
  let sentences := Py.re_split text in
  let words := Py.split text in
  let syllables := Py.sum (map _count_syllables words) in
  flesch <- flesch_reading_ease (Py.len sentences) (Py.len words) syllables ;;
  Exn.ret {| flesch_score := Some (clamp_score flesch);
             sentence_count := Some (Py.len sentences);
             r_word_count := Some (Py.len words);
             syllable_count := Some syllables |}.

(** [_calculate_avg_sentence_length] *)
Definition _calculate_avg_sentence_length (text : string) : option Q :=
  let sentences := Py.re_split text in
  let sentences :=
    map Py.strip (filter (fun s => Py.truthy (Py.strip s)) sentences) in
  match sentences with
  | [] => Exn.ret 0%Q
  | _ :: _ =>
      let total_words := Py.sum (map (fun s => Py.len (Py.split s)) sentences) in
      Py.truediv total_words (Py.len sentences)
  end.

(** [sum(1 for line in lines if line.startswith(marker))] *)
Definition count_lines (marker : string) (lines : list string) : Z :=
  Py.sum (map (fun _ => 1) (filter (fun line => Py.startswith line marker) lines)).

(** [_analyze_headings] *)
Definition _analyze_headings (text : string) : HeadingStructure :=
  let lines := Py.split_on "010"%char text in
  let h1 := count_lines "# " lines in
  let h2 := count_lines "## " lines in
  let h3 := count_lines "### " lines in
  {| has_h1 := Some (h1 >? 0);
     h1_count := Some h1;
     h2_count := Some h2;
     h3_count := Some h3;
     proper_hierarchy := Some (h1 <=? 1) |}.

(** The body of the [for keyword in target_keywords] loop of [analyze_seo]:
    the entry stored under [keyword]. *)
Definition keyword_entry (text : string) (word_count : Z) (keyword : string)
  : option KeywordDensityEntry :=
  let keyword_lower := Py.lower keyword in
  let count := Py.count (Py.lower text) keyword_lower in
  density <-
    (if word_count >? 0
     then q <- Py.truediv_float count word_count ;;
          Exn.ret (Py.mul_float q 100)
     else Exn.ret 0%Q) ;;
  Exn.ret {| count := count; density := Py.round2 density |}.

(** The loop itself, on the dictionary it fills. *)
Fixpoint density_loop (text : string) (word_count : Z)
  (target_keywords : list string) (keyword_density : Dict.t KeywordDensityEntry)
  : option (Dict.t KeywordDensityEntry) :=
  match target_keywords with
  | [] => Exn.ret keyword_density
  | keyword :: rest =>
      entry <- keyword_entry text word_count keyword ;;
      density_loop text word_count rest (Dict.set keyword_density keyword entry)
  end.

(** [analyze_seo] *)
Definition analyze_seo (text : string) (target_keywords : list string)
  : option SeoAnalysis :=
  let words := Py.split (Py.lower text) in
  let word_count := Py.len words in
  keyword_density <- density_loop text word_count target_keywords [] ;;
  let word_frequency := Counter.of_list words in
  let stop_words := _get_stop_words in
  let filtered_words :=
    filter (fun wc => negb (Py.mem (fst wc) stop_words)
                      && (Py.len_str (fst wc) >? 3)) word_frequency in
  let primary_keywords := map fst (Counter.most_common 10 filtered_words) in
  let heading_analysis := _analyze_headings text in
  readability <- _calculate_readability text ;;
  average <- _calculate_avg_sentence_length text ;;
  Exn.ret {| word_count := word_count;
             keyword_density := keyword_density;
             primary_keywords := primary_keywords;
             heading_structure := heading_analysis;
             readability := readability;
             has_meta_description := Some (Py.truthy text);
             average_sentence_length := Some average |}.

(** The [for keyword, data in ...items()] loop of [_calculate_seo_score]:
    it stops at the first density in [[1.5, 3.0]]. *)
Fixpoint ideal_density_loop (items : Dict.t KeywordDensityEntry) : bool :=
  match items with
  | [] => false
  | (_, data) :: rest =>
      let density := density data in
      if Qle_bool 1.5 density && Qle_bool density 3.0
      then true
      else ideal_density_loop rest
  end.

(** [bool(d)] on a dictionary. *)
Definition nonempty {V : Type} (d : Dict.t V) : bool :=
  match d with
  | [] => false
  | _ :: _ => true
  end.

(** [_calculate_seo_score]: [score] is threaded through the statements. *)
Definition _calculate_seo_score (self : Config) (analysis : SeoAnalysis) : Z :=
  let score := 0 in
  let max_score := 100 in
  (* Word count (20 points) *)
  let word_count := word_count analysis in
  let score :=
    if word_count >=? min_word_count self
    then (if word_count <=? max_word_count self
          then score + 20
          else score + 10)
    else score + 5 in
  (* Keyword density (20 points) *)
  let ideal_density_achieved := ideal_density_loop (keyword_density analysis) in
  let score :=
    if ideal_density_achieved then score + 20
    else if nonempty (keyword_density analysis) then score + 10
    else score in
  (* Heading structure (15 points) *)
  let heading_structure := heading_structure analysis in
  let score :=
    if Dict.get (has_h1 heading_structure) false then score + 5 else score in
  let score :=
    if Dict.get (h2_count heading_structure) 0 >=? 3 then score + 5 else score in
  let score :=
    if Dict.get (proper_hierarchy heading_structure) true
    then score + 5 else score in
  (* Readability (20 points) *)
  let readability := readability analysis in
  let score :=
    if Qle_bool 60 (Dict.get (flesch_score readability) 0%Q) then score + 20
    else if Qle_bool 40 (Dict.get (flesch_score readability) 0%Q)
    then score + 10
    else score in
  (* Meta description (10 points) *)
  let score :=
    if Dict.get (has_meta_description analysis) false
    then score + 10 else score in
  (* Sentence length (15 points) *)
  let avg_sentence_length := Dict.get (average_sentence_length analysis) 20%Q in
  let score :=
    if Qle_bool 15 avg_sentence_length && Qle_bool avg_sentence_length 20
    then score + 15
    else if Qle_bool 10 avg_sentence_length && Qle_bool avg_sentence_length 25
    then score + 8
    else score in
  Z.min score max_score.

(** The [for keyword, data in ...items()] loop of [_generate_suggestions]. *)
Fixpoint keyword_suggestions (items : Dict.t KeywordDensityEntry)
  (suggestions : list Suggestion) : list Suggestion :=
  match items with
  | [] => suggestions
  | (keyword, data) :: rest =>
      let density := density data in
      let suggestions :=
        if Py.Qlt_bool density 1.0
        then suggestions ++ [IncreaseKeyword keyword density]
        else if Py.Qlt_bool 3.0 density
        then suggestions ++ [ReduceKeyword keyword density]
        else suggestions in
      keyword_suggestions rest suggestions
  end.

(** [_generate_suggestions]: [suggestions] is the list appended to. *)
Definition _generate_suggestions (self : Config) (analysis : SeoAnalysis)
  : list Suggestion :=
  let suggestions := [] in
  (* Word count suggestions *)
  let word_count := word_count analysis in
  let suggestions :=
    if word_count <? min_word_count self
    then suggestions ++ [IncreaseWordCount (min_word_count self)]
    else if word_count >? max_word_count self
    then suggestions ++ [ReduceWordCount (max_word_count self)]
    else suggestions in
  (* Keyword density suggestions *)
  let suggestions := keyword_suggestions (keyword_density analysis) suggestions in
  (* Heading suggestions *)
  let heading_structure := heading_structure analysis in
  let suggestions :=
    if negb (Dict.get (has_h1 heading_structure) false)
    then suggestions ++ [AddH1] else suggestions in
  let suggestions :=
    if Dict.get (h2_count heading_structure) 0 <? 3
    then suggestions ++ [AddH2] else suggestions in
  (* Readability suggestions *)
  let readability := readability analysis in
  let suggestions :=
    if Py.Qlt_bool (Dict.get (flesch_score readability) 0%Q) 40
    then suggestions ++ [SimplifyLanguage] else suggestions in
  (* Sentence length *)
  let avg_sentence_length := Dict.get (average_sentence_length analysis) 20%Q in
  let suggestions :=
    if Py.Qlt_bool 25 avg_sentence_length
    then suggestions ++ [ShorterSentences]
    else if Py.Qlt_bool avg_sentence_length 10
    then suggestions ++ [VarySentences]
    else suggestions in
  suggestions.

(** ** The signals as the scorer reads them

    A key read with [.get(key, default)] yields the default when it is
    missing; [analyze_seo] always sets every key. *)

Definition hasH1 (a : SeoAnalysis) : bool :=
  Dict.get (has_h1 (heading_structure a)) false.
Definition h2Count (a : SeoAnalysis) : Z :=
  Dict.get (h2_count (heading_structure a)) 0.
Definition properHierarchy (a : SeoAnalysis) : bool :=
  Dict.get (proper_hierarchy (heading_structure a)) true.
Definition fleschScore (a : SeoAnalysis) : Q :=
  Dict.get (flesch_score (readability a)) 0%Q.
Definition hasMetaDescription (a : SeoAnalysis) : bool :=
  Dict.get (has_meta_description a) false.
Definition averageSentenceLength (a : SeoAnalysis) : Q :=
  Dict.get (average_sentence_length a) 20%Q.

(** Changing one signal of an analysis and nothing else. *)
Definition with_word_count (a : SeoAnalysis) (n : Z) : SeoAnalysis :=
  mkAnalysis n (keyword_density a) (primary_keywords a) (heading_structure a)
    (readability a) (has_meta_description a) (average_sentence_length a).

Definition with_keyword_density (a : SeoAnalysis)
  (kd : Dict.t KeywordDensityEntry) : SeoAnalysis :=
  mkAnalysis (word_count a) kd (primary_keywords a) (heading_structure a)
    (readability a) (has_meta_description a) (average_sentence_length a).

Definition with_has_h1 (a : SeoAnalysis) (b : bool) : SeoAnalysis :=
  let h := heading_structure a in
  mkAnalysis (word_count a) (keyword_density a) (primary_keywords a)
    (mkHeadings (Some b) (h1_count h) (h2_count h) (h3_count h)
       (proper_hierarchy h))
    (readability a) (has_meta_description a) (average_sentence_length a).

Definition with_h2_count (a : SeoAnalysis) (n : Z) : SeoAnalysis :=
  let h := heading_structure a in
  mkAnalysis (word_count a) (keyword_density a) (primary_keywords a)
    (mkHeadings (has_h1 h) (h1_count h) (Some n) (h3_count h)
       (proper_hierarchy h))
    (readability a) (has_meta_description a) (average_sentence_length a).

Definition with_proper_hierarchy (a : SeoAnalysis) (b : bool) : SeoAnalysis :=
  let h := heading_structure a in
  mkAnalysis (word_count a) (keyword_density a) (primary_keywords a)
    (mkHeadings (has_h1 h) (h1_count h) (h2_count h) (h3_count h) (Some b))
    (readability a) (has_meta_description a) (average_sentence_length a).

Definition with_flesch_score (a : SeoAnalysis) (f : Q) : SeoAnalysis :=
  let r := readability a in
  mkAnalysis (word_count a) (keyword_density a) (primary_keywords a)
    (heading_structure a)
    (mkReadability (Some f) (sentence_count r) (r_word_count r)
       (syllable_count r))
    (has_meta_description a) (average_sentence_length a).

Definition with_has_meta_description (a : SeoAnalysis) (b : bool)
  : SeoAnalysis :=
  mkAnalysis (word_count a) (keyword_density a) (primary_keywords a)
    (heading_structure a) (readability a) (Some b) (average_sentence_length a).

Definition with_average_sentence_length (a : SeoAnalysis) (x : Q)
  : SeoAnalysis :=
  mkAnalysis (word_count a) (keyword_density a) (primary_keywords a)
    (heading_structure a) (readability a) (has_meta_description a) (Some x).

(** ** The specification's own wording *)

Module Spec.

(** [x] lies in the closed interval [[lo, hi]]. *)
Definition within (lo hi x : Q) : bool := Qle_bool lo x && Qle_bool x hi.

(** Scorer table, row "Word count", its three rules in the order given. *)
Definition word_count_points (min max count : Z) : Z :=
  if (min <=? count) && (count <=? max) then 20
  else if count >? max then 10
  else 5.

(** The same row with the rule for a short text tried first. *)
Definition word_count_points_short_first (min max count : Z) : Z :=
  if count <? min then 5
  else if count <=? max then 20
  else 10.

(** Row "Keyword density". *)
Definition keyword_density_points (kd : Dict.t KeywordDensityEntry) : Z :=
  if existsb (fun kv => within 1.5 3.0 (density (snd kv))) kd then 20
  else if negb (Nat.eqb (List.length kd) 0) then 10
  else 0.

(** Row "Heading structure". *)
Definition heading_points (a : SeoAnalysis) : Z :=
  (if hasH1 a then 5 else 0)
  + (if 3 <=? h2Count a then 5 else 0)
  + (if properHierarchy a then 5 else 0).

(** Row "Readability". *)
Definition readability_points (flesch : Q) : Z :=
  if Qle_bool 60 flesch then 20
  else if Qle_bool 40 flesch then 10
  else 0.

(** Row "Meta description presence". *)
Definition meta_points (present : bool) : Z := if present then 10 else 0.

(** Row "Avg sentence length". *)
Definition sentence_length_points (avg : Q) : Z :=
  if within 15 20 avg then 15
  else if within 10 25 avg then 8
  else 0.

(** The sum of the rows other than the first. *)
Definition other_points (a : SeoAnalysis) : Z :=
  keyword_density_points (keyword_density a)
  + heading_points a
  + readability_points (fleschScore a)
  + meta_points (hasMetaDescription a)
  + sentence_length_points (averageSentenceLength a).

(** The table as printed: [min(sum, 100)]. *)
Definition score (cfg : Config) (a : SeoAnalysis) : Z :=
  Z.min
    (word_count_points (min_word_count cfg) (max_word_count cfg) (word_count a)
     + other_points a)
    100.

(** The table with the first row read short-text first. *)
Definition score_short_first (cfg : Config) (a : SeoAnalysis) : Z :=
  Z.min
    (word_count_points_short_first (min_word_count cfg) (max_word_count cfg)
       (word_count a)
     + other_points a)
    100.

(** Syllables: position [i] of [w] starts a vowel group when its character
    is a vowel and the character before it, if there is one, is not. *)
Definition vowel_at (w : string) (i : nat) : bool :=
  match String.get i w with
  | Some c => is_vowel c
  | None => false
  end.

Definition is_transition (w : string) (i : nat) : bool :=
  vowel_at w i
  && negb (match i with O => false | S j => vowel_at w j end).

Definition transitions (w : string) : Z :=
  Z.of_nat (List.length (filter (is_transition w) (seq 0 (String.length w)))).

Definition syllables (word : string) : Z :=
  let w := Py.lower word in
  Z.max 1 (transitions w - (if Py.endswith_char w "e" then 1 else 0)).

(** Keyword occurrences: [sub] occurs in [s] at offset [i]. *)
Fixpoint occurs_at (sub s : string) (i : nat) : bool :=
  match i with
  | O => String.prefix sub s
  | S j =>
      match s with
      | EmptyString => false
      | String _ s' => occurs_at sub s' j
      end
  end.

(** [ps] lists, in increasing order and from offset [from] on, occurrences
    of [sub] in [s] no two of which share a character or a start. *)
Fixpoint non_overlapping (sub s : string) (from : nat) (ps : list nat) : Prop :=
  match ps with
  | [] => True
  | i :: ps' =>
      (from <= i)%nat
      /\ occurs_at sub s i = true
      /\ non_overlapping sub s (Nat.max (i + 1) (i + String.length sub)) ps'
  end.

(** [n] is the number of non-overlapping occurrences of [sub] in [s]: some
    choice of them has [n] members and none has more. *)
Definition occurrence_count (sub s : string) (n : nat) : Prop :=
  (exists ps, non_overlapping sub s 0 ps /\ List.length ps = n)
  /\ (forall ps, non_overlapping sub s 0 ps -> (List.length ps <= n)%nat).

(** [r] is [x] rounded to two decimals: a whole number of hundredths, no
    further than half a hundredth from [x]. *)
Definition rounded_to_2_decimals (x r : Q) : Prop :=
  (exists k : Z, r == inject_Z k / 100)%Q
  /\ (Qabs (r - x) <= 1 # 200)%Q.

(** [k] is the integer nearest to [x] and, of two nearest ones, the even
    one. *)
Definition nearest_integer (x : Q) (k : Z) : Prop :=
  (Qabs (inject_Z k - x) <= 1 # 2)%Q
  /\ ((Qabs (inject_Z k - x) == 1 # 2)%Q -> Z.even k = true).

(** The unit roundoff of binary64, [2 ^ -53]: a double nearest to [q]
    differs from it by at most [|q| * unit_roundoff]. *)
Definition unit_roundoff : Q := 1 # 9007199254740992.

(** The percentage [count / word_count * 100] in exact arithmetic. *)
Definition percentage (count word_count : Z) : Q :=
  (inject_Z count / inject_Z word_count * 100)%Q.

(** The Flesch Reading Ease formula. *)
Definition flesch_formula (sentences words syllables : Z) : Q :=
  (206.835 - 1.015 * (inject_Z words / inject_Z sentences)
   - 84.6 * (inject_Z syllables / inject_Z words))%Q.

(** Clamping [x] to [[lo, hi]]. *)
Definition clamp (lo hi x : Q) : Q :=
  if Py.Qlt_bool x lo then lo
  else if Py.Qlt_bool hi x then hi
  else x.

(** Suggestion generator, one definition per check. *)
Definition word_count_suggestions (min max count : Z) : list Suggestion :=
  if count <? min then [IncreaseWordCount min]
  else if max <? count then [ReduceWordCount max]
  else [].

Definition keyword_suggestion (kv : string * KeywordDensityEntry)
  : list Suggestion :=
  let d := density (snd kv) in
  if Py.Qlt_bool d 1.0 then [IncreaseKeyword (fst kv) d]
  else if Py.Qlt_bool 3.0 d then [ReduceKeyword (fst kv) d]
  else [].

Definition h1_suggestions (a : SeoAnalysis) : list Suggestion :=
  if hasH1 a then [] else [AddH1].

Definition h2_suggestions (a : SeoAnalysis) : list Suggestion :=
  if h2Count a <? 3 then [AddH2] else [].

Definition readability_suggestions (a : SeoAnalysis) : list Suggestion :=
  if Py.Qlt_bool (fleschScore a) 40 then [SimplifyLanguage] else [].

Definition sentence_suggestions (a : SeoAnalysis) : list Suggestion :=
  if Py.Qlt_bool 25 (averageSentenceLength a) then [ShorterSentences]
  else if Py.Qlt_bool (averageSentenceLength a) 10 then [VarySentences]
  else [].

(** A message about the word count, about keyword [k], about sentences. *)
Definition about_word_count (m : Suggestion) : Prop :=
  match m with
  | IncreaseWordCount _ | ReduceWordCount _ => True
  | _ => False
  end.

Definition about_keyword (k : string) (m : Suggestion) : Prop :=
  match m with
  | IncreaseKeyword k' _ | ReduceKeyword k' _ => k' = k
  | _ => False
  end.

Definition about_sentence_length (m : Suggestion) : Prop :=
  match m with
  | ShorterSentences | VarySentences => True
  | _ => False
  end.

End Spec.

(** ** Inputs of the worked examples *)

(** [s * n] *)
Fixpoint repeat_str (s : string) (n : nat) : string :=
  match n with
  | O => EmptyString
  | S k => String.append s (repeat_str s k)
  end.

(** The text and the keywords of [test_analyze_seo]. *)
Definition test_text : string :=
  repeat_str "This is a test article about SEO optimization. " 50.

Definition test_keywords : list string := ["test"; "SEO"; "optimization"]%string.

(** A text of 160 words in which "seo" occurs 23 times: the exact
    percentage, 14.375, is a tie between two hundredths. *)
Definition tie_text : string :=
  String.append (repeat_str "seo " 23) (repeat_str "word " 137).

(** ['\n'.join(lines)] *)
Definition join_lines (lines : list string) : string :=
  String.concat (String "010"%char EmptyString) lines.

(** The configuration of [TestSEOOptimizer.setUp]. *)
Definition test_config : Config := mkConfig 0.02 300 2000.

(** The analysis of [test_calculate_seo_score]; the keys the test leaves out
    are missing here too. *)
Definition test_analysis : SeoAnalysis :=
  {| word_count := 1000;
     keyword_density := [("test"%string, mkEntry 5 2.0)];
     primary_keywords := [];
     heading_structure := mkHeadings (Some true) None (Some 3) None (Some true);
     readability := mkReadability (Some 65%Q) None None None;
     has_meta_description := Some true;
     average_sentence_length := Some 18%Q |}.

(** ** Articles

    [optimize_article] receives the dictionary the generator builds. The
    keys it reads are the fields below; a key that may be missing is an
    [option]. A value the code converts with [str(...)] is held as that
    string. The title, the intro, the conclusion and the takeaways, which
    the code joins as they are, are strings here, and the value under
    ['meta'] is a dictionary; [AnyArticle] further down drops both
    assumptions. *)

(** A member of a list-valued field of a section: a dictionary, of which
    the code takes the values in order, or anything else, of which it takes
    [str(item)]. Only a dictionary has [.get]. *)
Inductive Item : Type :=
  | ItemDict (entries : Dict.t string)
  | ItemOther (text : string).

(** The value under ['benefits'], ['tips'], ['items'] or ['steps']: a list,
    or some other value, of which [iterated] is what a [for] loop over it
    yields ([None] when it cannot be iterated). *)
Inductive FieldValue : Type :=
  | ListOf (items : list Item)
  | NotList (iterated : option (list Item)).

Record ArticleSection : Type := mkSection {
  s_type : option string;
  s_title : option string;
  s_content : option string;
  s_description : option string;
  s_benefits : option FieldValue;
  s_tips : option FieldValue;
  s_items : option FieldValue;
  s_steps : option FieldValue
}.

(** The dictionary under ['meta']. It is the one object [optimize_article]
    writes to, so an article holds a reference to it. *)
Record MetaDict : Type := mkMeta {
  m_description : option string;
  m_keywords : option (list string)
}.

Record Article : Type := mkArticle {
  a_title : option string;
  a_intro : option string;
  a_template_type : option string;
  a_generated_at : option string;
  a_content_sections : option (list ArticleSection);
  a_conclusion : option string;
  a_key_takeaways : option (list string);
  a_meta : option nat
}.

(** The store of ['meta'] dictionaries; a reference is an index. *)
Module Heap.

Definition t : Type := list MetaDict.

Definition read (h : t) (ref : nat) : option MetaDict := nth_error h ref.

Fixpoint write (h : t) (ref : nat) (m : MetaDict) : t :=
  match h, ref with
  | [], _ => []
  | _ :: rest, O => m :: rest
  | x :: rest, S r => x :: write rest r m
  end.

Definition alloc (h : t) (m : MetaDict) : nat * t :=
  (List.length h, h ++ [m]).

End Heap.

(** [article.get('meta', {})], read through the store. *)
Definition meta_of (h : Heap.t) (article : Article) : MetaDict :=
  match a_meta article with
  | Some ref => Dict.get (Heap.read h ref) (mkMeta None None)
  | None => mkMeta None None
  end.

(** The optimizer: the three settings of [__init__] and the two other keys
    of [self.config] the class reads. *)
Record Optimizer : Type := mkOptimizer {
  settings : Config;
  organization : option string;
  logo_url : option string
}.

(** One entry of ['internal_links']. *)
Record LinkSuggestion : Type := mkLink {
  anchor_text : string;
  suggested_url : string;
  reason : string
}.

(** One [HowToStep] of the schema. *)
Record HowToStep : Type := mkStep {
  step_name : string;
  step_text : string
}.

(** The schema.org dictionary; ['@context'] is constant and ['step'] may be
    missing. *)
Record Schema : Type := mkSchema {
  schema_type : string;
  headline : string;
  schema_description : string;
  datePublished : string;
  dateModified : string;
  author_name : string;
  publisher_name : string;
  publisher_logo : string;
  step : option (list HowToStep)
}.

(** What [optimize_article] returns: the copy of the article, with its
    ['meta'] reference, and the five keys added to it. *)
Record OptimizedArticle : Type := mkOptimized {
  copy : Article;
  schema_markup : Schema;
  internal_links : list LinkSuggestion;
  seo_score : Z;
  seo_suggestions : list Suggestion
}.

(** [text_parts.append(x)] when the key is there. *)
Definition append_if_present (text_parts : list string) (field : option string)
  : list string :=
  match field with
  | Some x => text_parts ++ [x]
  | None => text_parts
  end.

(** The texts one member of a list-valued field adds. *)
Definition item_texts (item : Item) : list string :=
  match item with
  | ItemDict entries => map snd entries
  | ItemOther text => [text]
  end.

(** One round of [for key in ['benefits', 'tips', 'items', 'steps']]. *)
Definition append_field (text_parts : list string) (field : option FieldValue)
  : list string :=
  match field with
  | Some (ListOf items) => text_parts ++ flat_map item_texts items
  | Some (NotList _) => text_parts
  | None => text_parts
  end.

(** [_extract_section_text] *)
Definition _extract_section_text (section : ArticleSection) : string :=
  let text_parts := [] in
  let text_parts := append_if_present text_parts (s_title section) in
  let text_parts := append_if_present text_parts (s_content section) in
  let text_parts := append_if_present text_parts (s_description section) in
  let text_parts := append_field text_parts (s_benefits section) in
  let text_parts := append_field text_parts (s_tips section) in
  let text_parts := append_field text_parts (s_items section) in
  let text_parts := append_field text_parts (s_steps section) in
  Py.join " " text_parts.

(** [_extract_text], on an article whose text values are strings: the
    final [' '.join] does not raise. *)
Definition _extract_text (article : Article) : string :=
  let text_parts := [] in
  let text_parts := append_if_present text_parts (a_title article) in
  let text_parts := append_if_present text_parts (a_intro article) in
  let text_parts :=
    text_parts
    ++ map _extract_section_text (Dict.get (a_content_sections article) []) in
  let text_parts := append_if_present text_parts (a_conclusion article) in
  let text_parts := text_parts ++ Dict.get (a_key_takeaways article) [] in
  Py.join " " text_parts.

(** [_suggest_internal_links] *)
Definition _suggest_internal_links (h : Heap.t) (article : Article)
  : list LinkSuggestion :=
  let suggestions := [] in
  let keywords := Dict.get (m_keywords (meta_of h article)) [] in
  let template_type := Dict.get (a_template_type article) EmptyString in
  let suggestions :=
    if String.eqb template_type "how_to"
    then suggestions
           ++ [mkLink "complete guide" "/ultimate-guide-[topic]"
                 "Link to comprehensive guide on same topic"]
    else suggestions in
  let suggestions :=
    if String.eqb template_type "comparison"
    then suggestions
           ++ [mkLink "detailed review" "/review-[product]"
                 "Link to individual product reviews"]
    else suggestions in
  suggestions
  ++ map (fun keyword =>
            mkLink keyword
              (String.append "/"
                 (Py.lower (Py.replace_char " " "-" keyword)))
              (String.append "Link to pillar content about " keyword))
       (Py.take_list 3 keywords).

(** The [for step in section['steps']] loop of [_generate_schema_markup]:
    [step.get] raises on a member that is no dictionary. *)
Fixpoint schema_steps (members : list Item) (steps : list HowToStep)
  : option (list HowToStep) :=
  match members with
  | [] => Exn.ret steps
  | ItemDict entries :: rest =>
      schema_steps rest
        (steps ++ [mkStep (Dict.get (Dict.lookup entries "title") EmptyString)
                     (Dict.get (Dict.lookup entries "description")
                        EmptyString)])
  | ItemOther _ :: _ => None
  end.

(** The [for section in article['content_sections']] loop. *)
Fixpoint schema_sections (sections : list ArticleSection)
  (steps : list HowToStep) : option (list HowToStep) :=
  match sections with
  | [] => Exn.ret steps
  | section :: rest =>
      steps <-
        (match s_type section, s_steps section with
         | Some type, Some value =>
             if String.eqb type "steps"
             then match value with
                  | ListOf members => schema_steps members steps
                  | NotList (Some members) => schema_steps members steps
                  | NotList None => None
                  end
             else Exn.ret steps
         | _, _ => Exn.ret steps
         end) ;;
      schema_sections rest steps
  end.

(** [_generate_schema_markup] *)
Definition _generate_schema_markup (self : Optimizer) (h : Heap.t)
  (article : Article) : option Schema :=
  let schema :=
    {| schema_type := "Article";
       headline := Dict.get (a_title article) EmptyString;
       schema_description :=
         Dict.get (m_description (meta_of h article)) EmptyString;
       datePublished := Dict.get (a_generated_at article) EmptyString;
       dateModified := Dict.get (a_generated_at article) EmptyString;
       author_name := Dict.get (organization self) "Your Company";
       publisher_name := Dict.get (organization self) "Your Company";
       publisher_logo :=
         Dict.get (logo_url self) "https://example.com/logo.png";
       step := None |} in
  match a_template_type article with
  | Some template_type =>
      if String.eqb template_type "how_to"
      then
        match a_content_sections article with
        | Some sections =>
            steps <- schema_sections sections [] ;;
            Exn.ret
              (mkSchema "HowTo" (headline schema) (schema_description schema)
                 (datePublished schema) (dateModified schema)
                 (author_name schema) (publisher_name schema)
                 (publisher_logo schema)
                 (match steps with [] => None | _ :: _ => Some steps end))
        | None =>
            Exn.ret
              (mkSchema "HowTo" (headline schema) (schema_description schema)
                 (datePublished schema) (dateModified schema)
                 (author_name schema) (publisher_name schema)
                 (publisher_logo schema) None)
        end
      else Exn.ret schema
  | None => Exn.ret schema
  end.

(** [_optimize_meta_description], and [optimize_article] which calls it.
    [str.title] is a parameter: on code points below 256 its result can
    leave them or change in length. *)
Section Title.

Variable title_case : string -> string.

(** The description before the final clean-up. *)
Definition meta_candidate (title intro : string) (keywords : list string)
  : string :=
  let meta := if Py.truthy intro then Py.take 150 intro
              else Py.take 150 title in
  match keywords with
  | keyword :: _ =>
      if negb (Py.contains (Py.lower meta) (Py.lower keyword))
      then Py.take 160
             (String.append (title_case keyword) (String.append ": " meta))
      else meta
  | [] => meta
  end.

(** [_optimize_meta_description] *)
Definition _optimize_meta_description (title intro : string)
  (keywords : list string) : string :=
  let meta := meta_candidate title intro keywords in
  let meta := Py.strip meta in
  if Py.len_str meta >? 160
  then String.append (Py.take 157 meta) "..."
  else meta.

(** [optimize_article], on the store: the result, or [None] when a call
    raises, and the store as the call leaves it. On an [Article] the first
    two statements do not raise; [optimize_article_any] has the cases in
    which they do. *)
Definition optimize_article (self : Optimizer) (article : Article)
  (h : Heap.t) : option OptimizedArticle * Heap.t :=
  let text_content := _extract_text article in
  match analyze_seo text_content
          (Dict.get (m_keywords (meta_of h article)) []) with
  | None => (None, h)
  | Some analysis =>
      (* optimized = article.copy(); 'meta' is shared or made anew *)
      let '(ref, h) :=
        match a_meta article with
        | Some ref => (ref, h)
        | None => Heap.alloc h (mkMeta None None)
        end in
      let optimized :=
        mkArticle (a_title article) (a_intro article)
          (a_template_type article) (a_generated_at article)
          (a_content_sections article) (a_conclusion article)
          (a_key_takeaways article) (Some ref) in
      (* optimized['meta']['description'] = ... *)
      let description :=
        _optimize_meta_description
          (Dict.get (a_title article) EmptyString)
          (Dict.get (a_intro article) EmptyString)
          (primary_keywords analysis) in
      let h :=
        Heap.write h ref
          (mkMeta (Some description)
             (m_keywords (Dict.get (Heap.read h ref) (mkMeta None None)))) in
      match _generate_schema_markup self h article with
      | None => (None, h)
      | Some schema =>
          (Some
             {| copy := optimized;
                schema_markup := schema;
                internal_links := _suggest_internal_links h article;
                seo_score := _calculate_seo_score (settings self) analysis;
                seo_suggestions :=
                  _generate_suggestions (settings self) analysis |},
           h)
      end
  end.

End Title.

(** ** Articles with values of any kind

    [_extract_text] appends the title, the intro, the conclusion and every
    takeaway to [text_parts] as they are, and [optimize_article] calls
    [.get] on the value under ['meta']. In an [Article] these are strings
    and a dictionary. Here a text value may be any object, and a value
    under ['meta'] may be one that is no dictionary; the sections are
    dictionaries and the keywords strings, as before. *)












(** The "Average SEO Score" row of [scripts/generate.py]: the articles are
    given by their ['seo_score'] key, which may be missing. *)
Definition average_seo_score (articles : list (option Z)) : option (option Q) :=
  let seo_scores :=
    flat_map (fun a => match a with Some s => [s] | None => [] end) articles in
  match seo_scores with
  | [] => Exn.ret None
  | _ :: _ =>
      avg_score <- Py.truediv (Py.sum seo_scores) (Py.len seo_scores) ;;
      Exn.ret (Some avg_score)
  end.

(** ** Further notions the properties are stated with *)

Module Notion.

(** The keys a loop of [d[k] = v] leaves, from the keys [acc] already there:
    a key met again keeps its place. *)
Definition add_key (acc : list string) (k : string) : list string :=
  if Py.mem k acc then acc else acc ++ [k].

Definition distinct (keys : list string) : list string :=
  fold_left add_key keys [].

(** How often [w] occurs among [words]. *)
Definition frequency (words : list string) (w : string) : Z :=
  Z.of_nat (count_occ String.string_dec words w).

(** The count a [Counter] holds for [w]; a missing word counts 0. *)
Definition tally (c : Counter.t) (w : string) : Z :=
  match Dict.lookup c w with
  | Some n => n
  | None => 0
  end.

(** An entry of a [Counter] comes no later than one it outnumbers. *)
Definition outranks (e1 e2 : string * Z) : Prop := snd e2 <= snd e1.

(** A character of the heading markers. *)
Definition marker_char (c : ascii) : Prop := c = "#"%char \/ c = " "%char.

(** A token [analyze_seo] admits as a primary keyword. *)
Definition admissible (w : string) : bool :=
  negb (Py.mem w _get_stop_words) && (Py.len_str w >? 3).

(** Position [i] of [s] starts a run of sentence terminators. *)
Definition terminator_at (s : string) (i : nat) : bool :=
  match String.get i s with
  | Some c => Py.is_terminator c
  | None => false
  end.

Definition starts_run (s : string) (i : nat) : bool :=
  terminator_at s i
  && negb (match i with O => false | S j => terminator_at s j end).

Definition terminator_runs (s : string) : Z :=
  Z.of_nat (List.length (filter (starts_run s) (seq 0 (String.length s)))).

(** [s] has no character other than white space. *)
Definition blank (s : string) : bool := negb (Py.truthy (Py.strip s)).

(** The words of a text that may be missing. *)
Definition words_of (field : option string) : list string :=
  match field with
  | Some x => Py.split x
  | None => []
  end.

(** The words of a list-valued field of a section. *)
Definition field_words (field : option FieldValue) : list string :=
  match field with
  | Some (ListOf items) => flat_map Py.split (flat_map item_texts items)
  | _ => []
  end.

(** [s] holds no blank. *)
Definition no_blank (s : string) : bool :=
  forallb (fun c => negb (Ascii.eqb c " ")) (list_ascii_of_string s).





(** The ['meta'] reference of the article, if any, is in the store. *)
Definition valid_meta (h : Heap.t) (article : Article) : Prop :=
  match a_meta article with
  | Some ref => (ref < List.length h)%nat
  | None => True
  end.







(** A message about one keyword, whichever. *)
Definition keyword_message (m : Suggestion) : Prop :=
  match m with
  | IncreaseKeyword _ _ | ReduceKeyword _ _ => True
  | _ => False
  end.

End Notion.

(** ** Further inputs of worked examples *)

(** [str.title] on ASCII text: a letter after a letter is lowered, any other
    letter is raised. *)
Definition is_ascii_letter (c : ascii) : bool :=
  let n := Py.code c in
  ((65 <=? n) && (n <=? 90))%nat || ((97 <=? n) && (n <=? 122))%nat.

Definition ascii_upper_char (c : ascii) : ascii :=
  let n := Py.code c in
  if ((97 <=? n) && (n <=? 122))%nat then ascii_of_nat (n - 32) else c.

Fixpoint ascii_title_go (s : string) (previous_is_cased : bool) : string :=
  match s with
  | EmptyString => EmptyString
  | String c r =>
      if is_ascii_letter c
      then String (if previous_is_cased then Py.lower_char c
                   else ascii_upper_char c)
             (ascii_title_go r true)
      else String c (ascii_title_go r false)
  end.

Definition ascii_title (s : string) : string := ascii_title_go s false.

(** A how-to article as the generator builds it; its ['meta'] dictionary is
    at reference 0 of [howto_store]. *)
Definition howto_article : Article :=
  {| a_title := Some "How to Start Encrypted Calls"%string;
     a_intro := Some "Private calls in minutes, with no download."%string;
     a_template_type := Some "how_to"%string;
     a_generated_at := Some "2024-01-01T00:00:00"%string;
     a_content_sections :=
       Some
         [mkSection (Some "prerequisites") (Some "What You'll Need") None None
            None None
            (Some (ListOf [ItemOther "A modern web browser";
                           ItemOther "Stable internet connection"]))
            None;
          mkSection (Some "steps") (Some "Step-by-Step Instructions") None
            None None None None
            (Some (ListOf
               [ItemDict [("title", "Access the Platform");
                          ("description", "Navigate to the website")];
                ItemDict [("title", "Create Your Room");
                          ("description", "Click the create button")]]));
          mkSection (Some "tips") (Some "Pro Tips") None None None
            (Some (ListOf [ItemOther "Use headphones for better audio"]))
            None None]%string;
     a_conclusion := Some "The future of calling is here."%string;
     a_key_takeaways := Some ["No downloads required"]%string;
     a_meta := Some 0%nat |}.

Definition howto_store : Heap.t :=
  [mkMeta (Some "Private calls in minutes")
     (Some ["encrypted calls"; "privacy"])]%string.

(** The same article with a step that is a plain string, and one with no
    ['meta'] key. *)
Definition broken_article : Article :=
  mkArticle (a_title howto_article) (a_intro howto_article)
    (a_template_type howto_article) (a_generated_at howto_article)
    (Some [mkSection (Some "steps") None None None None None None
             (Some (ListOf [ItemOther "Access the Platform"]))]%string)
    (a_conclusion howto_article) (a_key_takeaways howto_article)
    (Some 0%nat).

Definition bare_article : Article :=
  mkArticle (Some "Ten Tips"%string) None (Some "listicle"%string) None None
    None None None.

Definition test_optimizer : Optimizer := mkOptimizer test_config None None.



(** Eleven admissible words, the first ten used twice. *)
Definition eleven_words : string :=
  "alpha bravo charlie delta echoes foxtrot golfer hotel india juliet kilos alpha bravo charlie delta echoes foxtrot golfer hotel india juliet".

(** * Properties *)

(** ** The built-ins on small inputs *)

Example split_drops_blank_runs :
  Py.split "  This is   a test. " = ["This"; "is"; "a"; "test."]%string.
Proof. reflexivity. Qed.

Example re_split_keeps_empty_ends :
  Py.re_split "One. Two?! " = ["One"; " Two"; " "]%string
  /\ Py.re_split "One." = ["One"; EmptyString]
  /\ Py.re_split EmptyString = [EmptyString].
Proof. repeat split. Qed.

Example count_skips_overlaps :
  Py.count "aaaa" "aa" = 2%Z /\ Py.count "abc" EmptyString = 4%Z.
Proof. split; reflexivity. Qed.

(** The doubles of [0.1] and of [1 / 3], and [round(x, 2)] on three
    doubles: 0.125 and 0.375 are ties, 2.675 lies below its decimal. *)
Example nearest_tenth :
  (Py.nearest (1 # 10) == 3602879701896397 # 36028797018963968)%Q.
Proof. vm_compute. reflexivity. Qed.

Example truediv_float_third :
  exists q, Py.truediv_float 1 3 = Some q
            /\ (q == 6004799503160661 # 18014398509481984)%Q.
Proof. eexists. split; [reflexivity|]. vm_compute. reflexivity. Qed.

Example round2_on_ties :
  Py.round2 (1 # 8) = Py.nearest (12 # 100)
  /\ Py.round2 (3 # 8) = Py.nearest (38 # 100)
  /\ Py.round2 (Py.nearest (2675 # 1000)) = Py.nearest (267 # 100).
Proof. repeat split; vm_compute; reflexivity. Qed.

(** 299 occurrences in 20000 words: the exact percentage is 1.495, the
    double below it, and the density the double of 1.49. *)
Example density_of_299_in_20000_words :
  (Spec.percentage 299 20000 == 1495 # 1000)%Q
  /\ (Py.mul_float (Py.nearest (inject_Z 299 / inject_Z 20000)) 100
      < 1495 # 1000)%Q
  /\ Py.round2 (Py.mul_float (Py.nearest (inject_Z 299 / inject_Z 20000)) 100)
     = Py.nearest (149 # 100).
Proof. repeat split; vm_compute; reflexivity. Qed.

Example strip_both_ends : Py.strip "  a b  " = "a b"%string.
Proof. reflexivity. Qed.

Example lower_ascii : Py.lower "SEO Optimization." = "seo optimization."%string.
Proof. reflexivity. Qed.

Example most_common_keeps_first_on_ties :
  Counter.most_common 3
    (Counter.of_list ["a"; "b"; "c"; "b"; "c"; "d"]%string)
  = [("b", 2%Z); ("c", 2%Z); ("a", 1%Z)]%string.
Proof. reflexivity. Qed.

(** A line counts as a heading by its exact marker: ["# Title"] is an H1,
    ["#Title"] and ["#### Title"] are nothing. *)
Example headings_by_prefix :
  _analyze_headings
    (join_lines ["# Title"; "#Title"; "## Part"; "#### Title"; "### Item"])
  = mkHeadings (Some true) (Some 1%Z) (Some 1%Z) (Some 1%Z) (Some true).
Proof. reflexivity. Qed.

(** The analysis of [test_calculate_seo_score] earns every point. *)
Example test_analysis_scores_100 :
  _calculate_seo_score test_config test_analysis = 100%Z
  /\ _generate_suggestions test_config test_analysis = [].
Proof. split; reflexivity. Qed.

(** ** The scorer, row by row *)

Lemma add_if (b : bool) (s k : Z) :
  (if b then s + k else s) = s + (if b then k else 0).
Proof. destruct b; lia. Qed.

Lemma add_if2 (b c : bool) (s k l : Z) :
  (if b then s + k else if c then s + l else s)
  = s + (if b then k else if c then l else 0).
Proof. destruct b, c; lia. Qed.

Lemma ideal_density_loop_existsb (kd : Dict.t KeywordDensityEntry) :
  ideal_density_loop kd
  = existsb (fun kv => Spec.within 1.5 3.0 (density (snd kv))) kd.
Proof.
  induction kd as [|[k e] kd IH]; simpl; [reflexivity|].
  unfold Spec.within at 1. simpl.
  destruct (Qle_bool 1.5 (density e) && Qle_bool (density e) 3.0); auto.
Qed.

Lemma nonempty_length {V : Type} (d : Dict.t V) :
  nonempty d = negb (Nat.eqb (List.length d) 0).
Proof. destruct d; reflexivity. Qed.

Lemma word_count_rows (mn mx c s : Z) :
  (if c >=? mn then (if c <=? mx then s + 20 else s + 10) else s + 5)
  = s + Spec.word_count_points_short_first mn mx c.
Proof.
  unfold Spec.word_count_points_short_first.
  rewrite Z.geb_leb.
  destruct (Z.leb_spec mn c), (Z.ltb_spec c mn), (Z.leb_spec c mx); lia.
Qed.

Lemma score_by_rows (cfg : Config) (a : SeoAnalysis) :
  _calculate_seo_score cfg a = Spec.score_short_first cfg a.
Proof.
  unfold _calculate_seo_score, Spec.score_short_first, Spec.other_points.
  cbv zeta.
  rewrite word_count_rows, ideal_density_loop_existsb, nonempty_length.
  rewrite !add_if2, !add_if, Z.geb_leb.
  unfold Spec.keyword_density_points, Spec.heading_points,
    Spec.readability_points, Spec.meta_points, Spec.sentence_length_points,
    Spec.within, hasH1, h2Count, properHierarchy, fleschScore,
    hasMetaDescription, averageSentenceLength.
  f_equal. lia.
Qed.

Lemma short_first_is_table (mn mx c : Z) :
  mn <= mx ->
  Spec.word_count_points_short_first mn mx c = Spec.word_count_points mn mx c.
Proof.
  intro H. unfold Spec.word_count_points_short_first, Spec.word_count_points.
  rewrite Z.gtb_ltb.
  destruct (Z.ltb_spec c mn), (Z.leb_spec mn c), (Z.leb_spec c mx),
    (Z.ltb_spec mx c); simpl; lia.
Qed.

Ltac qcases :=
  repeat match goal with
  | |- context [Qle_bool ?x ?y] =>
      let H := fresh "Hq" in
      destruct (Qle_bool x y) eqn:H;
      [ apply Qle_bool_iff in H
      | apply not_true_iff_false in H; rewrite Qle_bool_iff in H ]
  end.

Lemma word_count_points_bounds (mn mx c : Z) :
  5 <= Spec.word_count_points_short_first mn mx c <= 20.
Proof.
  unfold Spec.word_count_points_short_first.
  destruct (c <? mn), (c <=? mx); lia.
Qed.

Lemma keyword_density_points_bounds (kd : Dict.t KeywordDensityEntry) :
  0 <= Spec.keyword_density_points kd <= 20.
Proof.
  unfold Spec.keyword_density_points.
  destruct (existsb _ kd); [lia|]. destruct (negb _); lia.
Qed.

Lemma heading_points_bounds (a : SeoAnalysis) :
  0 <= Spec.heading_points a <= 15.
Proof.
  unfold Spec.heading_points.
  destruct (hasH1 a), (3 <=? h2Count a), (properHierarchy a); lia.
Qed.

Lemma readability_points_bounds (f : Q) :
  0 <= Spec.readability_points f <= 20.
Proof.
  unfold Spec.readability_points.
  destruct (Qle_bool 60 f), (Qle_bool 40 f); lia.
Qed.

Lemma meta_points_bounds (b : bool) : 0 <= Spec.meta_points b <= 10.
Proof. destruct b; simpl; lia. Qed.

Lemma sentence_length_points_bounds (x : Q) :
  0 <= Spec.sentence_length_points x <= 15.
Proof.
  unfold Spec.sentence_length_points.
  destruct (Spec.within 15 20 x), (Spec.within 10 25 x); lia.
Qed.

Lemma other_points_bounds (a : SeoAnalysis) : 0 <= Spec.other_points a <= 80.
Proof.
  unfold Spec.other_points.
  pose proof (keyword_density_points_bounds (keyword_density a)).
  pose proof (heading_points_bounds a).
  pose proof (readability_points_bounds (fleschScore a)).
  pose proof (meta_points_bounds (hasMetaDescription a)).
  pose proof (sentence_length_points_bounds (averageSentenceLength a)).
  lia.
Qed.

(** Monotone rows. *)
Lemma readability_points_mono (f1 f2 : Q) :
  (f1 <= f2)%Q -> Spec.readability_points f1 <= Spec.readability_points f2.
Proof.
  intro H. unfold Spec.readability_points. qcases; try lia; exfalso; lra.
Qed.

Lemma sentence_length_points_mono (x1 x2 : Q) :
  (x1 <= x2)%Q -> (x2 <= 20)%Q ->
  Spec.sentence_length_points x1 <= Spec.sentence_length_points x2.
Proof.
  intros H1 H2. unfold Spec.sentence_length_points, Spec.within.
  qcases; simpl; try lia; exfalso; lra.
Qed.

Lemma word_count_points_mono (mn mx c1 c2 : Z) :
  c1 <= c2 -> c2 <= mx ->
  Spec.word_count_points_short_first mn mx c1
  <= Spec.word_count_points_short_first mn mx c2.
Proof.
  intros H1 H2. unfold Spec.word_count_points_short_first.
  destruct (Z.ltb_spec c1 mn), (Z.ltb_spec c2 mn), (Z.leb_spec c1 mx),
    (Z.leb_spec c2 mx); lia.
Qed.

Lemma existsb_within_mono (kd1 kd2 : Dict.t KeywordDensityEntry)
  (k : string) (e1 e2 : KeywordDensityEntry) :
  (density e1 <= density e2)%Q -> (density e2 <= 3)%Q ->
  existsb (fun kv => Spec.within 1.5 3.0 (density (snd kv)))
    (kd1 ++ (k, e1) :: kd2) = true ->
  existsb (fun kv => Spec.within 1.5 3.0 (density (snd kv)))
    (kd1 ++ (k, e2) :: kd2) = true.
Proof.
  intros H1 H2. rewrite !existsb_app. simpl.
  rewrite !orb_true_iff. intros [H|[H|H]]; auto.
  right; left. revert H. unfold Spec.within. rewrite !andb_true_iff.
  rewrite !Qle_bool_iff. intros [Ha Hb]. split; lra.
Qed.

Lemma keyword_density_points_mono (kd1 kd2 : Dict.t KeywordDensityEntry)
  (k : string) (e1 e2 : KeywordDensityEntry) :
  (density e1 <= density e2)%Q -> (density e2 <= 3)%Q ->
  Spec.keyword_density_points (kd1 ++ (k, e1) :: kd2)
  <= Spec.keyword_density_points (kd1 ++ (k, e2) :: kd2).
Proof.
  intros H1 H2. unfold Spec.keyword_density_points.
  pose proof (existsb_within_mono kd1 kd2 k e1 e2 H1 H2) as Hm.
  rewrite !length_app. simpl List.length.
  destruct (existsb _ (kd1 ++ (k, e1) :: kd2)).
  - rewrite Hm by reflexivity. lia.
  - destruct (existsb _ (kd1 ++ (k, e2) :: kd2)); destruct (negb _); lia.
Qed.

(** Claim C1, amended. For every analysis and every configured pair of
    limits, the score is the additive point budget of the scorer table
    capped at 100, with the word-count row read as the code nests it: 5 if
    [count < min], otherwise 20 if [count <= max], otherwise 10. Whenever
    [min <= max] this is the row as the table prints it (20 within the
    limits, 10 above [max], 5 below [min]). The other rows are those of the
    table: keyword density 20 / 10 / 0, headings +5 +5 +5, readability
    20 / 10 / 0, meta description 10 / 0, sentence length 15 / 8 / 0. *)
Theorem calculate_seo_score_budget (cfg : Config) (a : SeoAnalysis) :
  _calculate_seo_score cfg a = Spec.score_short_first cfg a
  /\ (min_word_count cfg <= max_word_count cfg ->
      _calculate_seo_score cfg a = Spec.score cfg a).
Proof.
  split; [apply score_by_rows|].
  intro H. rewrite score_by_rows.
  unfold Spec.score_short_first, Spec.score.
  now rewrite short_first_is_table.
Qed.

(** The limits of the test configuration are ordered, so there the score is
    the table as printed. *)
Lemma calculate_seo_score_budget_witness :
  min_word_count test_config <= max_word_count test_config
  /\ _calculate_seo_score test_config test_analysis
     = Spec.score test_config test_analysis.
Proof.
  split.
  - simpl. lia.
  - apply (proj2 (calculate_seo_score_budget test_config test_analysis)).
    simpl. lia.
Defined.

(** Claim C1 as stated fails when the limits are swapped: with [min = 3000]
    and [max = 2500] a text of 2700 words is both above [max] and below
    [min]; the code gives the row 5 points, the table read in its order 10. *)
Lemma table_rows_overlap_when_min_exceeds_max :
  _calculate_seo_score (mkConfig 0.02 3000 2500)
    (with_word_count test_analysis 2700) = 85
  /\ Spec.score (mkConfig 0.02 3000 2500)
       (with_word_count test_analysis 2700) = 90.
Proof. split; reflexivity. Qed.

(** Claim C2. For every analysis, whatever its field values and whichever
    optional keys are missing, and for every configuration, the score lies
    in [[0, 100]]. *)
Theorem calculate_seo_score_range (cfg : Config) (a : SeoAnalysis) :
  0 <= _calculate_seo_score cfg a <= 100.
Proof.
  rewrite score_by_rows. unfold Spec.score_short_first.
  pose proof (word_count_points_bounds (min_word_count cfg)
                (max_word_count cfg) (word_count a)).
  pose proof (other_points_bounds a).
  lia.
Qed.

(** Claim C3 as stated fails for the word count and for the average
    sentence length: under the default limits a 2501st word costs the test
    analysis 10 points, and a 21st word per sentence costs it 7. *)
Lemma score_drops_past_upper_limits :
  2500 <= 2501
  /\ _calculate_seo_score default_config (with_word_count test_analysis 2501)
     < _calculate_seo_score default_config (with_word_count test_analysis 2500)
  /\ (20 <= 21)%Q
  /\ _calculate_seo_score default_config
       (with_average_sentence_length test_analysis 21)
     < _calculate_seo_score default_config
         (with_average_sentence_length test_analysis 20).
Proof. repeat split; try reflexivity; discriminate. Qed.

Ltac one_row :=
  rewrite !score_by_rows;
  unfold Spec.score_short_first, Spec.other_points, Spec.heading_points,
    hasH1, h2Count, properHierarchy, fleschScore, hasMetaDescription,
    averageSentenceLength;
  cbn [with_word_count with_keyword_density with_has_h1 with_h2_count
       with_proper_hierarchy with_flesch_score with_has_meta_description
       with_average_sentence_length word_count keyword_density
       heading_structure readability has_meta_description
       average_sentence_length has_h1 h2_count proper_hierarchy flesch_score
       Dict.get];
  apply Z.min_le_compat_r.

(** Claim C3, amended. With every other field held fixed the score never
    decreases when [h2_count] or [flesch_score] increases, or when
    [has_h1], [proper_hierarchy] or [has_meta_description] turns from false
    to true. It never decreases either when the word count increases
    without exceeding [max_word_count], when the average sentence length
    increases without exceeding 20, or when one keyword's density increases
    without exceeding 3.0. *)
Theorem calculate_seo_score_monotone (cfg : Config) (a : SeoAnalysis) :
  (forall n1 n2 : Z, n1 <= n2 ->
     _calculate_seo_score cfg (with_h2_count a n1)
     <= _calculate_seo_score cfg (with_h2_count a n2))
  /\ (forall f1 f2 : Q, (f1 <= f2)%Q ->
     _calculate_seo_score cfg (with_flesch_score a f1)
     <= _calculate_seo_score cfg (with_flesch_score a f2))
  /\ (forall b1 b2 : bool, Bool.le b1 b2 ->
     _calculate_seo_score cfg (with_has_h1 a b1)
     <= _calculate_seo_score cfg (with_has_h1 a b2))
  /\ (forall b1 b2 : bool, Bool.le b1 b2 ->
     _calculate_seo_score cfg (with_proper_hierarchy a b1)
     <= _calculate_seo_score cfg (with_proper_hierarchy a b2))
  /\ (forall b1 b2 : bool, Bool.le b1 b2 ->
     _calculate_seo_score cfg (with_has_meta_description a b1)
     <= _calculate_seo_score cfg (with_has_meta_description a b2))
  /\ (forall n1 n2 : Z, n1 <= n2 -> n2 <= max_word_count cfg ->
     _calculate_seo_score cfg (with_word_count a n1)
     <= _calculate_seo_score cfg (with_word_count a n2))
  /\ (forall x1 x2 : Q, (x1 <= x2)%Q -> (x2 <= 20)%Q ->
     _calculate_seo_score cfg (with_average_sentence_length a x1)
     <= _calculate_seo_score cfg (with_average_sentence_length a x2))
  /\ (forall kd1 kd2 k e1 e2,
     (density e1 <= density e2)%Q -> (density e2 <= 3)%Q ->
     _calculate_seo_score cfg (with_keyword_density a (kd1 ++ (k, e1) :: kd2))
     <= _calculate_seo_score cfg
          (with_keyword_density a (kd1 ++ (k, e2) :: kd2))).
Proof.
  repeat split.
  - intros n1 n2 H. one_row.
    destruct (Z.leb_spec 3 n1), (Z.leb_spec 3 n2); lia.
  - intros f1 f2 H. one_row.
    pose proof (readability_points_mono f1 f2 H). lia.
  - intros [] [] H; try discriminate H; one_row; lia.
  - intros [] [] H; try discriminate H; one_row; lia.
  - intros [] [] H; try discriminate H; one_row; simpl; lia.
  - intros n1 n2 H1 H2. one_row.
    pose proof (word_count_points_mono (min_word_count cfg)
                  (max_word_count cfg) n1 n2 H1 H2). lia.
  - intros x1 x2 H1 H2. one_row.
    pose proof (sentence_length_points_mono x1 x2 H1 H2). lia.
  - intros kd1 kd2 k e1 e2 H1 H2. one_row.
    pose proof (keyword_density_points_mono kd1 kd2 k e1 e2 H1 H2). lia.
Qed.

(** Each signal raised on the test analysis. *)
Lemma calculate_seo_score_monotone_witness :
  (2 <= 3
   /\ _calculate_seo_score test_config (with_h2_count test_analysis 2)
      <= _calculate_seo_score test_config (with_h2_count test_analysis 3))
  /\ ((30 <= 65)%Q
      /\ _calculate_seo_score test_config (with_flesch_score test_analysis 30)
         <= _calculate_seo_score test_config
              (with_flesch_score test_analysis 65))
  /\ (Bool.le false true
      /\ _calculate_seo_score test_config (with_has_h1 test_analysis false)
         <= _calculate_seo_score test_config (with_has_h1 test_analysis true))
  /\ (Bool.le false true
      /\ _calculate_seo_score test_config
           (with_proper_hierarchy test_analysis false)
         <= _calculate_seo_score test_config
              (with_proper_hierarchy test_analysis true))
  /\ (Bool.le false true
      /\ _calculate_seo_score test_config
           (with_has_meta_description test_analysis false)
         <= _calculate_seo_score test_config
              (with_has_meta_description test_analysis true))
  /\ (200 <= 1000 /\ 1000 <= max_word_count test_config
      /\ _calculate_seo_score test_config (with_word_count test_analysis 200)
         <= _calculate_seo_score test_config
              (with_word_count test_analysis 1000))
  /\ ((8 <= 18)%Q /\ (18 <= 20)%Q
      /\ _calculate_seo_score test_config
           (with_average_sentence_length test_analysis 8)
         <= _calculate_seo_score test_config
              (with_average_sentence_length test_analysis 18))
  /\ ((0.5 <= 2.0)%Q /\ (2.0 <= 3)%Q
      /\ _calculate_seo_score test_config
           (with_keyword_density test_analysis
              ([] ++ [("test"%string, mkEntry 5 0.5)]))
         <= _calculate_seo_score test_config
              (with_keyword_density test_analysis
                 ([] ++ [("test"%string, mkEntry 5 2.0)]))).
Proof.
  pose proof (calculate_seo_score_monotone test_config test_analysis)
    as [H1 [H2 [H3 [H4 [H5 [H6 [H7 H8]]]]]]].
  assert (Q1 : (30 <= 65)%Q) by (apply Qle_bool_iff; reflexivity).
  assert (Q2 : (8 <= 18)%Q) by (apply Qle_bool_iff; reflexivity).
  assert (Q3 : (18 <= 20)%Q) by (apply Qle_bool_iff; reflexivity).
  assert (Q4 : (0.5 <= 2.0)%Q) by (apply Qle_bool_iff; reflexivity).
  assert (Q5 : (2.0 <= 3)%Q) by (apply Qle_bool_iff; reflexivity).
  assert (Z1 : 2 <= 3) by lia.
  assert (Z2 : 200 <= 1000) by lia.
  assert (Z3 : 1000 <= max_word_count test_config) by (simpl; lia).
  assert (B : Bool.le false true) by exact I.
  exact
    (conj (conj Z1 (H1 2 3 Z1))
    (conj (conj Q1 (H2 30%Q 65%Q Q1))
    (conj (conj B (H3 false true B))
    (conj (conj B (H4 false true B))
    (conj (conj B (H5 false true B))
    (conj (conj Z2 (conj Z3 (H6 200 1000 Z2 Z3)))
    (conj (conj Q2 (conj Q3 (H7 8%Q 18%Q Q2 Q3)))
          (conj Q4 (conj Q5
             (H8 [] [] "test"%string (mkEntry 5 0.5) (mkEntry 5 2.0)
                 Q4 Q5)))))))))).
Defined.

(** ** The suggestion generator *)

Lemma Qlt_bool_iff (x y : Q) : Py.Qlt_bool x y = true <-> (x < y)%Q.
Proof.
  unfold Py.Qlt_bool. rewrite negb_true_iff, <- not_true_iff_false.
  rewrite Qle_bool_iff. split; [apply Qnot_le_lt | apply Qlt_not_le].
Qed.

Lemma Qlt_bool_false_iff (x y : Q) : Py.Qlt_bool x y = false <-> (y <= x)%Q.
Proof.
  unfold Py.Qlt_bool. rewrite negb_false_iff. apply Qle_bool_iff.
Qed.

Lemma keyword_suggestions_flat_map (items : Dict.t KeywordDensityEntry)
  (acc : list Suggestion) :
  keyword_suggestions items acc
  = acc ++ flat_map Spec.keyword_suggestion items.
Proof.
  revert acc. induction items as [|[k e] items IH]; intro acc; simpl.
  - now rewrite app_nil_r.
  - rewrite IH. unfold Spec.keyword_suggestion. simpl.
    destruct (Py.Qlt_bool (density e) 1.0);
      [|destruct (Py.Qlt_bool 3.0 (density e))];
      now rewrite <- ?app_assoc.
Qed.

Lemma suggestions_in_order (cfg : Config) (a : SeoAnalysis) :
  _generate_suggestions cfg a
  = Spec.word_count_suggestions (min_word_count cfg) (max_word_count cfg)
      (word_count a)
    ++ flat_map Spec.keyword_suggestion (keyword_density a)
    ++ Spec.h1_suggestions a
    ++ Spec.h2_suggestions a
    ++ Spec.readability_suggestions a
    ++ Spec.sentence_suggestions a.
Proof.
  unfold _generate_suggestions. cbv zeta.
  rewrite keyword_suggestions_flat_map.
  unfold Spec.word_count_suggestions, Spec.h1_suggestions,
    Spec.h2_suggestions, Spec.readability_suggestions,
    Spec.sentence_suggestions, hasH1, h2Count, fleschScore,
    averageSentenceLength.
  rewrite Z.gtb_ltb.
  destruct (word_count a <? min_word_count cfg);
    [|destruct (max_word_count cfg <? word_count a)];
  (destruct (Dict.get (has_h1 (heading_structure a)) false);
   destruct (Dict.get (h2_count (heading_structure a)) 0 <? 3);
   destruct (Py.Qlt_bool (Dict.get (flesch_score (readability a)) 0%Q) 40);
   (destruct (Py.Qlt_bool 25 (Dict.get (average_sentence_length a) 20%Q));
    [|destruct (Py.Qlt_bool (Dict.get (average_sentence_length a) 20%Q) 10)]);
   cbn [negb app]; rewrite <- ?app_assoc, ?app_nil_r; reflexivity).
Qed.

Lemma entry_of_key {V : Type} (d : Dict.t V) (k : string) (v v' : V) :
  NoDup (Dict.keys d) -> In (k, v) d -> In (k, v') d -> v = v'.
Proof.
  unfold Dict.keys. induction d as [|[k0 v0] d IH]; simpl; [tauto|].
  intros Hnd [H1|H1] [H2|H2]; inversion Hnd as [|? ? Hnotin Hnd']; subst.
  - congruence.
  - inversion H1; subst. exfalso. apply Hnotin.
    change k with (fst (k, v')). now apply in_map.
  - inversion H2; subst. exfalso. apply Hnotin.
    change k with (fst (k, v)). now apply in_map.
  - now apply IH.
Qed.

Lemma keyword_message_source (kd : Dict.t KeywordDensityEntry)
  (k : string) (m : Suggestion) :
  In m (flat_map Spec.keyword_suggestion kd) -> Spec.about_keyword k m ->
  exists e, In (k, e) kd
            /\ ((density e < 1)%Q \/ (3 < density e)%Q).
Proof.
  rewrite in_flat_map. intros [[k' e] [Hin Hm]] Hk.
  unfold Spec.keyword_suggestion in Hm. simpl in Hm.
  destruct (Py.Qlt_bool (density e) 1.0) eqn:H1;
    [|destruct (Py.Qlt_bool 3.0 (density e)) eqn:H3]; simpl in Hm;
    try tauto; destruct Hm as [<-|[]]; simpl in Hk; subst k'.
  - exists e. split; [assumption|]. left.
    apply Qlt_bool_iff in H1. lra.
  - exists e. split; [assumption|]. right.
    apply Qlt_bool_iff in H3. lra.
Qed.

Ltac pieces H :=
  rewrite suggestions_in_order in H;
  repeat (apply in_app_or in H; destruct H as [H|H]).

(** A message found in one piece: which message it is. *)
Ltac which_message H :=
  try (apply in_flat_map in H; destruct H as [[? ?] [? H]]);
  unfold Spec.word_count_suggestions, Spec.keyword_suggestion,
    Spec.h1_suggestions, Spec.h2_suggestions, Spec.readability_suggestions,
    Spec.sentence_suggestions in H;
  cbn [fst snd] in H;
  repeat match type of H with
         | context [if ?b then _ else _] => destruct b eqn:?
         end;
  cbn [In] in H;
  repeat match type of H with
         | _ \/ _ => destruct H as [H|H]
         | False => destruct H
         end;
  try discriminate H; try subst.

(** Claim C9. The suggestions are the concatenation, in this order, of the
    independent checks on the word count, on each keyword in the iteration
    order of the density mapping, on the H1, on the H2 count, on the
    readability and on the sentence length (too long tried before too
    short). No H1 message appears when [hasH1] holds, no message about a
    keyword whose density lies in [[1.0, 3.0]], no word-count message when
    the count lies within the limits, no readability message when the
    Flesch score is at least 40 and no sentence-length message when the
    average lies in [[10, 25]]. *)
Theorem generate_suggestions_only_out_of_range
  (cfg : Config) (a : SeoAnalysis) :
  _generate_suggestions cfg a
  = Spec.word_count_suggestions (min_word_count cfg) (max_word_count cfg)
      (word_count a)
    ++ flat_map Spec.keyword_suggestion (keyword_density a)
    ++ Spec.h1_suggestions a
    ++ Spec.h2_suggestions a
    ++ Spec.readability_suggestions a
    ++ Spec.sentence_suggestions a
  /\ (hasH1 a = true -> ~ In AddH1 (_generate_suggestions cfg a))
  /\ (forall k e, NoDup (Dict.keys (keyword_density a)) ->
        In (k, e) (keyword_density a) ->
        (1 <= density e)%Q -> (density e <= 3)%Q ->
        forall m, In m (_generate_suggestions cfg a) ->
                  ~ Spec.about_keyword k m)
  /\ (min_word_count cfg <= word_count a -> word_count a <= max_word_count cfg ->
        forall m, In m (_generate_suggestions cfg a) ->
                  ~ Spec.about_word_count m)
  /\ ((40 <= fleschScore a)%Q ->
        ~ In SimplifyLanguage (_generate_suggestions cfg a))
  /\ ((10 <= averageSentenceLength a)%Q -> (averageSentenceLength a <= 25)%Q ->
        forall m, In m (_generate_suggestions cfg a) ->
                  ~ Spec.about_sentence_length m).
Proof.
  split; [apply suggestions_in_order|].
  split; [|split; [|split; [|split]]].
  - intros Hh H. pieces H; which_message H. congruence.
  - intros k e Hnd Hin Hlo Hhi m H Hk.
    pieces H;
      try (destruct (keyword_message_source _ k m H Hk) as [e' [Hin' Hout]];
           rewrite (entry_of_key _ k e e' Hnd Hin Hin') in Hlo, Hhi; lra);
      which_message H; destruct Hk.
  - intros Hlo Hhi m H Hk. pieces H; which_message H; try destruct Hk.
    + match goal with E : (_ <? _) = true |- _ => apply Z.ltb_lt in E end. lia.
    + match goal with E : (max_word_count _ <? _) = true |- _ =>
        apply Z.ltb_lt in E end. lia.
  - intros Hf H. pieces H; which_message H.
    match goal with E : Py.Qlt_bool _ _ = true |- _ =>
      apply Qlt_bool_iff in E end. lra.
  - intros Hlo Hhi m H Hk. pieces H; which_message H; try destruct Hk.
    + match goal with E : Py.Qlt_bool 25 _ = true |- _ =>
        apply Qlt_bool_iff in E end. lra.
    + match goal with E : Py.Qlt_bool _ 10 = true |- _ =>
        apply Qlt_bool_iff in E end. lra.
Qed.

(** The test analysis has every signal within its range, and no message. *)
Lemma generate_suggestions_only_out_of_range_witness :
  hasH1 test_analysis = true
  /\ NoDup (Dict.keys (keyword_density test_analysis))
  /\ In ("test"%string, mkEntry 5 2.0) (keyword_density test_analysis)
  /\ (1 <= 2.0)%Q /\ (2.0 <= 3)%Q
  /\ min_word_count test_config <= word_count test_analysis
  /\ word_count test_analysis <= max_word_count test_config
  /\ (40 <= fleschScore test_analysis)%Q
  /\ (10 <= averageSentenceLength test_analysis)%Q
  /\ (averageSentenceLength test_analysis <= 25)%Q
  /\ ~ In AddH1 (_generate_suggestions test_config test_analysis)
  /\ (forall m, In m (_generate_suggestions test_config test_analysis) ->
        ~ Spec.about_keyword "test" m)
  /\ (forall m, In m (_generate_suggestions test_config test_analysis) ->
        ~ Spec.about_word_count m)
  /\ ~ In SimplifyLanguage (_generate_suggestions test_config test_analysis)
  /\ (forall m, In m (_generate_suggestions test_config test_analysis) ->
        ~ Spec.about_sentence_length m).
Proof.
  pose proof (generate_suggestions_only_out_of_range test_config test_analysis)
    as [_ [H1 [H2 [H3 [H4 H5]]]]].
  assert (N : NoDup (Dict.keys (keyword_density test_analysis)))
    by (repeat constructor; simpl; tauto).
  assert (I : In ("test"%string, mkEntry 5 2.0) (keyword_density test_analysis))
    by (now left).
  assert (Q1 : (1 <= 2.0)%Q) by (apply Qle_bool_iff; reflexivity).
  assert (Q2 : (2.0 <= 3)%Q) by (apply Qle_bool_iff; reflexivity).
  assert (Q3 : (40 <= fleschScore test_analysis)%Q)
    by (apply Qle_bool_iff; reflexivity).
  assert (Q4 : (10 <= averageSentenceLength test_analysis)%Q)
    by (apply Qle_bool_iff; reflexivity).
  assert (Q5 : (averageSentenceLength test_analysis <= 25)%Q)
    by (apply Qle_bool_iff; reflexivity).
  assert (Z1 : min_word_count test_config <= word_count test_analysis)
    by (simpl; lia).
  assert (Z2 : word_count test_analysis <= max_word_count test_config)
    by (simpl; lia).
  repeat (split; [assumption || reflexivity|]).
  split; [apply H1; reflexivity|].
  split; [exact (H2 "test"%string (mkEntry 5 2.0) N I Q1 Q2)|].
  split; [exact (H3 Z1 Z2)|].
  split; [exact (H4 Q3)|].
  exact (H5 Q4 Q5).
Defined.

(** ** Syllables *)

(** Counting over a shifted range. *)
Lemma filter_seq_shift (f : nat -> bool) (a n : nat) :
  List.length (filter f (seq (S a) n))
  = List.length (filter (fun i => f (S i)) (seq a n)).
Proof.
  revert a. induction n as [|n IH]; intro a; simpl; [reflexivity|].
  destruct (f (S a)); simpl; now rewrite IH.
Qed.

(** The loop adds to [count] the vowel groups that start after the
    character [c] it has just read. *)
Lemma syllable_loop_counts (c : ascii) (rest : string) (count : Z) :
  syllable_loop rest count (is_vowel c)
  = count
    + Z.of_nat (List.length
        (filter (Spec.is_transition (String c rest))
           (seq 1 (String.length rest)))).
Proof.
  revert c count. induction rest as [|d rest IH]; intros c count.
  - simpl. lia.
  - cbn [syllable_loop String.length]. rewrite IH.
    cbn [seq filter].
    replace (Spec.is_transition (String c (String d rest)) 1)
      with (is_vowel d && negb (is_vowel c))%bool by reflexivity.
    assert (Hshift :
      List.length (filter (Spec.is_transition (String c (String d rest)))
                     (seq 2 (String.length rest)))
      = List.length (filter (Spec.is_transition (String d rest))
                       (seq 1 (String.length rest)))).
    { rewrite (filter_seq_shift _ 1). f_equal. apply filter_ext_in.
      intros i Hi. apply in_seq in Hi. destruct i as [|i]; [lia|reflexivity]. }
    destruct (is_vowel d && negb (is_vowel c))%bool; cbn [List.length];
      rewrite Hshift; lia.
Qed.

Lemma syllable_loop_transitions (w : string) :
  syllable_loop w 0 false = Spec.transitions w.
Proof.
  unfold Spec.transitions. destruct w as [|c rest]; [reflexivity|].
  cbn [syllable_loop String.length seq filter].
  rewrite syllable_loop_counts.
  replace (Spec.is_transition (String c rest) 0) with (is_vowel c)
    by (unfold Spec.is_transition, Spec.vowel_at; simpl;
        now rewrite andb_true_r).
  rewrite andb_true_r.
  destruct (is_vowel c); cbn [List.length]; lia.
Qed.

(** Claim C7. The syllable count of a word is the number of vowel groups
    of the lower-cased word (positions holding a vowel of [aeiouy] not
    preceded by one), less 1 if the word ends in [e], and at least 1; so
    "hello" has 2, "a" has 1 and "optimization" has 5. *)
Theorem count_syllables_spec (word : string) :
  _count_syllables word = Spec.syllables word
  /\ _count_syllables "hello" = 2
  /\ _count_syllables "a" = 1
  /\ _count_syllables "optimization" = 5.
Proof.
  split; [|repeat split; reflexivity].
  unfold _count_syllables, Spec.syllables. cbv zeta.
  rewrite syllable_loop_transitions.
  destruct (Py.endswith_char (Py.lower word) "e"); f_equal; lia.
Qed.

(** ** The analyzer *)

(** *** Occurrences *)

Section Occurrences.

Variable sub : string.

Lemma non_overlapping_from (s : string) (from from' : nat) (ps : list nat) :
  (from' <= from)%nat ->
  Spec.non_overlapping sub s from ps -> Spec.non_overlapping sub s from' ps.
Proof.
  intro H. destruct ps as [|i ps]; simpl; [trivial|].
  intros [H1 H2]. split; [lia|assumption].
Qed.

Lemma next_start_succ (i : nat) :
  Nat.max (S i + 1) (S i + String.length sub)
  = S (Nat.max (i + 1) (i + String.length sub)).
Proof. lia. Qed.

Lemma non_overlapping_shift_up (c : ascii) (s : string) (from : nat)
  (ps : list nat) :
  Spec.non_overlapping sub s from ps ->
  Spec.non_overlapping sub (String c s) (S from) (map S ps).
Proof.
  revert from.
  induction ps as [|i ps IH]; intro from;
    cbn [Spec.non_overlapping map Spec.occurs_at]; [trivial|].
  intros [H1 [H2 H3]]. repeat split; [lia|assumption|].
  rewrite next_start_succ. now apply IH.
Qed.

Lemma non_overlapping_shift_down (c : ascii) (s : string) (from : nat)
  (ps : list nat) :
  Spec.non_overlapping sub (String c s) (S from) ps ->
  Spec.non_overlapping sub s from (map Nat.pred ps).
Proof.
  revert from.
  induction ps as [|i ps IH]; intro from;
    cbn [Spec.non_overlapping map]; [trivial|].
  intros [H1 [H2 H3]]. destruct i as [|i]; [lia|].
  cbn [Nat.pred Spec.occurs_at] in *.
  repeat split; [lia|assumption|].
  apply IH. now rewrite next_start_succ in H3.
Qed.

Lemma occurs_at_end (i : nat) :
  Spec.occurs_at sub EmptyString i = true -> i = 0%nat /\ sub = EmptyString.
Proof.
  destruct i; simpl; [|discriminate].
  destruct sub; [auto|discriminate].
Qed.

Lemma non_overlapping_end (from : nat) (ps : list nat) :
  Spec.non_overlapping sub EmptyString from ps ->
  ps = [] \/ (ps = [0%nat] /\ sub = EmptyString /\ from = 0%nat).
Proof.
  destruct ps as [|i ps]; [auto|].
  cbn [Spec.non_overlapping]. intros [H1 [H2 H3]].
  apply occurs_at_end in H2. destruct H2 as [-> Hsub]. right.
  destruct ps as [|j ps].
  - split; [reflexivity|]. split; [assumption|lia].
  - cbn [Spec.non_overlapping] in H3. destruct H3 as [H3 [H4 _]].
    apply occurs_at_end in H4. destruct H4 as [-> _]. lia.
Qed.

(** The scan of [count_go] picks as many occurrences as any choice can. *)
Lemma count_go_optimal (s : string) (skip : nat) :
  (skip <= String.length sub - 1)%nat ->
  (exists ps, Spec.non_overlapping sub s skip ps
              /\ List.length ps = Py.count_go sub s skip)
  /\ (forall ps, Spec.non_overlapping sub s skip ps ->
                 (List.length ps <= Py.count_go sub s skip)%nat).
Proof.
  revert skip. induction s as [|c s IH]; intros skip Hskip.
  - split.
    + destruct sub eqn:E.
      * exists [0%nat]. cbn in *. repeat split; lia.
      * exists []. cbn. auto.
    + intros ps H. apply non_overlapping_end in H.
      destruct H as [->|[-> [Hsub _]]]; simpl; [lia|].
      rewrite Hsub. simpl. lia.
  - destruct skip as [|k].
    + cbn [Py.count_go]. destruct (String.prefix sub (String c s)) eqn:Hp.
      * destruct (IH (String.length sub - 1)%nat) as [[ps [Hps Hlen]] Hmax];
          [lia|].
        split.
        -- exists (0%nat :: map S ps). split.
           ++ cbn [Spec.non_overlapping Spec.occurs_at].
              split; [lia|]. split; [assumption|].
              replace (Nat.max (0 + 1) (0 + String.length sub))
                with (S (String.length sub - 1)) by lia.
              now apply non_overlapping_shift_up.
           ++ cbn [List.length]. rewrite length_map. lia.
        -- intros [|i qs]; cbn [Spec.non_overlapping List.length]; [lia|].
           intros [_ [_ H]].
           apply (non_overlapping_from _ _ (S (String.length sub - 1))) in H;
             [|lia].
           apply non_overlapping_shift_down in H. apply Hmax in H.
           rewrite length_map in H. lia.
      * destruct (IH 0%nat) as [[ps [Hps Hlen]] Hmax]; [lia|].
        split.
        -- exists (map S ps). split; [|now rewrite length_map].
           apply (non_overlapping_from _ 1); [lia|].
           now apply non_overlapping_shift_up.
        -- intros qs H.
           assert (H1 : Spec.non_overlapping sub (String c s) 1 qs).
           { destruct qs as [|i qs]; cbn [Spec.non_overlapping] in *;
               [trivial|].
             destruct H as [_ [H2 H3]]. repeat split; try assumption.
             destruct i; [|lia]. cbn [Spec.occurs_at] in H2. congruence. }
           apply non_overlapping_shift_down in H1. apply Hmax in H1.
           now rewrite length_map in H1.
    + cbn [Py.count_go].
      destruct (IH k) as [[ps [Hps Hlen]] Hmax]; [lia|].
      split.
      * exists (map S ps). split; [|now rewrite length_map].
        now apply non_overlapping_shift_up.
      * intros qs H. apply non_overlapping_shift_down in H.
        apply Hmax in H. now rewrite length_map in H.
Qed.

Lemma count_is_occurrence_count (s : string) :
  Spec.occurrence_count sub s (Z.to_nat (Py.count s sub)).
Proof.
  unfold Py.count. rewrite Nat2Z.id.
  apply (count_go_optimal s 0). lia.
Qed.

End Occurrences.

(** *** Rounding *)

Lemma round_half_even_near (q : Q) :
  (Qabs (inject_Z (Py.round_half_even q) - q) <= 1 # 2)%Q.
Proof.
  unfold Py.round_half_even. cbv zeta.
  pose proof (Qfloor_le q) as Hlo. pose proof (Qlt_floor q) as Hhi.
  rewrite inject_Z_plus in Hhi. change (inject_Z 1) with 1%Q in Hhi.
  apply Qabs_Qle_condition.
  destruct (q - inject_Z (Qfloor q) ?= 1 # 2)%Q eqn:E.
  - apply Qeq_alt in E. destruct (Z.even (Qfloor q));
      rewrite ?inject_Z_plus; change (inject_Z 1) with 1%Q; split; lra.
  - apply Qlt_alt in E. split; lra.
  - apply Qgt_alt in E. rewrite inject_Z_plus.
    change (inject_Z 1) with 1%Q. split; lra.
Qed.

Lemma round_half_even_nonneg (q : Q) : (0 <= q)%Q -> 0 <= Py.round_half_even q.
Proof.
  intro H. unfold Py.round_half_even. cbv zeta.
  assert (Hf : 0 <= Qfloor q).
  { change 0 with (Qfloor 0). now apply Qfloor_resp_le. }
  destruct (_ ?= _)%Q; [destruct (Z.even _)| |]; lia.
Qed.

(** On a tie the even neighbour is taken. *)
Lemma round_half_even_tie (q : Q) :
  (Qabs (inject_Z (Py.round_half_even q) - q) == 1 # 2)%Q ->
  Z.even (Py.round_half_even q) = true.
Proof.
  unfold Py.round_half_even. cbv zeta.
  pose proof (Qfloor_le q) as Hlo. pose proof (Qlt_floor q) as Hhi.
  rewrite inject_Z_plus in Hhi. change (inject_Z 1) with 1%Q in Hhi.
  destruct (q - inject_Z (Qfloor q) ?= 1 # 2)%Q eqn:E.
  - intros _. destruct (Z.even (Qfloor q)) eqn:Ev; [exact Ev|].
    rewrite Z.even_add, Ev. reflexivity.
  - apply Qlt_alt in E. intro H. exfalso.
    rewrite Qabs_neg in H by lra. lra.
  - apply Qgt_alt in E. rewrite inject_Z_plus.
    change (inject_Z 1) with 1%Q. intro H. exfalso.
    rewrite Qabs_pos in H by lra. lra.
Qed.

(** *** Binary64 rounding *)

(** The scaled significand and the value it stands for. *)
Lemma scaled_back (N D A B P m s : Q) :
  (0 < N -> 0 < D -> 0 < A -> 0 < B -> 0 < P ->
   s == N * B * P / (D * A) ->
   Qabs (m - s) <= 1 # 2 ->
   4503599627370496 * (D * A) <= N * B * P ->
   Qabs (m * A / (B * P) - N / D) <= N / D * (1 # 9007199254740992))%Q.
Proof.
  intros HN HD HA HB HP Hs Hm Hlow.
  set (t := (A / (B * P))%Q).
  assert (Ht : (0 < t)%Q).
  { unfold t. apply Qlt_shift_div_l; nra. }
  assert (E1 : (m * A / (B * P) == m * t)%Q) by (unfold t; field; nra).
  assert (E2 : (N / D == s * t)%Q).
  { unfold t. rewrite Hs. field. repeat split; nra. }
  rewrite E1, E2.
  assert (Hs2 : (1 <= 2 * (1 # 9007199254740992) * s)%Q).
  { rewrite Hs.
    assert (E3 : (2 * (1 # 9007199254740992) * (N * B * P / (D * A))
                  == 2 * (1 # 9007199254740992) * (N * B * P) / (D * A))%Q)
      by (field; nra).
    rewrite E3. apply Qle_shift_div_l; [nra|].
    nra. }
  apply Qabs_Qle_condition in Hm. apply Qabs_Qle_condition.
  split; nra.
Qed.

Lemma nearest_pos_error (n d : Z) :
  0 < n -> 0 < d ->
  (Qabs (Py.nearest_pos n d - inject_Z n / inject_Z d)
   <= inject_Z n / inject_Z d * (1 # 9007199254740992))%Q.
Proof.
  intros Hn Hd. unfold Py.nearest_pos. cbv zeta.
  pose proof (Z.log2_spec n Hn) as [Ha1 Ha2].
  pose proof (Z.log2_spec d Hd) as [Hb1 Hb2].
  pose proof (Z.log2_nonneg n) as Ha0. pose proof (Z.log2_nonneg d) as Hb0.
  rewrite Z.pow_succ_r in Ha2, Hb2 by assumption.
  set (a := Z.log2 n) in *. set (b := Z.log2 d) in *.
  set (A := 2 ^ a) in *. set (B := 2 ^ b) in *.
  assert (HA : 0 < A) by lia. assert (HB : 0 < B) by lia.
  set (c := if n * B <? d * A then 53 else 52).
  assert (Hc : 0 <= c) by (unfold c; destruct (_ <? _); lia).
  rewrite Z.pow_add_r by assumption. fold B.
  set (P := 2 ^ c).
  assert (HP : 0 < P) by (unfold P; apply Z.pow_pos_nonneg; lia).
  assert (Hlow : 4503599627370496 * (d * A) <= n * B * P).
  { unfold P, c. destruct (Z.ltb_spec (n * B) (d * A)).
    - change (2 ^ 53) with 9007199254740992. nia.
    - change (2 ^ 52) with 4503599627370496. nia. }
  rewrite !inject_Z_mult.
  apply scaled_back with
    (s := (inject_Z n * (inject_Z B * inject_Z P) / (inject_Z d * inject_Z A))%Q).
  - change 0%Q with (inject_Z 0). now rewrite <- Zlt_Qlt.
  - change 0%Q with (inject_Z 0). now rewrite <- Zlt_Qlt.
  - change 0%Q with (inject_Z 0). now rewrite <- Zlt_Qlt.
  - change 0%Q with (inject_Z 0). now rewrite <- Zlt_Qlt.
  - change 0%Q with (inject_Z 0). now rewrite <- Zlt_Qlt.
  - assert (HA' : (0 < inject_Z A)%Q)
      by (change 0%Q with (inject_Z 0); now rewrite <- Zlt_Qlt).
    assert (Hd' : (0 < inject_Z d)%Q)
      by (change 0%Q with (inject_Z 0); now rewrite <- Zlt_Qlt).
    field. split; lra.
  - apply round_half_even_near.
  - rewrite <- !inject_Z_mult. 
    change 4503599627370496%Q with (inject_Z 4503599627370496).
    rewrite <- inject_Z_mult, <- Zle_Qle. exact Hlow.
Qed.

Lemma nearest_pos_nonneg (n d : Z) : 0 < n -> 0 < d -> (0 <= Py.nearest_pos n d)%Q.
Proof.
  intros Hn Hd. pose proof (nearest_pos_error n d Hn Hd) as H.
  apply Qabs_Qle_condition in H.
  assert (0 < inject_Z n / inject_Z d)%Q.
  { assert (Hn' : (0 < inject_Z n)%Q)
      by (change 0%Q with (inject_Z 0); now rewrite <- Zlt_Qlt).
    assert (Hd' : (0 < inject_Z d)%Q)
      by (change 0%Q with (inject_Z 0); now rewrite <- Zlt_Qlt).
    apply Qlt_shift_div_l; lra. }
  lra.
Qed.

Lemma as_quotient (q : Q) : (q == inject_Z (Qnum q) / inject_Z (Zpos (Qden q)))%Q.
Proof. destruct q as [n d]. cbn [Qnum Qden]. apply Qmake_Qdiv. Qed.

Lemma nearest_error (q : Q) :
  (Qabs (Py.nearest q - q) <= Qabs q * (1 # 9007199254740992))%Q.
Proof.
  pose proof (as_quotient q) as E. unfold Py.nearest.
  destruct (Qnum q) as [|p|p] eqn:En.
  - assert (q == 0)%Q as -> by (rewrite E; reflexivity). discriminate.
  - pose proof (nearest_pos_error (Zpos p) (Zpos (Qden q))) as H.
    rewrite <- E in H. specialize (H eq_refl eq_refl).
    assert (0 <= q)%Q by (unfold Qle; rewrite En; cbn; lia).
    rewrite (Qabs_pos q) by assumption. exact H.
  - pose proof (nearest_pos_error (Zpos p) (Zpos (Qden q))) as H.
    specialize (H eq_refl eq_refl).
    assert (E' : (inject_Z (Zpos p) / inject_Z (Zpos (Qden q)) == - q)%Q).
    { transitivity (- (inject_Z (Zneg p) / inject_Z (Zpos (Qden q))))%Q;
        [|apply Qopp_comp; symmetry; exact E].
      change (Zneg p) with (- Zpos p). rewrite inject_Z_opp.
      field. discriminate. }
    rewrite E' in H.
    assert (q <= 0)%Q by (unfold Qle; rewrite En; cbn; lia).
    rewrite (Qabs_neg q) by assumption.
    change (- Z.neg p) with (Z.pos p).
    apply Qabs_Qle_condition in H. apply Qabs_Qle_condition. split; lra.
Qed.

Lemma nearest_nonneg (q : Q) : (0 <= q)%Q -> (0 <= Py.nearest q)%Q.
Proof.
  intro H. pose proof (nearest_error q) as E.
  rewrite (Qabs_pos q) in E by assumption.
  apply Qabs_Qle_condition in E. lra.
Qed.

(** *** Rounding to two decimals *)

Lemma round2_nonneg (x : Q) : (0 <= x)%Q -> (0 <= Py.round2 x)%Q.
Proof.
  intro H. unfold Py.round2. apply nearest_nonneg.
  assert (Hr : 0 <= Py.round_half_even (x * 100))
    by (apply round_half_even_nonneg; nra).
  assert (Hq : (0 <= inject_Z (Py.round_half_even (x * 100)))%Q)
    by (change 0%Q with (inject_Z 0); now rewrite <- Zle_Qle).
  apply Qle_shift_div_l; [reflexivity|]. lra.
Qed.

Lemma round_half_even_nearest (q : Q) :
  Spec.nearest_integer q (Py.round_half_even q).
Proof.
  split; [apply round_half_even_near|apply round_half_even_tie].
Qed.

Lemma hundredths_near (x : Q) (h : Z) :
  Spec.nearest_integer (x * 100) h ->
  Spec.rounded_to_2_decimals x (inject_Z h / 100).
Proof.
  intros [H _]. split; [now exists h|].
  apply Qabs_Qle_condition in H. apply Qabs_Qle_condition.
  set (k := inject_Z h) in *.
  assert (E : (k / 100 == k * (1 # 100))%Q) by reflexivity.
  rewrite E. split; lra.
Qed.

(** The double that stands for [count / word_count * 100]. *)
Lemma float_percentage_error (c w : Z) :
  0 <= c -> 0 < w ->
  let x := Py.mul_float (Py.nearest (inject_Z c / inject_Z w)) 100 in
  (0 <= x)%Q
  /\ (Qabs (x - Spec.percentage c w) <= Spec.percentage c w * (1 # 2251799813685248))%Q.
Proof.
  intros Hc Hw. cbv zeta. unfold Py.mul_float, Spec.percentage.
  set (r := (inject_Z c / inject_Z w)%Q).
  assert (Hr : (0 <= r)%Q).
  { unfold r. apply Qle_shift_div_l.
    - change 0%Q with (inject_Z 0). now rewrite <- Zlt_Qlt.
    - rewrite Qmult_0_l. change 0%Q with (inject_Z 0). now rewrite <- Zle_Qle. }
  pose proof (nearest_error r) as E1. pose proof (nearest_nonneg r Hr) as N1.
  set (q := Py.nearest r) in *.
  assert (Hq : (0 <= q * 100)%Q) by lra.
  pose proof (nearest_error (q * 100)) as E2.
  pose proof (nearest_nonneg (q * 100) Hq) as N2.
  set (x := Py.nearest (q * 100)) in *.
  rewrite (Qabs_pos r Hr) in E1. rewrite (Qabs_pos (q * 100) Hq) in E2.
  apply Qabs_Qle_condition in E1. apply Qabs_Qle_condition in E2.
  split; [exact N2|].
  apply Qabs_Qle_condition. split; lra.
Qed.

(** *** Division never raises where the module uses it *)

Lemma truediv_some (a b : Z) :
  b <> 0 -> Py.truediv a b = Some (inject_Z a / inject_Z b)%Q.
Proof.
  intro H. unfold Py.truediv. destruct (Z.eqb_spec b 0); [contradiction|].
  reflexivity.
Qed.

Lemma keyword_entry_value (text : string) (wc : Z) (k : string) :
  keyword_entry text wc k
  = Some {| count := Py.count (Py.lower text) (Py.lower k);
            density :=
              Py.round2
                (if wc >? 0
                 then Py.mul_float
                        (Py.nearest
                           (inject_Z (Py.count (Py.lower text) (Py.lower k))
                            / inject_Z wc)) 100
                 else 0%Q) |}.
Proof.
  unfold keyword_entry, Py.truediv_float. cbv zeta.
  destruct (Z.gtb_spec wc 0) as [H|H]; [|reflexivity].
  rewrite truediv_some by lia. reflexivity.
Qed.

Lemma flesch_reading_ease_value (ns nw syl : Z) :
  flesch_reading_ease ns nw syl
  = Some (if (ns >? 0) && (nw >? 0)
          then Spec.flesch_formula ns nw syl
          else 0%Q).
Proof.
  unfold flesch_reading_ease.
  destruct (Z.gtb_spec ns 0), (Z.gtb_spec nw 0); try reflexivity.
  cbn [andb]. rewrite !truediv_some by lia. reflexivity.
Qed.

(** *** Dictionaries *)

Lemma lookup_set {V : Type} (d : Dict.t V) (k k' : string) (v : V) :
  Dict.lookup (Dict.set d k v) k'
  = if String.eqb k k' then Some v else Dict.lookup d k'.
Proof.
  induction d as [|[k0 v0] d IH]; simpl.
  - reflexivity.
  - destruct (String.eqb_spec k0 k) as [->|Hne]; simpl.
    + destruct (String.eqb k k'); reflexivity.
    + rewrite IH. destruct (String.eqb_spec k0 k') as [->|Hne'].
      * destruct (String.eqb_spec k k'); [congruence|reflexivity].
      * reflexivity.
Qed.

Lemma in_set {V : Type} (d : Dict.t V) (k k' : string) (v v' : V) :
  In (k', v') (Dict.set d k v) -> (k' = k /\ v' = v) \/ In (k', v') d.
Proof.
  induction d as [|[k0 v0] d IH]; simpl.
  - intros [H|[]]. inversion H. auto.
  - destruct (String.eqb_spec k0 k) as [->|Hne]; simpl.
    + intros [H|H]; [inversion H; auto | auto].
    + intros [H|H]; [auto|]. destruct (IH H); auto.
Qed.

Lemma density_loop_spec (text : string) (wc : Z) (kws : list string)
  (d0 : Dict.t KeywordDensityEntry) :
  exists d,
    density_loop text wc kws d0 = Some d
    /\ (forall k, In k kws -> Dict.lookup d k = keyword_entry text wc k)
    /\ (forall k, ~ In k kws -> Dict.lookup d k = Dict.lookup d0 k)
    /\ (forall k e, In (k, e) d ->
          In (k, e) d0 \/ keyword_entry text wc k = Some e).
Proof.
  revert d0. induction kws as [|k0 kws IH]; intro d0.
  - exists d0. simpl. repeat split; [tauto|auto].
  - pose proof (keyword_entry_value text wc k0) as He0.
    cbn [density_loop]. rewrite He0. cbn [Exn.bind].
    set (e0 := {| count := _; density := _ |}) in *.
    destruct (IH (Dict.set d0 k0 e0)) as [d [Hd [Hin [Hout Hall]]]].
    exists d. split; [exact Hd|]. split; [|split].
    + intros k [<-|Hk]; [|auto].
      destruct (in_dec String.string_dec k0 kws) as [Hk|Hk]; [auto|].
      rewrite (Hout _ Hk), lookup_set, String.eqb_refl. now rewrite He0.
    + intros k Hk. rewrite Hout by (intro; apply Hk; now right).
      rewrite lookup_set.
      destruct (String.eqb_spec k0 k) as [->|]; [|reflexivity].
      exfalso. apply Hk. now left.
    + intros k e H. destruct (Hall k e H) as [H'|H']; [|auto].
      apply in_set in H'. destruct H' as [[-> ->]|H']; auto.
Qed.

(** *** Splitting *)

Lemma re_split_go_length (s cur : string) (in_run : bool) :
  1 <= Py.len (Py.re_split_go s cur in_run).
Proof.
  unfold Py.len. revert cur in_run.
  induction s as [|c s IH]; intros cur in_run; simpl; [lia|].
  destruct (Py.is_terminator c); [destruct in_run|];
    try apply IH.
  cbn [List.length]. lia.
Qed.

Lemma re_split_length (text : string) : 1 <= Py.len (Py.re_split text).
Proof. apply re_split_go_length. Qed.

(** Lower-casing changes no character into or out of white space. *)
Lemma isspace_lower_char (c : ascii) :
  Py.isspace (Py.lower_char c) = Py.isspace c.
Proof.
  destruct c as [[] [] [] [] [] [] [] []]; reflexivity.
Qed.

Lemma lower_snoc (s : string) (c : ascii) :
  Py.lower (Py.snoc s c) = Py.snoc (Py.lower s) (Py.lower_char c).
Proof.
  unfold Py.snoc. induction s as [|d s IH]; simpl; [reflexivity|].
  now rewrite IH.
Qed.

Lemma truthy_lower (s : string) : Py.truthy (Py.lower s) = Py.truthy s.
Proof. destruct s; reflexivity. Qed.

Lemma split_go_lower (s cur : string) :
  Py.split_go (Py.lower s) (Py.lower cur) = map Py.lower (Py.split_go s cur).
Proof.
  revert cur. induction s as [|c s IH]; intro cur; simpl.
  - rewrite truthy_lower. destruct (Py.truthy cur); reflexivity.
  - rewrite isspace_lower_char, truthy_lower.
    destruct (Py.isspace c).
    + change EmptyString with (Py.lower EmptyString) at 1 2.
      rewrite IH. destruct (Py.truthy cur); reflexivity.
    + rewrite <- lower_snoc. apply IH.
Qed.

Lemma split_lower (s : string) :
  Py.split (Py.lower s) = map Py.lower (Py.split s).
Proof. apply (split_go_lower s EmptyString). Qed.

(** *** The analyzer returns *)

Lemma calculate_readability_value (text : string) :
  _calculate_readability text
  = Some {| flesch_score :=
              Some (clamp_score
                      (if (Py.len (Py.re_split text) >? 0)
                          && (Py.len (Py.split text) >? 0)
                       then Spec.flesch_formula (Py.len (Py.re_split text))
                              (Py.len (Py.split text))
                              (Py.sum (map _count_syllables (Py.split text)))
                       else 0%Q));
            sentence_count := Some (Py.len (Py.re_split text));
            r_word_count := Some (Py.len (Py.split text));
            syllable_count :=
              Some (Py.sum (map _count_syllables (Py.split text))) |}.
Proof.
  unfold _calculate_readability. cbv zeta.
  now rewrite flesch_reading_ease_value.
Qed.

Lemma calculate_avg_sentence_length_returns (text : string) :
  exists q, _calculate_avg_sentence_length text = Some q.
Proof.
  unfold _calculate_avg_sentence_length. cbv zeta.
  destruct (map Py.strip _) as [|s l] eqn:E; [now exists 0%Q|].
  rewrite truediv_some; [eauto|].
  unfold Py.len. cbn [List.length]. lia.
Qed.

Lemma analyze_seo_returns (text : string) (kws : list string) :
  exists a, analyze_seo text kws = Some a.
Proof.
  unfold analyze_seo. cbv zeta.
  destruct (density_loop_spec text (Py.len (Py.split (Py.lower text))) kws [])
    as [d [Hd _]].
  rewrite Hd, calculate_readability_value.
  destruct (calculate_avg_sentence_length_returns text) as [q Hq].
  rewrite Hq. cbn [Exn.bind Exn.ret]. eauto.
Qed.

Lemma analyze_seo_shape (text : string) (kws : list string) :
  exists d q,
    density_loop text (Py.len (Py.split (Py.lower text))) kws [] = Some d
    /\ _calculate_avg_sentence_length text = Some q
    /\ exists r,
       _calculate_readability text = Some r
       /\ exists pk,
          analyze_seo text kws
          = Some {| word_count := Py.len (Py.split (Py.lower text));
                    keyword_density := d;
                    primary_keywords := pk;
                    heading_structure := _analyze_headings text;
                    readability := r;
                    has_meta_description := Some (Py.truthy text);
                    average_sentence_length := Some q |}.
Proof.
  destruct (density_loop_spec text (Py.len (Py.split (Py.lower text))) kws [])
    as [d [Hd _]].
  destruct (calculate_avg_sentence_length_returns text) as [q Hq].
  exists d, q. split; [exact Hd|]. split; [exact Hq|].
  eexists. split; [apply calculate_readability_value|].
  eexists. unfold analyze_seo. cbv zeta.
  rewrite Hd, calculate_readability_value, Hq. reflexivity.
Qed.

Lemma word_count_is_token_count (text : string) :
  Py.len (Py.split (Py.lower text)) = Py.len (Py.split text).
Proof. rewrite split_lower. unfold Py.len. now rewrite length_map. Qed.

Lemma clamp_score_clamps (x : Q) :
  (clamp_score x == Spec.clamp 0 100 x)%Q
  /\ (0 <= clamp_score x)%Q /\ (clamp_score x <= 100)%Q.
Proof.
  unfold clamp_score, Spec.clamp, Py.maxQ, Py.minQ.
  destruct (Py.Qlt_bool x 100) eqn:E1.
  - apply Qlt_bool_iff in E1.
    destruct (Py.Qlt_bool 0 x) eqn:E2.
    + apply Qlt_bool_iff in E2.
      destruct (Py.Qlt_bool x 0) eqn:E3;
        [apply Qlt_bool_iff in E3; lra|].
      destruct (Py.Qlt_bool 100 x) eqn:E4;
        [apply Qlt_bool_iff in E4; lra|].
      repeat split; lra.
    + apply Qlt_bool_false_iff in E2.
      destruct (Py.Qlt_bool x 0) eqn:E3; [repeat split; lra|].
      apply Qlt_bool_false_iff in E3.
      destruct (Py.Qlt_bool 100 x) eqn:E4;
        [apply Qlt_bool_iff in E4; lra|].
      repeat split; lra.
  - apply Qlt_bool_false_iff in E1.
    change (Py.Qlt_bool 0 100) with true. cbv iota.
    destruct (Py.Qlt_bool x 0) eqn:E3;
      [apply Qlt_bool_iff in E3; lra|].
    destruct (Py.Qlt_bool 100 x) eqn:E4;
      [|apply Qlt_bool_false_iff in E4]; repeat split; lra.
Qed.

(** Claim C8. The Flesch score of a text is the formula
    [206.835 - 1.015 * (words / sentences) - 84.6 * (syllables / words)] on
    the raw punctuation-split length (which is never 0) and the
    whitespace-split length when both are positive, 0 otherwise, clamped to
    [[0, 100]]. One sentence of 1000 words is clamped up to 0 and 1000
    one-word sentences are clamped down to 100. *)
Theorem flesch_score_formula_clamped (text : string) :
  let ns := Py.len (Py.re_split text) in
  let nw := Py.len (Py.split text) in
  let syl := Py.sum (map _count_syllables (Py.split text)) in
  let raw := if (ns >? 0) && (nw >? 0)
             then Spec.flesch_formula ns nw syl else 0%Q in
  (exists r f,
     _calculate_readability text = Some r
     /\ sentence_count r = Some ns /\ 1 <= ns
     /\ r_word_count r = Some nw
     /\ syllable_count r = Some syl
     /\ flesch_score r = Some f
     /\ (f == Spec.clamp 0 100 raw)%Q
     /\ (0 <= f)%Q /\ (f <= 100)%Q)
  /\ (forall n_sentences n_words syllables : Z,
        exists x,
          flesch_reading_ease n_sentences n_words syllables = Some x
          /\ x = (if (n_sentences >? 0) && (n_words >? 0)
                  then Spec.flesch_formula n_sentences n_words syllables
                  else 0%Q)
          /\ (0 <= clamp_score x)%Q /\ (clamp_score x <= 100)%Q)
  /\ (Spec.flesch_formula 1 1000 1000 < 0)%Q
  /\ (clamp_score (Spec.flesch_formula 1 1000 1000) == 0)%Q
  /\ (100 < Spec.flesch_formula 1000 1000 1000)%Q
  /\ (clamp_score (Spec.flesch_formula 1000 1000 1000) == 100)%Q.
Proof.
  cbv zeta. split; [|split].
  - eexists. eexists. split; [apply calculate_readability_value|].
    cbn [sentence_count r_word_count syllable_count flesch_score].
    split; [reflexivity|]. split; [apply re_split_length|].
    repeat (split; [reflexivity|]).
    apply clamp_score_clamps.
  - intros ns nw syl. eexists.
    split; [apply flesch_reading_ease_value|].
    split; [reflexivity|]. apply clamp_score_clamps.
  - repeat split; reflexivity.
Qed.

(** Claim C10. [has_meta_description] is set exactly when the text is not
    empty, so the scorer adds its 10 points for every non-empty text and
    for no other. *)
Theorem has_meta_description_is_nonempty_text
  (text : string) (kws : list string) :
  exists a,
    analyze_seo text kws = Some a
    /\ has_meta_description a = Some (negb (String.eqb text EmptyString))
    /\ forall cfg,
         _calculate_seo_score cfg a
         = _calculate_seo_score cfg (with_has_meta_description a false)
           + (if String.eqb text EmptyString then 0 else 10).
Proof.
  destruct (analyze_seo_shape text kws) as [d [q [_ [_ [r [_ [pk Ha]]]]]]].
  eexists. split; [exact Ha|]. split.
  - cbn [has_meta_description]. destruct text; reflexivity.
  - intro cfg. rewrite !score_by_rows.
    unfold Spec.score_short_first, Spec.other_points, Spec.heading_points,
      hasH1, h2Count, properHierarchy, fleschScore, hasMetaDescription,
      averageSentenceLength.
    cbn [with_has_meta_description word_count keyword_density
         heading_structure readability has_meta_description
         average_sentence_length Dict.get].
    pose proof (word_count_points_bounds (min_word_count cfg)
                  (max_word_count cfg) (Py.len (Py.split (Py.lower text)))).
    pose proof (keyword_density_points_bounds d).
    pose proof (readability_points_bounds (Dict.get (flesch_score r) 0%Q)).
    pose proof (sentence_length_points_bounds q).
    destruct (Dict.get (has_h1 (_analyze_headings text)) false),
      (3 <=? Dict.get (h2_count (_analyze_headings text)) 0),
      (Dict.get (proper_hierarchy (_analyze_headings text)) true);
      destruct text; cbn [Py.truthy String.eqb Spec.meta_points]; lia.
Qed.

(** Claim C4 as stated fails on the word count: the sentence has 8 words,
    so 50 copies have 400, not 450. *)
Lemma test_article_has_400_words :
  option_map word_count (analyze_seo test_text test_keywords) = Some 400
  /\ option_map word_count (analyze_seo test_text test_keywords) <> Some 450.
Proof. split; [vm_compute; reflexivity | vm_compute; discriminate]. Qed.

(** Claim C4, amended. On the test article with the test keywords the
    analysis has [word_count = 400]; the entry of "SEO" has [count = 50] and
    [density = 12.5]; and as that exceeds 3.0 the suggestions hold the
    reduce-usage message for "SEO". *)
Theorem test_article_analysis (cfg : Config) :
  exists a e,
    analyze_seo test_text test_keywords = Some a
    /\ word_count a = 400
    /\ Dict.lookup (keyword_density a) "SEO" = Some e
    /\ count e = 50
    /\ (density e == 12.5)%Q
    /\ (3.0 < density e)%Q
    /\ In (ReduceKeyword "SEO" (density e)) (_generate_suggestions cfg a).
Proof.
  eexists. eexists. split; [vm_compute; reflexivity|].
  split; [reflexivity|]. split; [vm_compute; reflexivity|].
  split; [reflexivity|]. split; [reflexivity|]. split; [reflexivity|].
  rewrite suggestions_in_order. apply in_or_app. right.
  apply in_or_app. left. vm_compute. tauto.
Qed.

Lemma keyword_entry_without_words (text k : string) (e : KeywordDensityEntry) :
  keyword_entry text 0 k = Some e -> (density e == 0)%Q.
Proof.
  rewrite keyword_entry_value. intro H. inversion H. reflexivity.
Qed.

(** Claim C5 as stated fails on the readability metrics of the empty text:
    the raw split of the empty text is one empty fragment, so
    [sentence_count] is 1. *)
Lemma empty_text_has_one_sentence :
  exists a,
    analyze_seo EmptyString [] = Some a
    /\ sentence_count (readability a) = Some 1
    /\ sentence_count (readability a) <> Some 0.
Proof.
  eexists. split; [vm_compute; reflexivity|].
  split; [reflexivity|discriminate].
Qed.

(** Claim C5, amended. [analyze_seo] returns for every text and every
    keyword list. When the text has no word, [word_count] is 0 and every
    density entry is 0. For the empty text the heading counts are 0, the
    average sentence length is 0 and the readability metrics are 0 except
    for [sentence_count], which is 1. *)
Theorem analyze_seo_never_fails (text : string) (kws : list string) :
  exists a,
    analyze_seo text kws = Some a
    /\ (Py.split text = [] ->
        word_count a = 0
        /\ (forall k e, In (k, e) (keyword_density a) -> (density e == 0)%Q)
        /\ (forall k, In k kws ->
              exists e, Dict.lookup (keyword_density a) k = Some e
                        /\ (density e == 0)%Q))
    /\ (text = EmptyString ->
        word_count a = 0
        /\ primary_keywords a = []
        /\ heading_structure a
           = mkHeadings (Some false) (Some 0) (Some 0) (Some 0) (Some true)
        /\ readability a
           = mkReadability (Some 0%Q) (Some 1) (Some 0) (Some 0)
        /\ has_meta_description a = Some false
        /\ average_sentence_length a = Some 0%Q).
Proof.
  destruct (density_loop_spec text (Py.len (Py.split (Py.lower text))) kws [])
    as [d [Hd [Hin [_ Hall]]]].
  destruct (analyze_seo_shape text kws)
    as [d' [q [Hd' [Hq [r [Hr [pk Ha]]]]]]].
  rewrite Hd in Hd'. inversion Hd'; subst d'. clear Hd'.
  eexists. split; [exact Ha|].
  cbn [word_count keyword_density primary_keywords heading_structure
       readability has_meta_description average_sentence_length].
  split.
  - intro Hsplit.
    assert (Hwc : Py.len (Py.split (Py.lower text)) = 0)
      by (rewrite word_count_is_token_count, Hsplit; reflexivity).
    rewrite Hwc in *. split; [reflexivity|]. split.
    + intros k e H. destruct (Hall k e H) as [[]|H'].
      now apply keyword_entry_without_words in H'.
    + intros k Hk. rewrite (Hin k Hk).
      destruct (keyword_entry text 0 k) as [e|] eqn:E.
      * exists e. split; [reflexivity|].
        now apply keyword_entry_without_words in E.
      * rewrite keyword_entry_value in E. discriminate.
  - intros ->. revert Ha Hq Hr. unfold analyze_seo. cbv zeta.
    change (Py.len (Py.split (Py.lower EmptyString))) with 0 in *.
    rewrite Hd. cbn [Exn.bind].
    intros Ha Hq Hr. vm_compute in Hq, Hr.
    inversion Hq; inversion Hr; subst.
    vm_compute in Ha. inversion Ha; subst.
    repeat split; reflexivity.
Qed.

(** A text of two blanks has no word; the empty text is empty. *)
Lemma analyze_seo_never_fails_witness :
  (Py.split "  " = []
   /\ exists a,
        analyze_seo "  " ["seo"%string] = Some a
        /\ word_count a = 0
        /\ (forall k e, In (k, e) (keyword_density a) -> (density e == 0)%Q))
  /\ (exists a,
        analyze_seo EmptyString ["seo"%string] = Some a
        /\ readability a
           = mkReadability (Some 0%Q) (Some 1) (Some 0) (Some 0)).
Proof.
  split.
  - split; [reflexivity|].
    destruct (analyze_seo_never_fails "  " ["seo"%string]) as [a [Ha [H _]]].
    exists a. split; [exact Ha|].
    destruct (H eq_refl) as [Hwc [Hd _]]. split; assumption.
  - destruct (analyze_seo_never_fails EmptyString ["seo"%string])
      as [a [Ha [_ H]]].
    exists a. split; [exact Ha|].
    destruct (H eq_refl) as [_ [_ [_ [Hr _]]]]. exact Hr.
Defined.

(** Claim C6 as stated fails where binary arithmetic and decimal rounding
    part: with 23 occurrences in 160 words the percentage is 14.375, which
    rounds to 14.38, but the double computed for it lies below 14.375 and
    the density stored is the double next to 14.37. *)
Lemma density_of_23_in_160_words :
  exists a e,
    analyze_seo tie_text ["seo"%string] = Some a
    /\ Dict.lookup (keyword_density a) "seo" = Some e
    /\ count e = 23
    /\ word_count a = 160
    /\ (Spec.percentage (count e) (word_count a) == 14375 # 1000)%Q
    /\ Py.round_half_even (Spec.percentage (count e) (word_count a) * 100)
       = 1438
    /\ density e = Py.nearest (1437 # 100)
    /\ (density e < 1437 # 100)%Q
    /\ ~ Spec.rounded_to_2_decimals
          (Spec.percentage (count e) (word_count a)) (density e).
Proof.
  eexists. eexists. split; [vm_compute; reflexivity|].
  split; [vm_compute; reflexivity|].
  cbn [count density word_count].
  split; [reflexivity|]. split; [reflexivity|]. split; [reflexivity|].
  split; [reflexivity|]. split; [vm_compute; reflexivity|].
  split; [reflexivity|].
  intros [_ H]. apply Qabs_Qle_condition in H. destruct H as [H _].
  vm_compute in H. apply H. reflexivity.
Qed.

(** Claim C6. The entry of a target keyword holds as [count] the number
    of non-overlapping occurrences of the lower-cased keyword in the
    lower-cased text, found by substring search. Its [density] is 0 when
    there is no word; otherwise it is the double nearest to [h / 100],
    where [h] is the integer nearest, ties to even, to 100 times the double
    [x] computed for [count / word_count * 100]. [x] is within a relative
    [2 ^ -51] of the exact percentage, [h / 100] within 0.005 of [x], and
    the density within 0.005 + (percentage + 1) * [2 ^ -50] of the exact
    percentage. "cat" occurs twice in "the cat catalog". *)
Theorem keyword_density_counts_substrings
  (text : string) (kws : list string) (k : string) :
  (In k kws ->
   exists a e,
     analyze_seo text kws = Some a
     /\ Dict.lookup (keyword_density a) k = Some e
     /\ count e = Py.count (Py.lower text) (Py.lower k)
     /\ 0 <= count e
     /\ Spec.occurrence_count (Py.lower k) (Py.lower text)
          (Z.to_nat (count e))
     /\ word_count a = Py.len (Py.split text)
     /\ (word_count a = 0 -> density e = 0%Q)
     /\ (0 < word_count a ->
         exists (x : Q) (h : Z),
           x = Py.mul_float
                 (Py.nearest (inject_Z (count e) / inject_Z (word_count a)))
                 100
           /\ Spec.nearest_integer (x * 100) h
           /\ density e = Py.nearest (inject_Z h / 100)
           /\ (Qabs (x - Spec.percentage (count e) (word_count a))
               <= Spec.percentage (count e) (word_count a)
                  * (1 # 2251799813685248))%Q
           /\ Spec.rounded_to_2_decimals x (inject_Z h / 100)
           /\ (Qabs (density e - inject_Z h / 100)
               <= inject_Z h / 100 * Spec.unit_roundoff)%Q
           /\ (Qabs (density e - Spec.percentage (count e) (word_count a))
               <= (1 # 200)
                  + (Spec.percentage (count e) (word_count a) + 1)
                    * (1 # 1125899906842624))%Q))
  /\ (exists a e,
        analyze_seo "the cat catalog" ["cat"%string] = Some a
        /\ Dict.lookup (keyword_density a) "cat" = Some e
        /\ count e = 2).
Proof.
  split.
  - intro Hk.
    destruct
      (density_loop_spec text (Py.len (Py.split (Py.lower text))) kws [])
      as [d [Hd [Hin _]]].
    destruct (analyze_seo_shape text kws)
      as [d' [q [Hd' [_ [r [_ [pk Ha]]]]]]].
    rewrite Hd in Hd'. inversion Hd'; subst d'. clear Hd'.
    eexists. eexists. split; [exact Ha|].
    cbn [word_count keyword_density].
    split; [rewrite (Hin k Hk); apply keyword_entry_value|].
    cbn [count density].
    split; [reflexivity|].
    split; [unfold Py.count; lia|].
    split; [apply count_is_occurrence_count|].
    split; [apply word_count_is_token_count|].
    split.
    + intros ->. reflexivity.
    + intro Hpos.
      destruct (Z.gtb_spec (Py.len (Py.split (Py.lower text))) 0); [|lia].
      set (c := Py.count (Py.lower text) (Py.lower k)).
      set (w := Py.len (Py.split (Py.lower text))) in *.
      assert (Hc : 0 <= c) by (unfold c, Py.count; lia).
      destruct (float_percentage_error c w Hc Hpos) as [Hx Herr].
      cbv zeta in Hx, Herr.
      set (x := Py.mul_float (Py.nearest (inject_Z c / inject_Z w)) 100) in *.
      pose proof (round_half_even_nearest (x * 100)) as Hh.
      set (h := Py.round_half_even (x * 100)) in *.
      pose proof (hundredths_near x h Hh) as Hnear.
      assert (Hh0 : (0 <= inject_Z h / 100)%Q).
      { assert (0 <= h) by (apply round_half_even_nonneg; lra).
        assert (0 <= inject_Z h)%Q
          by (change 0%Q with (inject_Z 0); now rewrite <- Zle_Qle).
        apply Qle_shift_div_l; [reflexivity|]. lra. }
      pose proof (nearest_error (inject_Z h / 100)) as Hd2.
      rewrite (Qabs_pos _ Hh0) in Hd2.
      exists x, h. split; [reflexivity|]. split; [exact Hh|].
      split; [reflexivity|]. split; [exact Herr|]. split; [exact Hnear|].
      unfold Py.round2. fold h. unfold Spec.unit_roundoff.
      split; [exact Hd2|].
      destruct Hnear as [_ Hn].
      set (p := Spec.percentage c w) in *.
      set (t := (inject_Z h / 100)%Q) in *.
      set (dn := Py.nearest t) in *.
      apply Qabs_Qle_condition in Herr, Hn, Hd2.
      apply Qabs_Qle_condition. split; lra.
  - eexists. eexists. split; [vm_compute; reflexivity|].
    split; [vm_compute; reflexivity|reflexivity].
Qed.

(** "cat" is the one keyword asked for, and the text has three words. *)
Lemma keyword_density_counts_substrings_witness :
  In "cat"%string ["cat"%string]
  /\ exists a e,
       analyze_seo "the cat catalog" ["cat"%string] = Some a
       /\ Dict.lookup (keyword_density a) "cat" = Some e
       /\ Spec.occurrence_count "cat" "the cat catalog" (Z.to_nat (count e))
       /\ 0 < word_count a
       /\ (Qabs (density e - Spec.percentage (count e) (word_count a))
            <= (1 # 200)
               + (Spec.percentage (count e) (word_count a) + 1)
                 * (1 # 1125899906842624))%Q.
Proof.
  split; [now left|].
  destruct (proj1 (keyword_density_counts_substrings "the cat catalog"
                     ["cat"%string] "cat") (or_introl eq_refl))
    as [a [e [Ha [He [_ [_ [Hocc [Hw [_ Hd]]]]]]]]].
  assert (Hpos : 0 < word_count a) by (rewrite Hw; reflexivity).
  destruct (Hd Hpos) as [x [h [_ [_ [_ [_ [_ [_ Hacc]]]]]]]].
  exists a, e. exact (conj Ha (conj He (conj Hocc (conj Hpos Hacc)))).
Defined.

(** * Further properties of the module *)

(** ** Letter case *)

Lemma lower_char_idempotent (c : ascii) :
  Py.lower_char (Py.lower_char c) = Py.lower_char c.
Proof. destruct c as [[] [] [] [] [] [] [] []]; reflexivity. Qed.

Lemma lower_idempotent (s : string) : Py.lower (Py.lower s) = Py.lower s.
Proof.
  induction s as [|c s IH]; simpl; [reflexivity|].
  now rewrite lower_char_idempotent, IH.
Qed.

Lemma is_terminator_lower_char (c : ascii) :
  Py.is_terminator (Py.lower_char c) = Py.is_terminator c.
Proof. destruct c as [[] [] [] [] [] [] [] []]; reflexivity. Qed.

Lemma newline_lower_char (c : ascii) :
  Ascii.eqb (Py.lower_char c) "010" = Ascii.eqb c "010".
Proof. destruct c as [[] [] [] [] [] [] [] []]; reflexivity. Qed.

Lemma hash_lower_char (c : ascii) :
  Ascii.eqb "#" (Py.lower_char c) = Ascii.eqb "#" c.
Proof. destruct c as [[] [] [] [] [] [] [] []]; reflexivity. Qed.

Lemma space_lower_char (c : ascii) :
  Ascii.eqb " " (Py.lower_char c) = Ascii.eqb " " c.
Proof. destruct c as [[] [] [] [] [] [] [] []]; reflexivity. Qed.

Lemma re_split_go_lower (s cur : string) (in_run : bool) :
  Py.re_split_go (Py.lower s) (Py.lower cur) in_run
  = map Py.lower (Py.re_split_go s cur in_run).
Proof.
  revert cur in_run. induction s as [|c s IH]; intros cur in_run; simpl.
  - reflexivity.
  - rewrite is_terminator_lower_char. destruct (Py.is_terminator c).
    + change EmptyString with (Py.lower EmptyString) at 1 2.
      rewrite IH. destruct in_run; reflexivity.
    + rewrite <- lower_snoc. apply IH.
Qed.

Lemma re_split_lower (s : string) :
  Py.re_split (Py.lower s) = map Py.lower (Py.re_split s).
Proof. apply (re_split_go_lower s EmptyString false). Qed.

Lemma split_on_go_lower (s cur : string) :
  Py.split_on_go "010" (Py.lower s) (Py.lower cur)
  = map Py.lower (Py.split_on_go "010" s cur).
Proof.
  revert cur. induction s as [|c s IH]; intro cur; simpl.
  - reflexivity.
  - rewrite newline_lower_char. destruct (Ascii.eqb c "010").
    + change EmptyString with (Py.lower EmptyString) at 1.
      now rewrite IH.
    + rewrite <- lower_snoc. apply IH.
Qed.

Lemma lstrip_lower (s : string) :
  Py.lstrip (Py.lower s) = Py.lower (Py.lstrip s).
Proof.
  induction s as [|c s IH]; simpl; [reflexivity|].
  rewrite isspace_lower_char. destruct (Py.isspace c); [exact IH|reflexivity].
Qed.

Lemma rstrip_lower (s : string) :
  Py.rstrip (Py.lower s) = Py.lower (Py.rstrip s).
Proof.
  induction s as [|c s IH]; simpl; [reflexivity|].
  rewrite isspace_lower_char, IH, truthy_lower.
  destruct (Py.isspace c && negb (Py.truthy (Py.rstrip s))); reflexivity.
Qed.

Lemma strip_lower (s : string) :
  Py.strip (Py.lower s) = Py.lower (Py.strip s).
Proof. unfold Py.strip. now rewrite lstrip_lower, rstrip_lower. Qed.

(** A marker made of [#] and blanks starts a line whatever the case of the
    line. *)

Lemma ascii_dec_lower (a b : ascii) :
  Notion.marker_char a ->
  (if ascii_dec a (Py.lower_char b) then true else false)
  = (if ascii_dec a b then true else false).
Proof.
  intro Ha.
  assert (H : Ascii.eqb a (Py.lower_char b) = Ascii.eqb a b)
    by (destruct Ha as [->| ->];
        [apply hash_lower_char | apply space_lower_char]).
  destruct (ascii_dec a (Py.lower_char b)) as [E|E],
           (ascii_dec a b) as [E'|E']; try reflexivity; exfalso.
  - apply E'. apply Ascii.eqb_eq. rewrite <- H. now apply Ascii.eqb_eq.
  - apply E. apply Ascii.eqb_eq. rewrite H. now apply Ascii.eqb_eq.
Qed.

Lemma prefix_lower (p s : string) :
  Forall Notion.marker_char (list_ascii_of_string p) ->
  String.prefix p (Py.lower s) = String.prefix p s.
Proof.
  revert s. induction p as [|a p IH]; intros s Hp;
    [destruct s; reflexivity|].
  cbn [list_ascii_of_string] in Hp. inversion Hp as [|? ? Ha Hp']; subst.
  destruct s as [|b s]; [reflexivity|].
  cbn [Py.lower String.prefix].
  pose proof (ascii_dec_lower a b Ha) as H.
  destruct (ascii_dec a (Py.lower_char b)), (ascii_dec a b);
    try discriminate H; auto.
Qed.

Lemma count_lines_lower (marker : string) (lines : list string) :
  Forall Notion.marker_char (list_ascii_of_string marker) ->
  count_lines marker (map Py.lower lines) = count_lines marker lines.
Proof.
  intro Hm. unfold count_lines. f_equal.
  induction lines as [|l lines IH]; [reflexivity|].
  simpl. unfold Py.startswith in *.
  rewrite (prefix_lower marker l Hm).
  destruct (String.prefix marker l); simpl; now rewrite IH.
Qed.

Lemma analyze_headings_lower (text : string) :
  _analyze_headings (Py.lower text) = _analyze_headings text.
Proof.
  unfold _analyze_headings. cbv zeta.
  assert (E : Py.split_on "010" (Py.lower text)
              = map Py.lower (Py.split_on "010" text))
    by apply (split_on_go_lower text EmptyString).
  rewrite E, !count_lines_lower; [reflexivity|..];
    repeat first [ apply Forall_nil
                 | apply Forall_cons; [unfold Notion.marker_char; auto|] ].
Qed.

Lemma count_syllables_lower (w : string) :
  _count_syllables (Py.lower w) = _count_syllables w.
Proof. unfold _count_syllables. now rewrite lower_idempotent. Qed.

Lemma syllables_of_lower (ws : list string) :
  map _count_syllables (map Py.lower ws) = map _count_syllables ws.
Proof.
  rewrite map_map. apply map_ext. intro w. apply count_syllables_lower.
Qed.

Lemma calculate_readability_lower (text : string) :
  _calculate_readability (Py.lower text) = _calculate_readability text.
Proof.
  unfold _calculate_readability. cbv zeta.
  rewrite re_split_lower, split_lower, syllables_of_lower.
  unfold Py.len. now rewrite !length_map.
Qed.

Lemma sentences_lower (l : list string) :
  map Py.strip (filter (fun s => Py.truthy (Py.strip s)) (map Py.lower l))
  = map Py.lower
      (map Py.strip (filter (fun s => Py.truthy (Py.strip s)) l)).
Proof.
  induction l as [|s l IH]; [reflexivity|].
  cbn [map filter]. rewrite strip_lower, truthy_lower.
  destruct (Py.truthy (Py.strip s)); cbn [map]; now rewrite IH, ?strip_lower.
Qed.

Lemma words_per_sentence_lower (l : list string) :
  map (fun s => Py.len (Py.split s)) (map Py.lower l)
  = map (fun s => Py.len (Py.split s)) l.
Proof.
  rewrite map_map. apply map_ext. intro s.
  apply word_count_is_token_count.
Qed.

Lemma calculate_avg_sentence_length_lower (text : string) :
  _calculate_avg_sentence_length (Py.lower text)
  = _calculate_avg_sentence_length text.
Proof.
  unfold _calculate_avg_sentence_length. cbv zeta.
  rewrite re_split_lower, sentences_lower.
  destruct (map Py.strip _) as [|s l]; [reflexivity|].
  change (map Py.lower (s :: l)) with (Py.lower s :: map Py.lower l).
  change (Py.lower s :: map Py.lower l) with (map Py.lower (s :: l)).
  rewrite words_per_sentence_lower. unfold Py.len. now rewrite length_map.
Qed.

Lemma density_loop_lower (text : string) (wc : Z) (kws : list string)
  (d : Dict.t KeywordDensityEntry) :
  density_loop (Py.lower text) wc kws d = density_loop text wc kws d.
Proof.
  revert d. induction kws as [|k kws IH]; intro d; [reflexivity|].
  cbn [density_loop].
  assert (E : keyword_entry (Py.lower text) wc k = keyword_entry text wc k)
    by (unfold keyword_entry; now rewrite lower_idempotent).
  rewrite E. destruct (keyword_entry text wc k); [apply IH|reflexivity].
Qed.

(** The analysis does not depend on the case of the letters of the text:
    lower-casing the text first changes no field of it. *)
Theorem analysis_ignores_letter_case (text : string) (kws : list string) :
  analyze_seo (Py.lower text) kws = analyze_seo text kws.
Proof.
  unfold analyze_seo. cbv zeta.
  rewrite lower_idempotent, density_loop_lower, analyze_headings_lower,
    calculate_readability_lower, calculate_avg_sentence_length_lower,
    truthy_lower.
  reflexivity.
Qed.

(** ** The keys of the density mapping *)

Lemma mem_In (x : string) (l : list string) : Py.mem x l = true <-> In x l.
Proof.
  unfold Py.mem. rewrite existsb_exists. split.
  - intros [y [Hy E]]. apply String.eqb_eq in E. now subst.
  - intro H. exists x. split; [assumption|apply String.eqb_refl].
Qed.

Lemma keys_set {V : Type} (d : Dict.t V) (k : string) (v : V) :
  Dict.keys (Dict.set d k v) = Notion.add_key (Dict.keys d) k.
Proof.
  unfold Notion.add_key, Dict.keys.
  induction d as [|[k0 v0] d IH]; [reflexivity|].
  cbn [Dict.set map fst Py.mem existsb].
  rewrite (String.eqb_sym k k0).
  destruct (String.eqb k0 k); [reflexivity|].
  cbn [map fst orb]. rewrite IH. fold (Py.mem k (map fst d)).
  destruct (Py.mem k (map fst d)); reflexivity.
Qed.

Lemma density_loop_keys (text : string) (wc : Z) (kws : list string)
  (d0 d : Dict.t KeywordDensityEntry) :
  density_loop text wc kws d0 = Some d ->
  Dict.keys d = fold_left Notion.add_key kws (Dict.keys d0).
Proof.
  revert d0. induction kws as [|k kws IH]; intros d0; cbn [density_loop].
  - intro H. inversion H. reflexivity.
  - rewrite keyword_entry_value. cbn [Exn.bind]. intro H.
    rewrite (IH _ H), keys_set. reflexivity.
Qed.

Lemma add_key_NoDup (acc : list string) (k : string) :
  NoDup acc -> NoDup (Notion.add_key acc k).
Proof.
  intro H. unfold Notion.add_key. destruct (Py.mem k acc) eqn:E; [assumption|].
  apply NoDup_app; [assumption|repeat constructor; simpl; tauto|].
  intros x Hx [Hk|[]]. subst x. apply mem_In in Hx. congruence.
Qed.

Lemma add_key_In (acc : list string) (k x : string) :
  In x (Notion.add_key acc k) <-> In x acc \/ x = k.
Proof.
  unfold Notion.add_key. destruct (Py.mem k acc) eqn:E.
  - apply mem_In in E. split; [auto|]. intros [H|H]; [|subst x]; assumption.
  - rewrite in_app_iff. simpl. intuition.
Qed.

Lemma add_key_length (acc : list string) (k : string) :
  (List.length (Notion.add_key acc k) <= S (List.length acc))%nat.
Proof.
  unfold Notion.add_key. destruct (Py.mem k acc); [lia|].
  rewrite length_app. simpl. lia.
Qed.

Lemma fold_add_key (kws acc : list string) :
  NoDup acc ->
  NoDup (fold_left Notion.add_key kws acc)
  /\ (forall x, In x (fold_left Notion.add_key kws acc)
                <-> In x acc \/ In x kws)
  /\ (List.length (fold_left Notion.add_key kws acc)
      <= List.length acc + List.length kws)%nat.
Proof.
  revert acc. induction kws as [|k kws IH]; intros acc Hacc; cbn [fold_left].
  - split; [assumption|]. split; [simpl; tauto|simpl; lia].
  - destruct (IH _ (add_key_NoDup acc k Hacc)) as [H1 [H2 H3]].
    split; [assumption|]. split.
    + intro x. rewrite H2, add_key_In. simpl. intuition.
    + pose proof (add_key_length acc k). simpl. lia.
Qed.

(** The density mapping has one entry per distinct target keyword, in the
    order of first occurrence: its keys are distinct, they are the target
    keywords, and keywords differing in case are different keys. *)
Theorem density_keys_are_the_distinct_keywords
  (text : string) (kws : list string) :
  exists a,
    analyze_seo text kws = Some a
    /\ Dict.keys (keyword_density a) = Notion.distinct kws
    /\ NoDup (Dict.keys (keyword_density a))
    /\ (forall k, In k (Dict.keys (keyword_density a)) <-> In k kws)
    /\ (List.length (keyword_density a) <= List.length kws)%nat.
Proof.
  destruct (analyze_seo_shape text kws)
    as [d [q [Hd [_ [r [_ [pk Ha]]]]]]].
  eexists. split; [exact Ha|]. cbn [keyword_density].
  pose proof (density_loop_keys _ _ _ _ _ Hd) as Hk. cbn in Hk.
  fold (Notion.distinct kws) in Hk.
  destruct (fold_add_key kws [] (NoDup_nil _)) as [H1 [H2 H3]].
  fold (Notion.distinct kws) in H1, H2, H3.
  rewrite Hk. repeat split; try assumption.
  - intro H. apply H2 in H. simpl in H. tauto.
  - intro H. apply H2. now right.
  - unfold Dict.keys in Hk.
    rewrite <- (length_map fst), Hk. simpl in H3. exact H3.
Qed.

(** Three target keywords, two of them distinct. *)
Lemma density_keys_are_the_distinct_keywords_witness :
  In "seo"%string ["SEO"; "seo"; "SEO"]%string
  /\ exists a,
       analyze_seo "seo tips" ["SEO"; "seo"; "SEO"]%string = Some a
       /\ In "seo"%string (Dict.keys (keyword_density a)).
Proof.
  assert (H : In "seo"%string ["SEO"; "seo"; "SEO"]%string)
    by (right; left; reflexivity).
  split; [exact H|].
  destruct (density_keys_are_the_distinct_keywords "seo tips"
              ["SEO"; "seo"; "SEO"]%string) as [a [Ha [_ [_ [Hiff _]]]]].
  exists a. split; [exact Ha|]. apply (proj2 (Hiff "seo"%string) H).
Defined.

(** ** Bounds on an entry of the density mapping *)

Lemma prefix_length (sub s : string) :
  String.prefix sub s = true -> (String.length sub <= String.length s)%nat.
Proof.
  revert sub. induction s as [|c s IH]; intros [|a sub]; simpl;
    try discriminate; try lia.
  destruct (ascii_dec a c); [|discriminate].
  intro H. apply IH in H. lia.
Qed.

Lemma count_go_fits (sub s : string) (skip : nat) :
  sub <> EmptyString ->
  (Py.count_go sub s skip * String.length sub
   <= String.length s - skip)%nat.
Proof.
  intro Hsub. revert skip. induction s as [|c s IH]; intro skip.
  - destruct sub; [contradiction|]. simpl. lia.
  - cbn [Py.count_go]. destruct skip as [|k].
    + destruct (String.prefix sub (String c s)) eqn:Hp.
      * apply prefix_length in Hp. simpl in Hp.
        pose proof (IH (String.length sub - 1)%nat).
        assert (0 < String.length sub)%nat
          by (destruct sub; [contradiction|simpl; lia]).
        simpl. nia.
      * pose proof (IH 0%nat). simpl. lia.
    + pose proof (IH k). simpl. lia.
Qed.

Lemma count_go_at_most (sub s : string) (skip : nat) :
  (Py.count_go sub s skip <= String.length s + 1)%nat.
Proof.
  revert skip. induction s as [|c s IH]; intro skip.
  - simpl. destruct sub; lia.
  - cbn [Py.count_go]. destruct skip as [|k].
    + destruct (String.prefix sub (String c s)).
      * pose proof (IH (String.length sub - 1)%nat). simpl. lia.
      * pose proof (IH 0%nat). simpl. lia.
    + pose proof (IH k). simpl. lia.
Qed.

(** Every entry of the density mapping has a count between 0 and the
    length of the lower-cased text plus 1 and a density that is not
    negative; the occurrences of a keyword whose lower-cased form is not
    empty fit in the lower-cased text side by side. *)
Theorem density_entry_bounds (text : string) (kws : list string) :
  exists a,
    analyze_seo text kws = Some a
    /\ forall k e,
         In (k, e) (keyword_density a) ->
         0 <= count e <= Py.len_str (Py.lower text) + 1
         /\ (Py.lower k <> EmptyString ->
             count e * Py.len_str (Py.lower k) <= Py.len_str (Py.lower text))
         /\ (0 <= density e)%Q.
Proof.
  destruct (density_loop_spec text (Py.len (Py.split (Py.lower text))) kws [])
    as [d [Hd [_ [_ Hall]]]].
  destruct (analyze_seo_shape text kws)
    as [d' [q [Hd' [_ [r [_ [pk Ha]]]]]]].
  rewrite Hd in Hd'. inversion Hd'; subst d'. clear Hd'.
  eexists. split; [exact Ha|]. cbn [keyword_density].
  intros k e Hin. destruct (Hall k e Hin) as [[]|He].
  rewrite keyword_entry_value in He. inversion He; subst e. clear He.
  cbn [count density]. unfold Py.count, Py.len_str.
  split; [|split].
  - pose proof (count_go_at_most (Py.lower k) (Py.lower text) 0) as H. lia.
  - intro Hk.
    pose proof (count_go_fits (Py.lower k) (Py.lower text) 0 Hk) as H. lia.
  - apply round2_nonneg.
    destruct (Z.gtb_spec (Py.len (Py.split (Py.lower text))) 0) as [Hw|Hw];
      [|lra].
    apply float_percentage_error; lia.
Qed.

(** "Cat" in "The CAT catalog". *)
Lemma density_entry_bounds_witness :
  Py.lower "Cat" <> EmptyString
  /\ exists a e,
       analyze_seo "The CAT catalog" ["Cat"%string] = Some a
       /\ In ("Cat"%string, e) (keyword_density a)
       /\ 0 <= count e <= Py.len_str (Py.lower "The CAT catalog") + 1
       /\ count e * Py.len_str (Py.lower "Cat")
          <= Py.len_str (Py.lower "The CAT catalog")
       /\ (0 <= density e)%Q.
Proof.
  assert (Hne : Py.lower "Cat" <> EmptyString) by discriminate.
  split; [exact Hne|].
  destruct (density_entry_bounds "The CAT catalog" ["Cat"%string])
    as [a [Ha H]].
  assert (Hin : exists e, In ("Cat"%string, e) (keyword_density a)).
  { pose proof Ha as Ha'. vm_compute in Ha'. inversion Ha'.
    eexists. left. reflexivity. }
  destruct Hin as [e Hin]. exists a, e.
  destruct (H "Cat"%string e Hin) as [H1 [H2 H3]].
  exact (conj Ha (conj Hin (conj H1 (conj (H2 Hne) H3)))).
Defined.

(** ** The primary keywords *)

Lemma keys_add (c : Counter.t) (w : string) :
  Dict.keys (Counter.add c w) = Notion.add_key (Dict.keys c) w.
Proof.
  unfold Notion.add_key, Dict.keys.
  induction c as [|[k n] c IH]; [reflexivity|].
  cbn [Counter.add map fst Py.mem existsb].
  rewrite (String.eqb_sym w k).
  destruct (String.eqb k w); [reflexivity|].
  cbn [map fst orb]. rewrite IH. fold (Py.mem w (map fst c)).
  destruct (Py.mem w (map fst c)); reflexivity.
Qed.

Lemma tally_add (c : Counter.t) (w w' : string) :
  Notion.tally (Counter.add c w) w'
  = Notion.tally c w' + (if String.eqb w w' then 1 else 0).
Proof.
  unfold Notion.tally.
  induction c as [|[k n] c IH]; cbn [Counter.add Dict.lookup].
  - destruct (String.eqb w w'); reflexivity.
  - destruct (String.eqb_spec k w) as [->|Hkw]; cbn [Dict.lookup].
    + destruct (String.eqb w w'); lia.
    + destruct (String.eqb_spec k w') as [->|Hkw'].
      * destruct (String.eqb_spec w w'); [congruence|lia].
      * exact IH.
Qed.

Lemma tally_fold (ws : list string) (c : Counter.t) (w : string) :
  Notion.tally (fold_left Counter.add ws c) w
  = Notion.tally c w + Notion.frequency ws w.
Proof.
  unfold Notion.frequency.
  revert c. induction ws as [|x ws IH]; intro c; cbn [fold_left count_occ].
  - simpl. lia.
  - rewrite IH, tally_add.
    destruct (String.string_dec x w) as [->|Hx].
    + rewrite String.eqb_refl. lia.
    + destruct (String.eqb_spec x w); [contradiction|lia].
Qed.

Lemma keys_fold (ws : list string) (c : Counter.t) :
  Dict.keys (fold_left Counter.add ws c)
  = fold_left Notion.add_key ws (Dict.keys c).
Proof.
  revert c. induction ws as [|x ws IH]; intro c; cbn [fold_left];
    [reflexivity|].
  now rewrite IH, keys_add.
Qed.

Lemma lookup_of_entry {V : Type} (d : Dict.t V) (k : string) (v : V) :
  NoDup (Dict.keys d) -> In (k, v) d -> Dict.lookup d k = Some v.
Proof.
  unfold Dict.keys. induction d as [|[k0 v0] d IH]; [intros _ []|].
  cbn [map fst Dict.lookup]. intros Hnd [H|H].
  - inversion H; subst. now rewrite String.eqb_refl.
  - inversion Hnd as [|? ? Hnotin Hnd']; subst.
    destruct (String.eqb_spec k0 k) as [->|Hne]; [|now apply IH].
    exfalso. apply Hnotin. change k with (fst (k, v)). now apply in_map.
Qed.

Lemma entry_of_lookup {V : Type} (d : Dict.t V) (k : string) (v : V) :
  Dict.lookup d k = Some v -> In (k, v) d.
Proof.
  induction d as [|[k0 v0] d IH]; [discriminate|].
  cbn [Dict.lookup]. destruct (String.eqb_spec k0 k) as [->|Hne].
  - intro H. inversion H. now left.
  - intro H. right. now apply IH.
Qed.

Lemma lookup_of_key {V : Type} (d : Dict.t V) (k : string) :
  In k (Dict.keys d) -> exists v, Dict.lookup d k = Some v.
Proof.
  unfold Dict.keys. induction d as [|[k0 v0] d IH]; [intros []|].
  cbn [map fst Dict.lookup]. intros [H|H].
  - subst. rewrite String.eqb_refl. eauto.
  - destruct (String.eqb k0 k); eauto.
Qed.

(** The counter of a word list: one entry per distinct word, holding its
    frequency. *)
Lemma counter_of_list (ws : list string) :
  NoDup (Dict.keys (Counter.of_list ws))
  /\ (forall w n, In (w, n) (Counter.of_list ws) ->
        In w ws /\ n = Notion.frequency ws w)
  /\ (forall w, In w ws ->
        In (w, Notion.frequency ws w) (Counter.of_list ws)).
Proof.
  unfold Counter.of_list.
  pose proof (keys_fold ws []) as Hk. cbn [Dict.keys map] in Hk.
  destruct (fold_add_key ws [] (NoDup_nil _)) as [Hnd [Hin _]].
  fold (Dict.keys (fold_left Counter.add ws [])) in Hk.
  rewrite <- Hk in Hnd, Hin.
  split; [assumption|]. split.
  - intros w n H.
    assert (Hw : In w ws).
    { assert (In w (Dict.keys (fold_left Counter.add ws []))) as H'
        by (change w with (fst (w, n)); now apply in_map).
      apply Hin in H'. simpl in H'. tauto. }
    split; [assumption|].
    pose proof (lookup_of_entry _ _ _ Hnd H) as Hl.
    pose proof (tally_fold ws [] w) as Ht.
    unfold Notion.tally at 1 in Ht. rewrite Hl in Ht.
    rewrite Ht. reflexivity.
  - intros w Hw.
    assert (Hkey : In w (Dict.keys (fold_left Counter.add ws [])))
      by (apply Hin; now right).
    destruct (lookup_of_key _ _ Hkey) as [n Hl].
    pose proof (tally_fold ws [] w) as Ht.
    unfold Notion.tally at 1 in Ht. rewrite Hl in Ht.
    apply entry_of_lookup. rewrite Hl, Ht. reflexivity.
Qed.

(** *** [most_common] *)

Lemma insert_permutation (e : string * Z) (l : Counter.t) :
  Permutation (Counter.insert e l) (e :: l).
Proof.
  induction l as [|e' l IH]; cbn [Counter.insert]; [reflexivity|].
  destruct (snd e <? snd e'); [|reflexivity].
  rewrite IH. apply perm_swap.
Qed.

Lemma sort_permutation (l : Counter.t) :
  Permutation (fold_right Counter.insert [] l) l.
Proof.
  induction l as [|e l IH]; cbn [fold_right]; [reflexivity|].
  rewrite insert_permutation. now constructor.
Qed.

Lemma insert_sorted (e : string * Z) (l : Counter.t) :
  StronglySorted Notion.outranks l ->
  StronglySorted Notion.outranks (Counter.insert e l).
Proof.
  induction l as [|e' l IH]; cbn [Counter.insert]; intro H.
  - repeat constructor.
  - inversion H as [|? ? Hl Hall]; subst.
    destruct (Z.ltb_spec (snd e) (snd e')) as [Hlt|Hge].
    + constructor; [now apply IH|].
      eapply Permutation_Forall;
        [symmetry; apply insert_permutation|].
      constructor; [unfold Notion.outranks; lia|assumption].
    + constructor; [assumption|]. constructor.
      * unfold Notion.outranks. lia.
      * eapply Forall_impl; [|exact Hall].
        unfold Notion.outranks. intros. lia.
Qed.

Lemma sort_sorted (l : Counter.t) :
  StronglySorted Notion.outranks (fold_right Counter.insert [] l).
Proof.
  induction l as [|e l IH]; cbn [fold_right]; [constructor|].
  now apply insert_sorted.
Qed.

Lemma in_firstn {A : Type} (n : nat) (l : list A) (x : A) :
  In x (firstn n l) -> In x l.
Proof.
  intro H. rewrite <- (firstn_skipn n l). apply in_or_app. now left.
Qed.

Lemma in_skipn {A : Type} (n : nat) (l : list A) (x : A) :
  In x (skipn n l) -> In x l.
Proof.
  intro H. rewrite <- (firstn_skipn n l). apply in_or_app. now right.
Qed.

Lemma firstn_sorted {A : Type} (R : A -> A -> Prop) (n : nat) (l : list A) :
  StronglySorted R l -> StronglySorted R (firstn n l).
Proof.
  revert n. induction l as [|x l IH]; intros [|n] H; cbn [firstn];
    try constructor.
  - inversion H; subst. now apply IH.
  - inversion H as [|? ? _ Hall]; subst.
    rewrite Forall_forall in *. intros y Hy. apply Hall.
    eapply in_firstn. exact Hy.
Qed.

Lemma sorted_cut {A : Type} (R : A -> A -> Prop) (n : nat) (l : list A) :
  StronglySorted R l ->
  forall x y, In x (firstn n l) -> In y (skipn n l) -> R x y.
Proof.
  revert n. induction l as [|a l IH]; intros n H x y Hx Hy.
  - rewrite firstn_nil in Hx. destruct Hx.
  - destruct n as [|n]; [destruct Hx|].
    cbn [firstn skipn] in Hx, Hy.
    inversion H as [|? ? Hl Hall]; subst. destruct Hx as [<-|Hx].
    + rewrite Forall_forall in Hall. apply Hall.
      eapply in_skipn. exact Hy.
    + now apply (IH n Hl).
Qed.

Lemma NoDup_keys_firstn {V : Type} (n : nat) (d : Dict.t V) :
  NoDup (Dict.keys d) -> NoDup (Dict.keys (firstn n d)).
Proof.
  unfold Dict.keys. revert n.
  induction d as [|[k v] d IH]; intros [|n] H; cbn [firstn map];
    try constructor.
  - inversion H as [|? ? Hnotin _]; subst. intro Hk. apply Hnotin.
    apply in_map_iff in Hk. destruct Hk as [[k' v'] [E Hk]].
    apply in_map_iff. exists (k', v'). split; [assumption|].
    eapply in_firstn. exact Hk.
  - inversion H; subst. now apply IH.
Qed.

Lemma NoDup_keys_filter {V : Type} (f : string * V -> bool) (d : Dict.t V) :
  NoDup (Dict.keys d) -> NoDup (Dict.keys (filter f d)).
Proof.
  unfold Dict.keys. induction d as [|[k v] d IH]; intro H; cbn [filter map].
  - constructor.
  - inversion H as [|? ? Hnotin Hnd]; subst.
    destruct (f (k, v)); [|now apply IH].
    cbn [map fst]. constructor; [|now apply IH].
    intro Hk. apply Hnotin.
    apply in_map_iff in Hk. destruct Hk as [[k' v'] [E Hk]].
    apply in_map_iff. exists (k', v'). split; [assumption|].
    apply filter_In in Hk. tauto.
Qed.

Lemma sorted_by_frequency (ws : list string) (l : Counter.t) :
  (forall w n, In (w, n) l -> n = Notion.frequency ws w) ->
  StronglySorted Notion.outranks l ->
  StronglySorted
    (fun w1 w2 => Notion.frequency ws w2 <= Notion.frequency ws w1)
    (map fst l).
Proof.
  induction l as [|[w n] l IH]; intros Hf H; cbn [map]; [constructor|].
  inversion H as [|? ? Hl Hall]; subst.
  constructor.
  - apply IH; [|assumption]. intros w' n' H'. apply Hf. now right.
  - rewrite Forall_forall in *. intros w' Hw'.
    apply in_map_iff in Hw'. destruct Hw' as [[w2 n2] [E Hin]].
    cbn [fst] in *. subst w2.
    pose proof (Hall _ Hin) as Ho. unfold Notion.outranks in Ho.
    cbn [snd fst] in Ho.
    rewrite <- (Hf w n (or_introl eq_refl)).
    rewrite <- (Hf w' n2 (or_intror Hin)). exact Ho.
Qed.

Lemma analyze_seo_primary_keywords (text : string) (kws : list string) :
  exists a,
    analyze_seo text kws = Some a
    /\ primary_keywords a
       = map fst
           (Counter.most_common 10
              (filter (fun wc => Notion.admissible (fst wc))
                 (Counter.of_list (Py.split (Py.lower text))))).
Proof.
  destruct (density_loop_spec text (Py.len (Py.split (Py.lower text))) kws [])
    as [d [Hd _]].
  destruct (calculate_avg_sentence_length_returns text) as [q Hq].
  unfold analyze_seo. cbv zeta.
  rewrite Hd, calculate_readability_value, Hq. cbn [Exn.bind Exn.ret].
  eexists. split; reflexivity.
Qed.

(** The primary keywords are at most 10 distinct lower-cased words of the
    text, none a stop word and each longer than 3 characters, in order of
    non-increasing frequency; a word left out that qualifies is no more
    frequent than any of the 10 kept. *)
Theorem primary_keywords_are_the_most_frequent
  (text : string) (kws : list string) :
  exists a,
    analyze_seo text kws = Some a
    /\ (List.length (primary_keywords a) <= 10)%nat
    /\ NoDup (primary_keywords a)
    /\ (forall w, In w (primary_keywords a) ->
          In w (Py.split (Py.lower text)) /\ Notion.admissible w = true)
    /\ StronglySorted
         (fun w1 w2 =>
            Notion.frequency (Py.split (Py.lower text)) w2
            <= Notion.frequency (Py.split (Py.lower text)) w1)
         (primary_keywords a)
    /\ (forall w,
          In w (Py.split (Py.lower text)) -> Notion.admissible w = true ->
          ~ In w (primary_keywords a) ->
          List.length (primary_keywords a) = 10%nat
          /\ forall w', In w' (primary_keywords a) ->
               Notion.frequency (Py.split (Py.lower text)) w
               <= Notion.frequency (Py.split (Py.lower text)) w').
Proof.
  destruct (analyze_seo_primary_keywords text kws) as [a [Ha Hpk]].
  exists a. split; [exact Ha|]. rewrite Hpk. clear a Ha Hpk.
  set (ws := Py.split (Py.lower text)).
  destruct (counter_of_list ws) as [Hnd [Hsound Hcomplete]].
  set (flt := filter (fun wc => Notion.admissible (fst wc))
                (Counter.of_list ws)).
  set (sorted := fold_right Counter.insert [] flt).
  unfold Counter.most_common. fold sorted.
  assert (Hperm : Permutation sorted flt) by apply sort_permutation.
  assert (Hsorted : StronglySorted Notion.outranks sorted)
    by apply sort_sorted.
  assert (Hentry : forall w n, In (w, n) sorted ->
            In w ws /\ n = Notion.frequency ws w
            /\ Notion.admissible w = true).
  { intros w n H. apply (Permutation_in _ Hperm) in H.
    apply filter_In in H. destruct H as [H Hadm].
    destruct (Hsound w n H). auto. }
  assert (Hnd' : NoDup (Dict.keys sorted)).
  { unfold Dict.keys.
    eapply Permutation_NoDup;
      [apply Permutation_map; symmetry; exact Hperm|].
    apply (NoDup_keys_filter _ _ Hnd). }
  split; [rewrite length_map; apply firstn_le_length|].
  split; [apply (NoDup_keys_firstn 10 sorted Hnd')|].
  split; [|split].
  - intros w Hw. apply in_map_iff in Hw.
    destruct Hw as [[w' n] [E Hin]]. cbn [fst] in E. subst w'.
    apply in_firstn in Hin. destruct (Hentry w n Hin) as [H1 [_ H3]]. auto.
  - apply sorted_by_frequency; [|now apply firstn_sorted].
    intros w n Hin. apply in_firstn in Hin.
    now destruct (Hentry w n Hin) as [_ [H2 _]].
  - intros w Hw Hadm Hnot.
    assert (Hin : In (w, Notion.frequency ws w) sorted).
    { apply (Permutation_in _ (Permutation_sym Hperm)).
      apply filter_In. split; [now apply Hcomplete|exact Hadm]. }
    rewrite <- (firstn_skipn 10 sorted) in Hin.
    apply in_app_or in Hin. destruct Hin as [Hin|Hin].
    { exfalso. apply Hnot. apply in_map_iff.
      exists (w, Notion.frequency ws w). auto. }
    split.
    + rewrite length_map, length_firstn.
      destruct (Nat.le_gt_cases (List.length sorted) 10) as [Hle|Hgt];
        [|lia].
      rewrite (skipn_all2 _ Hle) in Hin. destruct Hin.
    + intros w' Hw'. apply in_map_iff in Hw'.
      destruct Hw' as [[w2 n2] [E Hin2]]. cbn [fst] in E. subst w2.
      pose proof (sorted_cut _ 10 sorted Hsorted _ _ Hin2 Hin) as Ho.
      unfold Notion.outranks in Ho. cbn [snd] in Ho.
      apply in_firstn in Hin2.
      destruct (Hentry w' n2 Hin2) as [_ [E _]]. now rewrite <- E.
Qed.

(** Eleven words qualify; the one used once is left out. *)
Lemma primary_keywords_are_the_most_frequent_witness :
  exists a,
    analyze_seo eleven_words [] = Some a
    /\ In "alpha"%string (primary_keywords a)
    /\ In "kilos"%string (Py.split (Py.lower eleven_words))
    /\ Notion.admissible "kilos" = true
    /\ ~ In "kilos"%string (primary_keywords a)
    /\ Notion.admissible "alpha" = true
    /\ List.length (primary_keywords a) = 10%nat
    /\ Notion.frequency (Py.split (Py.lower eleven_words)) "kilos"
       <= Notion.frequency (Py.split (Py.lower eleven_words)) "alpha".
Proof.
  destruct (primary_keywords_are_the_most_frequent eleven_words [])
    as [a [Ha [_ [_ [Hin [_ Hcut]]]]]].
  assert (Hpk : primary_keywords a
                = ["alpha"; "bravo"; "charlie"; "delta"; "echoes"; "foxtrot";
                   "golfer"; "hotel"; "india"; "juliet"]%string).
  { pose proof Ha as Ha'. vm_compute in Ha'. inversion Ha'. reflexivity. }
  assert (H1 : In "alpha"%string (primary_keywords a))
    by (rewrite Hpk; left; reflexivity).
  assert (H2 : In "kilos"%string (Py.split (Py.lower eleven_words)))
    by (vm_compute; tauto).
  assert (H3 : Notion.admissible "kilos" = true) by reflexivity.
  assert (H4 : ~ In "kilos"%string (primary_keywords a)).
  { rewrite Hpk. intro H. cbn [In] in H.
    repeat (destruct H as [H|H]; [discriminate H|]). exact H. }
  exists a.
  destruct (Hcut "kilos"%string H2 H3 H4) as [H5 H6].
  exact (conj Ha (conj H1 (conj H2 (conj H3 (conj H4
           (conj (proj2 (Hin "alpha"%string H1))
              (conj H5 (H6 "alpha"%string H1)))))))).
Defined.

(** ** Sums *)

Lemma sum_from (l : list Z) (acc : Z) :
  fold_left Z.add l acc = acc + Py.sum l.
Proof.
  unfold Py.sum. revert acc. induction l as [|x l IH]; intro acc; simpl.
  - lia.
  - rewrite IH, (IH x). lia.
Qed.

Lemma sum_cons (x : Z) (l : list Z) : Py.sum (x :: l) = x + Py.sum l.
Proof. unfold Py.sum at 1. simpl. apply sum_from. Qed.

Lemma sum_ones {A : Type} (l : list A) :
  Py.sum (map (fun _ => 1) l) = Py.len l.
Proof.
  unfold Py.len. induction l as [|x l IH]; [reflexivity|].
  cbn [map]. rewrite sum_cons, IH. cbn [List.length]. lia.
Qed.

Lemma sum_at_least {A : Type} (f : A -> Z) (l : list A) :
  (forall x, In x l -> 1 <= f x) -> Py.len l <= Py.sum (map f l).
Proof.
  unfold Py.len. induction l as [|x l IH]; intro H; [reflexivity|].
  cbn [map]. rewrite sum_cons. cbn [List.length].
  pose proof (H x (or_introl eq_refl)).
  assert (Z.of_nat (List.length l) <= Py.sum (map f l))
    by (apply IH; intros; apply H; now right).
  lia.
Qed.

(** ** Headings *)

Lemma count_lines_length (marker : string) (lines : list string) :
  count_lines marker lines
  = Py.len (filter (fun line => Py.startswith line marker) lines).
Proof. unfold count_lines. apply sum_ones. Qed.

(** No line starts with two of the three markers. *)
Lemma markers_exclusive (line : string) :
  (if Py.startswith line "# " then 1 else 0)
  + (if Py.startswith line "## " then 1 else 0)
  + (if Py.startswith line "### " then 1 else 0) <= 1.
Proof.
  unfold Py.startswith.
  destruct line as [|a [|b [|c line]]]; cbn [String.prefix];
    repeat match goal with
           | |- context [ascii_dec ?x ?y] => destruct (ascii_dec x y)
           end;
    try lia; subst; try discriminate;
    repeat match goal with
           | |- context [String.prefix ?p ?s] => destruct (String.prefix p s)
           end; lia.
Qed.

Lemma headings_at_most_lines (lines : list string) :
  count_lines "# " lines + count_lines "## " lines + count_lines "### " lines
  <= Py.len lines.
Proof.
  rewrite !count_lines_length. unfold Py.len.
  induction lines as [|l lines IH]; [reflexivity|].
  cbn [filter List.length]. pose proof (markers_exclusive l) as H.
  destruct (Py.startswith l "# "), (Py.startswith l "## "),
    (Py.startswith l "### "); cbn [List.length]; lia.
Qed.

Lemma h1_or_proper_hierarchy (text : string) :
  has_h1 (_analyze_headings text) = Some true
  \/ proper_hierarchy (_analyze_headings text) = Some true.
Proof.
  unfold _analyze_headings. cbv zeta. cbn [has_h1 proper_hierarchy].
  set (n := count_lines "# " (Py.split_on "010" text)).
  rewrite Z.gtb_ltb.
  destruct (Z.ltb_spec 0 n); [now left|right].
  f_equal. apply Z.leb_le. lia.
Qed.

(** A line counts for at most one heading level, so the three counts add up
    to at most the number of lines; and a text has an H1 or a proper
    hierarchy (or both). *)
Theorem headings_are_counted_once (text : string) :
  let h := _analyze_headings text in
  exists n1 n2 n3,
    h1_count h = Some n1 /\ h2_count h = Some n2 /\ h3_count h = Some n3
    /\ 0 <= n1 /\ 0 <= n2 /\ 0 <= n3
    /\ n1 + n2 + n3 <= Py.len (Py.split_on "010" text)
    /\ has_h1 h = Some (0 <? n1)
    /\ proper_hierarchy h = Some (n1 <=? 1)
    /\ (has_h1 h = Some true \/ proper_hierarchy h = Some true).
Proof.
  cbv zeta. pose proof (h1_or_proper_hierarchy text) as Hor.
  unfold _analyze_headings in *. cbv zeta in *.
  cbn [h1_count h2_count h3_count has_h1 proper_hierarchy] in *.
  set (lines := Py.split_on "010" text) in *.
  do 3 eexists. repeat (split; [reflexivity|]).
  pose proof (headings_at_most_lines lines) as H.
  rewrite !count_lines_length in *. unfold Py.len in *.
  repeat (split; [lia|]).
  rewrite Z.gtb_ltb in *. split; [reflexivity|]. split; [reflexivity|].
  exact Hor.
Qed.

(** ** Sentences *)

Lemma lstrip_head (s : string) (c : ascii) (r : string) :
  Py.lstrip s = String c r -> Py.isspace c = false.
Proof.
  induction s as [|a s IH]; simpl; [discriminate|].
  destruct (Py.isspace a) eqn:E; [exact IH|].
  intro H. inversion H; subst. exact E.
Qed.

Lemma strip_head (s : string) :
  Py.truthy (Py.strip s) = true ->
  exists c r, Py.strip s = String c r /\ Py.isspace c = false.
Proof.
  unfold Py.strip. destruct (Py.lstrip s) as [|c r] eqn:E;
    [discriminate|].
  intros _. pose proof (lstrip_head s c r E) as Hc.
  cbn [Py.rstrip]. rewrite Hc. cbn [andb]. eauto.
Qed.

Lemma truthy_snoc (cur : string) (c : ascii) :
  Py.truthy (Py.snoc cur c) = true.
Proof. destruct cur; reflexivity. Qed.

Lemma split_go_started (s cur : string) :
  Py.truthy cur = true -> 1 <= Py.len (Py.split_go s cur).
Proof.
  unfold Py.len. revert cur.
  induction s as [|c s IH]; intros cur H; simpl.
  - rewrite H. simpl. lia.
  - destruct (Py.isspace c).
    + rewrite H. cbn [List.length]. lia.
    + apply IH. apply truthy_snoc.
Qed.

Lemma split_of_sentence (s : string) :
  Py.truthy (Py.strip s) = true -> 1 <= Py.len (Py.split (Py.strip s)).
Proof.
  intro H. destruct (strip_head s H) as [c [r [E Hc]]].
  rewrite E. unfold Py.split. cbn [Py.split_go]. rewrite Hc.
  apply split_go_started. apply truthy_snoc.
Qed.

Lemma filter_none {A : Type} (f : A -> bool) (l : list A) :
  filter f l = [] <-> forallb (fun x => negb (f x)) l = true.
Proof.
  induction l as [|x l IH]; simpl; [tauto|].
  destruct (f x); simpl; [split; discriminate|exact IH].
Qed.

(** The average sentence length is 0 when every fragment between
    terminators is blank, and at least 1 otherwise: it is never a fraction
    below 1. *)
Theorem average_sentence_length_is_zero_or_at_least_one (text : string) :
  exists q,
    _calculate_avg_sentence_length text = Some q
    /\ (forallb Notion.blank (Py.re_split text) = true -> q = 0%Q)
    /\ (forallb Notion.blank (Py.re_split text) = false -> (1 <= q)%Q).
Proof.
  unfold _calculate_avg_sentence_length. cbv zeta.
  set (kept := filter (fun s => Py.truthy (Py.strip s)) (Py.re_split text)).
  assert (Hkept : forall s, In s kept -> Py.truthy (Py.strip s) = true)
    by (intros s H; apply filter_In in H; tauto).
  assert (Hnone : kept = [] <-> forallb Notion.blank (Py.re_split text) = true)
    by apply filter_none.
  destruct kept as [|s l] eqn:E.
  - exists 0%Q. cbn [map]. split; [reflexivity|]. split; [reflexivity|].
    intro H. rewrite (proj1 Hnone eq_refl) in H. discriminate.
  - set (sentences := map Py.strip (s :: l)).
    assert (Hlen : 1 <= Py.len sentences)
      by (unfold Py.len, sentences; cbn [map List.length]; lia).
    assert (Hsum : Py.len sentences
                   <= Py.sum (map (fun s => Py.len (Py.split s)) sentences)).
    { apply sum_at_least. intros x Hx. unfold sentences in Hx.
      apply in_map_iff in Hx. destruct Hx as [y [<- Hy]].
      apply split_of_sentence. now apply Hkept. }
    change (map Py.strip (s :: l)) with sentences.
    destruct sentences as [|s0 l0] eqn:Es; [discriminate|].
    rewrite truediv_some by lia.
    eexists. split; [reflexivity|]. split.
    + intro H. apply Hnone in H. discriminate.
    + intros _. apply Qle_shift_div_l.
      * change 0%Q with (inject_Z 0). rewrite <- Zlt_Qlt. lia.
      * rewrite Qmult_1_l, <- Zle_Qle. exact Hsum.
Qed.

(** Two sentences, and a text of terminators and blanks. *)
Lemma average_sentence_length_is_zero_or_at_least_one_witness :
  (forallb Notion.blank (Py.re_split "Hello world. Bye.") = false
   /\ exists q, _calculate_avg_sentence_length "Hello world. Bye." = Some q
                /\ (1 <= q)%Q)
  /\ (forallb Notion.blank (Py.re_split " ... ") = true
      /\ _calculate_avg_sentence_length " ... " = Some 0%Q).
Proof.
  split.
  - split; [reflexivity|].
    destruct (average_sentence_length_is_zero_or_at_least_one
                "Hello world. Bye.") as [q [Hq [_ H]]].
    exists q. split; [exact Hq|]. apply H. reflexivity.
  - split; [reflexivity|].
    destruct (average_sentence_length_is_zero_or_at_least_one " ... ")
      as [q [Hq [H _]]].
    rewrite <- (H eq_refl). exact Hq.
Defined.

(** ** Syllables *)

Lemma syllable_loop_from (w : string) (count : Z) (p : bool) :
  syllable_loop w count p = count + syllable_loop w 0 p.
Proof.
  revert count p. induction w as [|c w IH]; intros count p; simpl; [lia|].
  destruct (is_vowel c && negb p)%bool.
  - rewrite IH, (IH (0 + 1)). lia.
  - apply IH.
Qed.

Lemma syllable_loop_bounds (w : string) :
  0 <= syllable_loop w 0 true
  /\ 2 * syllable_loop w 0 true <= Py.len_str w
  /\ 0 <= syllable_loop w 0 false
  /\ 2 * syllable_loop w 0 false <= Py.len_str w + 1.
Proof.
  unfold Py.len_str. induction w as [|c w IH]; [simpl; lia|].
  cbn [syllable_loop String.length]. rewrite !andb_false_r, andb_true_r.
  destruct (is_vowel c).
  - rewrite (syllable_loop_from w (0 + 1)). lia.
  - lia.
Qed.

(** A word has at least 1 syllable and at most half the characters of its
    lower-cased form, rounded up (1 when that is empty); its case does not
    matter. *)
Theorem syllables_within_half_the_letters (word : string) :
  1 <= _count_syllables word
  /\ 2 * _count_syllables word <= Z.max 2 (Py.len_str (Py.lower word) + 1)
  /\ _count_syllables (Py.lower word) = _count_syllables word.
Proof.
  split; [|split; [|apply count_syllables_lower]];
    unfold _count_syllables; cbv zeta.
  - lia.
  - pose proof (syllable_loop_bounds (Py.lower word)) as H.
    destruct (Py.endswith_char (Py.lower word) "e"); lia.
Qed.

(** ** Readability counts *)

Lemma re_split_go_counts (c : ascii) (rest cur : string) :
  Py.len (Py.re_split_go rest cur (Py.is_terminator c))
  = 1 + Z.of_nat (List.length
          (filter (Notion.starts_run (String c rest))
             (seq 1 (String.length rest)))).
Proof.
  unfold Py.len. revert c cur.
  induction rest as [|d rest IH]; intros c cur; [reflexivity|].
  cbn [Py.re_split_go String.length seq filter].
  replace (Notion.starts_run (String c (String d rest)) 1)
    with (Py.is_terminator d && negb (Py.is_terminator c))%bool
    by reflexivity.
  assert (Hshift :
    List.length (filter (Notion.starts_run (String c (String d rest)))
                   (seq 2 (String.length rest)))
    = List.length (filter (Notion.starts_run (String d rest))
                     (seq 1 (String.length rest)))).
  { rewrite (filter_seq_shift _ 1). f_equal. apply filter_ext_in.
    intros i Hi. apply in_seq in Hi.
    destruct i as [|i]; [lia|reflexivity]. }
  destruct (Py.is_terminator d) eqn:Ed.
  - pose proof (IH d EmptyString) as H. rewrite Ed in H.
    destruct (Py.is_terminator c); cbn [andb negb List.length];
      rewrite Hshift; lia.
  - pose proof (IH d (Py.snoc cur d)) as H. rewrite Ed in H.
    cbn [andb]. rewrite Hshift. lia.
Qed.

Lemma re_split_counts (text : string) :
  Py.len (Py.re_split text) = 1 + Notion.terminator_runs text.
Proof.
  unfold Py.re_split, Notion.terminator_runs.
  destruct text as [|c rest]; [reflexivity|].
  cbn [Py.re_split_go String.length seq filter].
  replace (Notion.starts_run (String c rest) 0) with (Py.is_terminator c)
    by (unfold Notion.starts_run, Notion.terminator_at; simpl;
        now rewrite andb_true_r).
  destruct (Py.is_terminator c) eqn:Ec.
  - pose proof (re_split_go_counts c rest EmptyString) as H.
    rewrite Ec in H. unfold Py.len in *. cbn [List.length]. lia.
  - pose proof (re_split_go_counts c rest (Py.snoc EmptyString c)) as H.
    rewrite Ec in H. unfold Py.len in *. lia.
Qed.

(** The two word counts of an analysis agree, although one is taken on the
    lower-cased text and the other is not; the syllable count is at least
    the word count; and the sentence count is one more than the number of
    runs of terminators. *)
Theorem readability_counts_agree (text : string) (kws : list string) :
  exists a ns nw syl,
    analyze_seo text kws = Some a
    /\ sentence_count (readability a) = Some ns
    /\ r_word_count (readability a) = Some nw
    /\ syllable_count (readability a) = Some syl
    /\ nw = word_count a
    /\ 0 <= nw <= syl
    /\ ns = 1 + Notion.terminator_runs text.
Proof.
  destruct (analyze_seo_shape text kws)
    as [d [q [_ [_ [r [Hr [pk Ha]]]]]]].
  rewrite calculate_readability_value in Hr. inversion Hr; subst r. clear Hr.
  do 4 eexists. split; [exact Ha|].
  cbn [readability sentence_count r_word_count syllable_count word_count].
  repeat (split; [reflexivity|]).
  split; [symmetry; apply word_count_is_token_count|].
  split; [|apply re_split_counts].
  split; [unfold Py.len; lia|].
  apply sum_at_least. intros w _.
  unfold _count_syllables. cbv zeta. lia.
Qed.

(** ** Score and suggestions of an analysed text *)

(** The score of an analysed text is at least 10, at least 20 when the text
    is not empty, and at most 80 when there is no target keyword. *)
Theorem analysed_text_scores_at_least_10
  (cfg : Config) (text : string) (kws : list string) :
  exists a,
    analyze_seo text kws = Some a
    /\ 10 <= _calculate_seo_score cfg a
    /\ (text <> EmptyString -> 20 <= _calculate_seo_score cfg a)
    /\ (kws = [] -> _calculate_seo_score cfg a <= 80).
Proof.
  destruct (density_loop_spec text (Py.len (Py.split (Py.lower text))) kws [])
    as [d [Hd _]].
  destruct (analyze_seo_shape text kws)
    as [d' [q [Hd' [_ [r [_ [pk Ha]]]]]]].
  rewrite Hd in Hd'. inversion Hd'; subst d'. clear Hd'.
  eexists. split; [exact Ha|].
  rewrite score_by_rows.
  unfold Spec.score_short_first, Spec.other_points, Spec.heading_points,
    hasH1, h2Count, properHierarchy, fleschScore, hasMetaDescription,
    averageSentenceLength.
  cbn [word_count keyword_density heading_structure readability
       has_meta_description average_sentence_length Dict.get].
  pose proof (word_count_points_bounds (min_word_count cfg)
                (max_word_count cfg) (Py.len (Py.split (Py.lower text)))).
  pose proof (keyword_density_points_bounds d).
  pose proof (readability_points_bounds (Dict.get (flesch_score r) 0%Q)).
  pose proof (sentence_length_points_bounds q).
  pose proof (meta_points_bounds (Py.truthy text)).
  pose proof (h1_or_proper_hierarchy text) as Hor.
  assert (Hheading :
    5 <= (if Dict.get (has_h1 (_analyze_headings text)) false then 5 else 0)
       + (if 3 <=? Dict.get (h2_count (_analyze_headings text)) 0
          then 5 else 0)
       + (if Dict.get (proper_hierarchy (_analyze_headings text)) true
          then 5 else 0) <= 15).
  { destruct Hor as [E|E]; rewrite E; cbn [Dict.get];
      repeat match goal with
             | |- context [if ?b then _ else _] => destruct b
             end; lia. }
  split; [lia|]. split.
  - intro Ht. destruct text; [contradiction|]. cbn [Py.truthy Spec.meta_points].
    cbn [Py.truthy Spec.meta_points] in *. lia.
  - intros ->. cbn [density_loop] in Hd. inversion Hd; subst d.
    unfold Spec.keyword_density_points in *. cbn in *. lia.
Qed.

(** A one-letter text without keywords. *)
Lemma analysed_text_scores_at_least_10_witness :
  "x"%string <> EmptyString
  /\ exists a,
       analyze_seo "x" [] = Some a
       /\ 20 <= _calculate_seo_score test_config a
       /\ _calculate_seo_score test_config a <= 80.
Proof.
  assert (Hne : "x"%string <> EmptyString) by discriminate.
  split; [exact Hne|].
  destruct (analysed_text_scores_at_least_10 test_config "x" [])
    as [a [Ha [_ [H1 H2]]]].
  exists a. exact (conj Ha (conj (H1 Hne) (H2 eq_refl))).
Defined.

(** ** Score against suggestions *)

Lemma keyword_suggestions_are_keyword_messages
  (kd : Dict.t KeywordDensityEntry) (m : Suggestion) :
  In m (flat_map Spec.keyword_suggestion kd) -> Notion.keyword_message m.
Proof.
  intro H. apply in_flat_map in H. destruct H as [[k e] [_ H]].
  unfold Spec.keyword_suggestion in H. cbn [fst snd] in H.
  destruct (Py.Qlt_bool (density e) 1.0);
    [|destruct (Py.Qlt_bool 3.0 (density e))];
    cbn [In] in H; try contradiction; destruct H as [<-|[]]; exact I.
Qed.

Lemma keyword_suggestion_length (kv : string * KeywordDensityEntry) :
  (List.length (Spec.keyword_suggestion kv) <= 1)%nat.
Proof.
  unfold Spec.keyword_suggestion.
  destruct (Py.Qlt_bool _ _); [|destruct (Py.Qlt_bool _ _)]; simpl; lia.
Qed.

Lemma flat_map_keyword_length (kd : Dict.t KeywordDensityEntry) :
  (List.length (flat_map Spec.keyword_suggestion kd) <= List.length kd)%nat.
Proof.
  induction kd as [|kv kd IH]; [reflexivity|].
  cbn [flat_map]. rewrite length_app.
  pose proof (keyword_suggestion_length kv). simpl. lia.
Qed.

(** With a score of 100 the only suggestions are those about keywords. *)
Theorem perfect_score_leaves_only_keyword_messages
  (cfg : Config) (a : SeoAnalysis) :
  _calculate_seo_score cfg a = 100 ->
  _generate_suggestions cfg a
  = flat_map Spec.keyword_suggestion (keyword_density a)
  /\ forall m, In m (_generate_suggestions cfg a) -> Notion.keyword_message m.
Proof.
  intro Hs.
  assert (E : _generate_suggestions cfg a
              = flat_map Spec.keyword_suggestion (keyword_density a)).
  { rewrite score_by_rows in Hs. rewrite suggestions_in_order.
    unfold Spec.score_short_first, Spec.other_points in Hs.
    pose proof (word_count_points_bounds (min_word_count cfg)
                  (max_word_count cfg) (word_count a)) as B1.
    pose proof (keyword_density_points_bounds (keyword_density a)) as B2.
    pose proof (heading_points_bounds a) as B3.
    pose proof (readability_points_bounds (fleschScore a)) as B4.
    pose proof (meta_points_bounds (hasMetaDescription a)) as B5.
    pose proof (sentence_length_points_bounds (averageSentenceLength a))
      as B6.
    assert (R1 : Spec.word_count_points_short_first (min_word_count cfg)
                   (max_word_count cfg) (word_count a) = 20) by lia.
    assert (R3 : Spec.heading_points a = 15) by lia.
    assert (R4 : Spec.readability_points (fleschScore a) = 20) by lia.
    assert (R6 : Spec.sentence_length_points (averageSentenceLength a) = 15)
      by lia.
    clear Hs B1 B2 B3 B4 B5 B6.
    unfold Spec.word_count_points_short_first in R1.
    unfold Spec.word_count_suggestions.
    destruct (Z.ltb_spec (word_count a) (min_word_count cfg));
      [discriminate|].
    destruct (Z.leb_spec (word_count a) (max_word_count cfg));
      [|discriminate].
    destruct (Z.ltb_spec (max_word_count cfg) (word_count a)); [lia|].
    unfold Spec.heading_points in R3.
    unfold Spec.h1_suggestions, Spec.h2_suggestions.
    destruct (hasH1 a); [|destruct (3 <=? h2Count a),
                            (properHierarchy a); discriminate].
    destruct (Z.leb_spec 3 (h2Count a));
      [|destruct (properHierarchy a); discriminate].
    destruct (Z.ltb_spec (h2Count a) 3); [lia|].
    unfold Spec.readability_points in R4.
    unfold Spec.readability_suggestions.
    destruct (Qle_bool 60 (fleschScore a)) eqn:Ef;
      [|destruct (Qle_bool 40 (fleschScore a)); discriminate].
    apply Qle_bool_iff in Ef.
    destruct (Py.Qlt_bool (fleschScore a) 40) eqn:Ef';
      [apply Qlt_bool_iff in Ef'; lra|].
    unfold Spec.sentence_length_points, Spec.within in R6.
    unfold Spec.sentence_suggestions.
    destruct (Qle_bool 15 (averageSentenceLength a)) eqn:E1;
      [|cbn [andb] in R6; destruct (_ && _)%bool; discriminate].
    destruct (Qle_bool (averageSentenceLength a) 20) eqn:E2;
      [|cbn [andb] in R6; destruct (_ && _)%bool; discriminate].
    apply Qle_bool_iff in E1. apply Qle_bool_iff in E2.
    destruct (Py.Qlt_bool 25 (averageSentenceLength a)) eqn:E3;
      [apply Qlt_bool_iff in E3; lra|].
    destruct (Py.Qlt_bool (averageSentenceLength a) 10) eqn:E4;
      [apply Qlt_bool_iff in E4; lra|].
    cbn [app]. now rewrite !app_nil_r. }
  split; [exact E|]. rewrite E.
  intros m. apply keyword_suggestions_are_keyword_messages.
Qed.

(** The test analysis scores 100. *)
Lemma perfect_score_leaves_only_keyword_messages_witness :
  _calculate_seo_score test_config test_analysis = 100
  /\ _generate_suggestions test_config test_analysis
     = flat_map Spec.keyword_suggestion (keyword_density test_analysis).
Proof.
  assert (H : _calculate_seo_score test_config test_analysis = 100)
    by reflexivity.
  split; [exact H|].
  exact (proj1 (perfect_score_leaves_only_keyword_messages
                  test_config test_analysis H)).
Defined.

(** An analysis that draws no suggestion scores at least 48, and at least
    58 when it has a keyword. *)
Theorem no_suggestion_means_at_least_48 (cfg : Config) (a : SeoAnalysis) :
  _generate_suggestions cfg a = [] ->
  48 <= _calculate_seo_score cfg a
  /\ (keyword_density a <> [] -> 58 <= _calculate_seo_score cfg a).
Proof.
  rewrite suggestions_in_order, score_by_rows. intro H.
  repeat match type of H with
         | _ ++ _ = [] => apply app_eq_nil in H; destruct H as [?H H]
         end.
  unfold Spec.score_short_first, Spec.other_points.
  assert (R1 : Spec.word_count_points_short_first (min_word_count cfg)
                 (max_word_count cfg) (word_count a) = 20).
  { unfold Spec.word_count_suggestions in *.
    unfold Spec.word_count_points_short_first.
    destruct (Z.ltb_spec (word_count a) (min_word_count cfg));
      [discriminate|].
    destruct (Z.ltb_spec (max_word_count cfg) (word_count a));
      [discriminate|].
    destruct (Z.leb_spec (word_count a) (max_word_count cfg)); [reflexivity|lia]. }
  assert (R3 : 10 <= Spec.heading_points a).
  { unfold Spec.h1_suggestions, Spec.h2_suggestions, Spec.heading_points in *.
    destruct (hasH1 a); [|discriminate].
    destruct (Z.ltb_spec (h2Count a) 3); [discriminate|].
    destruct (Z.leb_spec 3 (h2Count a)); [|lia].
    destruct (properHierarchy a); lia. }
  assert (R4 : 10 <= Spec.readability_points (fleschScore a)).
  { unfold Spec.readability_suggestions, Spec.readability_points in *.
    destruct (Py.Qlt_bool (fleschScore a) 40) eqn:E; [discriminate|].
    apply Qlt_bool_false_iff in E.
    destruct (Qle_bool 60 (fleschScore a)); [lia|].
    destruct (Qle_bool 40 (fleschScore a)) eqn:E'; [lia|].
    apply not_true_iff_false in E'. rewrite Qle_bool_iff in E'. tauto. }
  assert (R6 : 8 <= Spec.sentence_length_points (averageSentenceLength a)).
  { unfold Spec.sentence_suggestions, Spec.sentence_length_points,
      Spec.within in *.
    destruct (Py.Qlt_bool 25 (averageSentenceLength a)) eqn:E1;
      [discriminate|].
    destruct (Py.Qlt_bool (averageSentenceLength a) 10) eqn:E2;
      [discriminate|].
    apply Qlt_bool_false_iff in E1. apply Qlt_bool_false_iff in E2.
    apply Qle_bool_iff in E1. apply Qle_bool_iff in E2.
    rewrite E1, E2. cbn [andb].
    destruct (_ && _)%bool; lia. }
  pose proof (keyword_density_points_bounds (keyword_density a)) as B2.
  pose proof (meta_points_bounds (hasMetaDescription a)) as B5.
  pose proof (heading_points_bounds a).
  pose proof (readability_points_bounds (fleschScore a)).
  pose proof (sentence_length_points_bounds (averageSentenceLength a)).
  split; [lia|].
  intro Hne.
  assert (R2 : 10 <= Spec.keyword_density_points (keyword_density a)).
  { unfold Spec.keyword_density_points.
    destruct (existsb _ _); [lia|].
    destruct (keyword_density a); [contradiction|]. simpl. lia. }
  lia.
Qed.

(** The test analysis draws no suggestion. *)
Lemma no_suggestion_means_at_least_48_witness :
  _generate_suggestions test_config test_analysis = []
  /\ keyword_density test_analysis <> []
  /\ 58 <= _calculate_seo_score test_config test_analysis.
Proof.
  assert (H : _generate_suggestions test_config test_analysis = [])
    by reflexivity.
  assert (Hne : keyword_density test_analysis <> []) by discriminate.
  split; [exact H|]. split; [exact Hne|].
  exact (proj2 (no_suggestion_means_at_least_48 test_config test_analysis H)
           Hne).
Defined.

Lemma suggestions_length (cfg : Config) (a : SeoAnalysis) :
  (List.length (_generate_suggestions cfg a)
   <= 5 + List.length (keyword_density a))%nat.
Proof.
  rewrite suggestions_in_order, !length_app.
  pose proof (flat_map_keyword_length (keyword_density a)).
  unfold Spec.word_count_suggestions, Spec.h1_suggestions,
    Spec.h2_suggestions, Spec.readability_suggestions,
    Spec.sentence_suggestions.
  repeat match goal with
         | |- context [if ?b then _ else _] => destruct b
         end; cbn [List.length]; lia.
Qed.

(** ** The text of an article *)

Lemma split_go_joined (s1 s2 cur : string) :
  Py.split_go (String.append s1 (String " " s2)) cur
  = Py.split_go s1 cur ++ Py.split s2.
Proof.
  unfold Py.split. revert cur.
  induction s1 as [|c s1 IH]; intro cur; cbn [String.append Py.split_go].
  - change (Py.isspace " ") with true. cbv iota.
    destruct (Py.truthy cur); reflexivity.
  - destruct (Py.isspace c).
    + rewrite IH. destruct (Py.truthy cur); reflexivity.
    + apply IH.
Qed.

Lemma split_joined (s1 s2 : string) :
  Py.split (String.append s1 (String " " s2)) = Py.split s1 ++ Py.split s2.
Proof. apply split_go_joined. Qed.

Lemma split_join (parts : list string) :
  Py.split (Py.join " " parts) = flat_map Py.split parts.
Proof.
  unfold Py.join. induction parts as [|p parts IH]; [reflexivity|].
  destruct parts as [|p' parts].
  - cbn [String.concat flat_map]. now rewrite app_nil_r.
  - change (String.concat " " (p :: p' :: parts))
      with (String.append p (String " " (String.concat " " (p' :: parts)))).
    rewrite split_joined, IH. reflexivity.
Qed.

Lemma len_flat_map {A B : Type} (f : A -> list B) (l : list A) :
  Py.len (flat_map f l) = Py.sum (map (fun x => Py.len (f x)) l).
Proof.
  unfold Py.len. induction l as [|x l IH]; [reflexivity|].
  cbn [flat_map map]. rewrite length_app, sum_cons, <- IH. lia.
Qed.

Lemma flat_map_split_append_if_present (parts : list string)
  (field : option string) :
  flat_map Py.split (append_if_present parts field)
  = flat_map Py.split parts ++ Notion.words_of field.
Proof.
  destruct field as [x|]; cbn [append_if_present Notion.words_of].
  - rewrite flat_map_app. cbn [flat_map]. now rewrite app_nil_r.
  - now rewrite app_nil_r.
Qed.

Lemma flat_map_split_append_field (parts : list string)
  (field : option FieldValue) :
  flat_map Py.split (append_field parts field)
  = flat_map Py.split parts ++ Notion.field_words field.
Proof.
  destruct field as [[items|it]|]; cbn [append_field Notion.field_words];
    rewrite ?flat_map_app, ?app_nil_r; reflexivity.
Qed.

Lemma section_words (section : ArticleSection) :
  Py.split (_extract_section_text section)
  = Notion.words_of (s_title section)
    ++ Notion.words_of (s_content section)
    ++ Notion.words_of (s_description section)
    ++ Notion.field_words (s_benefits section)
    ++ Notion.field_words (s_tips section)
    ++ Notion.field_words (s_items section)
    ++ Notion.field_words (s_steps section).
Proof.
  unfold _extract_section_text. cbv zeta. rewrite split_join.
  rewrite !flat_map_split_append_field, !flat_map_split_append_if_present.
  cbn [flat_map app]. now rewrite <- !app_assoc.
Qed.

(** Joining with single blanks neither merges nor cuts words: the words of
    the extracted text are those of the title, the intro, each section
    (title, content, description, then the members of its four list
    fields), the conclusion and the takeaways, in this order; their number
    is the word count of the analysis. *)
Theorem article_words_are_the_words_of_its_parts
  (article : Article) (kws : list string) :
  Py.split (_extract_text article)
  = Notion.words_of (a_title article)
    ++ Notion.words_of (a_intro article)
    ++ flat_map
         (fun section =>
            Notion.words_of (s_title section)
            ++ Notion.words_of (s_content section)
            ++ Notion.words_of (s_description section)
            ++ Notion.field_words (s_benefits section)
            ++ Notion.field_words (s_tips section)
            ++ Notion.field_words (s_items section)
            ++ Notion.field_words (s_steps section))
         (Dict.get (a_content_sections article) [])
    ++ Notion.words_of (a_conclusion article)
    ++ flat_map Py.split (Dict.get (a_key_takeaways article) [])
  /\ exists a,
       analyze_seo (_extract_text article) kws = Some a
       /\ word_count a = Py.len (Py.split (_extract_text article)).
Proof.
  split.
  - unfold _extract_text. cbv zeta. rewrite split_join.
    rewrite flat_map_app, flat_map_split_append_if_present, flat_map_app,
      !flat_map_split_append_if_present.
    cbn [flat_map app]. rewrite <- !app_assoc.
    do 2 f_equal. f_equal.
    induction (Dict.get (a_content_sections article) []) as [|s l IH];
      [reflexivity|].
    cbn [map flat_map]. now rewrite IH, section_words.
  - destruct (analyze_seo_shape (_extract_text article) kws)
      as [d [q [_ [_ [r [_ [pk Ha]]]]]]].
    eexists. split; [exact Ha|]. apply word_count_is_token_count.
Qed.

(** ** The meta description *)

Lemma take_length (n : nat) (s : string) :
  (String.length (Py.take n s) <= n)%nat.
Proof.
  revert s. induction n as [|n IH]; intros [|c s]; simpl; try lia.
  pose proof (IH s). lia.
Qed.

Lemma lstrip_length (s : string) :
  (String.length (Py.lstrip s) <= String.length s)%nat.
Proof.
  induction s as [|c s IH]; simpl; [lia|].
  destruct (Py.isspace c); simpl; lia.
Qed.

Lemma rstrip_length (s : string) :
  (String.length (Py.rstrip s) <= String.length s)%nat.
Proof.
  induction s as [|c s IH]; simpl; [lia|].
  destruct (Py.isspace c && negb (Py.truthy (Py.rstrip s))); simpl; lia.
Qed.

Lemma strip_length (s : string) :
  (String.length (Py.strip s) <= String.length s)%nat.
Proof.
  unfold Py.strip. pose proof (rstrip_length (Py.lstrip s)).
  pose proof (lstrip_length s). lia.
Qed.

Lemma rstrip_idempotent (s : string) : Py.rstrip (Py.rstrip s) = Py.rstrip s.
Proof.
  induction s as [|c s IH]; [reflexivity|].
  cbn [Py.rstrip].
  destruct (Py.isspace c && negb (Py.truthy (Py.rstrip s))) eqn:E;
    [reflexivity|].
  cbn [Py.rstrip]. now rewrite IH, E.
Qed.

Lemma lstrip_of_stripped (s : string) :
  Py.lstrip (Py.strip s) = Py.strip s.
Proof.
  destruct (Py.truthy (Py.strip s)) eqn:E.
  - destruct (strip_head s E) as [c [r [Hs Hc]]].
    rewrite Hs. cbn [Py.lstrip]. now rewrite Hc.
  - destruct (Py.strip s); [reflexivity|discriminate].
Qed.

Lemma strip_idempotent (s : string) : Py.strip (Py.strip s) = Py.strip s.
Proof.
  unfold Py.strip at 1. rewrite lstrip_of_stripped.
  unfold Py.strip. apply rstrip_idempotent.
Qed.

Section MetaDescription.

Variable title_case : string -> string.

Lemma meta_candidate_length (title intro : string) (keywords : list string) :
  (String.length (meta_candidate title_case title intro keywords) <= 160)%nat.
Proof.
  unfold meta_candidate. cbv zeta.
  assert (H : forall s, (String.length (Py.take 150 s) <= 160)%nat)
    by (intro s; pose proof (take_length 150 s); lia).
  destruct keywords as [|k ks];
    [destruct (Py.truthy intro); apply H|].
  destruct (negb _); [apply take_length|].
  destruct (Py.truthy intro); apply H.
Qed.

Lemma meta_description_is_stripped_candidate (title intro : string)
  (keywords : list string) :
  _optimize_meta_description title_case title intro keywords
  = Py.strip (meta_candidate title_case title intro keywords).
Proof.
  unfold _optimize_meta_description. cbv zeta.
  pose proof (meta_candidate_length title intro keywords).
  pose proof (strip_length (meta_candidate title_case title intro keywords)).
  unfold Py.len_str.
  destruct (Z.gtb_spec (Z.of_nat (String.length
              (Py.strip (meta_candidate title_case title intro keywords))))
              160); [lia|reflexivity].
Qed.

(** The meta description has at most 160 characters and no white space at
    either end, whatever [str.title] returns; the final cut to 157
    characters and an ellipsis never happens. *)
Theorem meta_description_fits (title intro : string) (keywords : list string) :
  _optimize_meta_description title_case title intro keywords
  = Py.strip (meta_candidate title_case title intro keywords)
  /\ Py.len_str (_optimize_meta_description title_case title intro keywords)
     <= 160
  /\ Py.strip (_optimize_meta_description title_case title intro keywords)
     = _optimize_meta_description title_case title intro keywords.
Proof.
  pose proof (meta_description_is_stripped_candidate title intro keywords)
    as E.
  split; [exact E|]. rewrite E. split; [|apply strip_idempotent].
  pose proof (meta_candidate_length title intro keywords).
  pose proof (strip_length (meta_candidate title_case title intro keywords)).
  unfold Py.len_str. lia.
Qed.

End MetaDescription.

(** ** Internal links *)

Lemma slug_has_no_blank (keyword : string) :
  Notion.no_blank (Py.lower (Py.replace_char " " "-" keyword)) = true.
Proof.
  unfold Notion.no_blank.
  induction keyword as [|c k IH]; [reflexivity|].
  cbn [Py.replace_char Py.lower list_ascii_of_string forallb].
  rewrite IH, andb_true_r.
  rewrite Ascii.eqb_sym, space_lower_char.
  destruct (Ascii.eqb_spec c " ") as [->|Hc]; [reflexivity|].
  destruct (Ascii.eqb_spec " " c); [congruence|reflexivity].
Qed.

Lemma slug_is_lower (keyword : string) :
  Py.lower (Py.lower (Py.replace_char " " "-" keyword))
  = Py.lower (Py.replace_char " " "-" keyword).
Proof. apply lower_idempotent. Qed.

Lemma prefix_first_char (c : ascii) (s : string) :
  String.prefix (String c EmptyString) (String c s) = true.
Proof.
  cbn [String.prefix]. destruct (ascii_dec c c); [|congruence].
  destruct s; reflexivity.
Qed.

(** There is one link per keyword among the first three, and one more for a
    how-to or a comparison, so at most 4; every suggested URL starts with a
    slash, holds no blank and is in lower case. *)
Theorem internal_links_are_few_and_clean (h : Heap.t) (article : Article) :
  let links := _suggest_internal_links h article in
  let keywords := Dict.get (m_keywords (meta_of h article)) [] in
  let template := Dict.get (a_template_type article) EmptyString in
  List.length links
  = ((if String.eqb template "how_to" || String.eqb template "comparison"
      then 1 else 0)
     + Nat.min 3 (List.length keywords))%nat
  /\ (List.length links <= 4)%nat
  /\ (forall l, In l links ->
        String.prefix "/" (suggested_url l) = true
        /\ Notion.no_blank (suggested_url l) = true
        /\ Py.lower (suggested_url l) = suggested_url l).
Proof.
  cbv zeta. unfold _suggest_internal_links. cbv zeta.
  set (keywords := Dict.get (m_keywords (meta_of h article)) []).
  set (template := Dict.get (a_template_type article) EmptyString).
  set (slugs := map _ (Py.take_list 3 keywords)).
  assert (Hlen : List.length slugs = Nat.min 3 (List.length keywords))
    by (unfold slugs, Py.take_list; now rewrite length_map, length_firstn).
  assert (Hslug : forall l, In l slugs ->
            String.prefix "/" (suggested_url l) = true
            /\ Notion.no_blank (suggested_url l) = true
            /\ Py.lower (suggested_url l) = suggested_url l).
  { intros l Hl. unfold slugs in Hl. apply in_map_iff in Hl.
    destruct Hl as [k [<- _]]. cbn [suggested_url String.append].
    split; [apply prefix_first_char|]. split.
    - unfold Notion.no_blank. cbn [list_ascii_of_string forallb].
      apply (slug_has_no_blank k).
    - cbn [Py.lower]. f_equal. apply slug_is_lower. }
  assert (Hexcl : String.eqb template "how_to" = true ->
                  String.eqb template "comparison" = false).
  { intro E. apply String.eqb_eq in E. now rewrite E. }
  destruct (String.eqb template "how_to") eqn:E1.
  - rewrite (Hexcl eq_refl). cbn [orb app].
    split; [cbn [List.length]; lia|]. split; [cbn [List.length]; lia|].
    intros l [<-|Hl]; [repeat split|now apply Hslug].
  - destruct (String.eqb template "comparison") eqn:E2; cbn [orb app].
    + split; [cbn [List.length]; lia|]. split; [cbn [List.length]; lia|].
      intros l [<-|Hl]; [repeat split|now apply Hslug].
    + split; [lia|]. split; [lia|]. exact Hslug.
Qed.

(** The link of the first keyword of the how-to article. *)
Lemma internal_links_are_few_and_clean_witness :
  In (mkLink "encrypted calls" "/encrypted-calls"
        "Link to pillar content about encrypted calls")
     (_suggest_internal_links howto_store howto_article)
  /\ Notion.no_blank "/encrypted-calls" = true.
Proof.
  assert (H : In (mkLink "encrypted calls" "/encrypted-calls"
                    "Link to pillar content about encrypted calls")
                 (_suggest_internal_links howto_store howto_article))
    by (right; left; reflexivity).
  split; [exact H|].
  destruct (internal_links_are_few_and_clean howto_store howto_article)
    as [_ [_ Hall]].
  exact (proj1 (proj2 (Hall _ H))).
Defined.

(** ** The store *)

Lemma read_write_same (h : Heap.t) (ref : nat) (m : MetaDict) :
  (ref < List.length h)%nat -> Heap.read (Heap.write h ref m) ref = Some m.
Proof.
  unfold Heap.read. revert ref.
  induction h as [|x h IH]; intros [|r] H; simpl in *; try lia;
    [reflexivity|].
  apply IH. lia.
Qed.

Lemma read_write_other (h : Heap.t) (ref ref' : nat) (m : MetaDict) :
  ref' <> ref -> Heap.read (Heap.write h ref m) ref' = Heap.read h ref'.
Proof.
  unfold Heap.read. revert ref ref'.
  induction h as [|x h IH]; intros [|r] [|r'] H; simpl; try reflexivity;
    try congruence.
  apply IH. congruence.
Qed.

Lemma length_write (h : Heap.t) (ref : nat) (m : MetaDict) :
  List.length (Heap.write h ref m) = List.length h.
Proof.
  revert ref. induction h as [|x h IH]; intros [|r]; simpl; try reflexivity.
  now rewrite IH.
Qed.

Lemma write_end (h : Heap.t) (m m' : MetaDict) :
  Heap.write (h ++ [m]) (List.length h) m' = h ++ [m'].
Proof. induction h as [|x h IH]; simpl; [reflexivity|now rewrite IH]. Qed.

Lemma read_old (h : Heap.t) (m : MetaDict) (ref : nat) :
  (ref < List.length h)%nat -> Heap.read (h ++ [m]) ref = Heap.read h ref.
Proof. intro H. unfold Heap.read. now apply nth_error_app1. Qed.

Lemma read_new (h : Heap.t) (m : MetaDict) :
  Heap.read (h ++ [m]) (List.length h) = Some m.
Proof.
  unfold Heap.read. rewrite nth_error_app2 by lia.
  now rewrite Nat.sub_diag.
Qed.

Lemma read_beyond (h : Heap.t) (ref : nat) :
  (List.length h <= ref)%nat -> Heap.read h ref = None.
Proof. intro H. unfold Heap.read. now apply nth_error_None. Qed.

(** ** The schema *)




Lemma generate_schema_markup_description (self : Optimizer) (h : Heap.t)
  (article : Article) (schema : Schema) :
  _generate_schema_markup self h article = Some schema ->
  schema_description schema
  = Dict.get (m_description (meta_of h article)) EmptyString.
Proof.
  unfold _generate_schema_markup. cbv zeta.
  destruct (a_template_type article) as [t|];
    [|intro H; inversion H; reflexivity].
  destruct (String.eqb t "how_to");
    [|intro H; inversion H; reflexivity].
  destruct (a_content_sections article) as [secs|];
    [|intro H; inversion H; reflexivity].
  destruct (schema_sections secs []); [|discriminate].
  intro H. inversion H. reflexivity.
Qed.

(** ** [optimize_article] *)

Section OptimizeArticle.

Variable title_case : string -> string.

(** The description [optimize_article] writes. *)
Lemma optimize_article_steps (self : Optimizer) (article : Article)
  (h : Heap.t) :
  exists analysis,
    analyze_seo (_extract_text article)
      (Dict.get (m_keywords (meta_of h article)) []) = Some analysis
    /\ let d := _optimize_meta_description title_case
                  (Dict.get (a_title article) EmptyString)
                  (Dict.get (a_intro article) EmptyString)
                  (primary_keywords analysis) in
       let ref := match a_meta article with
                  | Some ref => ref
                  | None => List.length h
                  end in
       let h0 := match a_meta article with
                 | Some _ => h
                 | None => h ++ [mkMeta None None]
                 end in
       let h' := Heap.write h0 ref
                   (mkMeta (Some d)
                      (m_keywords
                         (Dict.get (Heap.read h0 ref) (mkMeta None None)))) in
       snd (optimize_article title_case self article h) = h'
       /\ match _generate_schema_markup self h' article with
          | None => fst (optimize_article title_case self article h) = None
          | Some schema =>
              fst (optimize_article title_case self article h)
              = Some
                  {| copy :=
                       mkArticle (a_title article) (a_intro article)
                         (a_template_type article) (a_generated_at article)
                         (a_content_sections article) (a_conclusion article)
                         (a_key_takeaways article) (Some ref);
                     schema_markup := schema;
                     internal_links := _suggest_internal_links h' article;
                     seo_score :=
                       _calculate_seo_score (settings self) analysis;
                     seo_suggestions :=
                       _generate_suggestions (settings self) analysis |}
          end.
Proof.
  destruct (analyze_seo_returns (_extract_text article)
              (Dict.get (m_keywords (meta_of h article)) []))
    as [analysis Ha].
  exists analysis. split; [exact Ha|]. cbv zeta.
  unfold optimize_article. cbv zeta. rewrite Ha.
  destruct (a_meta article) as [ref|]; cbn [Heap.alloc].
  - destruct (_generate_schema_markup _ _ _); split; reflexivity.
  - destruct (_generate_schema_markup _ _ _); split; reflexivity.
Qed.








(** The copy [optimize_article] works on shares the [meta] dictionary of
    the article it is given: after the call, also after one that raised,
    the description of the given article is the new one; the schema holds
    it too; no other dictionary of the store has changed. *)
Theorem optimize_article_rewrites_the_shared_meta
  (self : Optimizer) (article : Article) (h : Heap.t)
  (ref : nat) (m : MetaDict) :
  a_meta article = Some ref ->
  Heap.read h ref = Some m ->
  exists analysis,
    analyze_seo (_extract_text article) (Dict.get (m_keywords m) [])
    = Some analysis
    /\ let d := _optimize_meta_description title_case
                  (Dict.get (a_title article) EmptyString)
                  (Dict.get (a_intro article) EmptyString)
                  (primary_keywords analysis) in
       let h' := snd (optimize_article title_case self article h) in
       Heap.read h' ref = Some (mkMeta (Some d) (m_keywords m))
       /\ m_description (meta_of h' article) = Some d
       /\ (forall other, other <> ref -> Heap.read h' other = Heap.read h other)
       /\ (forall o,
             fst (optimize_article title_case self article h) = Some o ->
             a_meta (copy o) = Some ref
             /\ schema_description (schema_markup o) = d).
Proof.
  intros Hmeta Hread.
  destruct (optimize_article_steps self article h) as [analysis [Ha H]].
  assert (Hm : meta_of h article = m)
    by (unfold meta_of; now rewrite Hmeta, Hread).
  rewrite Hm in Ha. exists analysis. split; [exact Ha|].
  cbv zeta in *. rewrite Hmeta in H. rewrite Hread in H.
  cbn [Dict.get] in H. destruct H as [Hh H]. rewrite Hh.
  assert (Hlt : (ref < List.length h)%nat).
  { destruct (Nat.lt_ge_cases ref (List.length h)) as [L|L]; [exact L|].
    rewrite (read_beyond h ref L) in Hread. discriminate. }
  split; [now apply read_write_same|].
  split; [unfold meta_of; now rewrite Hmeta, read_write_same|].
  split; [intros other Ho; now apply read_write_other|].
  intros o Ho.
  destruct (_generate_schema_markup self _ article) as [schema|] eqn:E;
    rewrite H in Ho; [|discriminate].
  inversion Ho; subst o. cbn [copy a_meta schema_markup].
  split; [reflexivity|].
  rewrite (generate_schema_markup_description _ _ _ _ E).
  unfold meta_of. now rewrite Hmeta, read_write_same.
Qed.

(** For an article without [meta], [optimize_article] makes a new
    dictionary for its copy and leaves the store as it was otherwise; the
    schema, built from the given article, has an empty description, and
    there is no keyword link. *)
Theorem optimize_article_without_meta
  (self : Optimizer) (article : Article) (h : Heap.t) :
  a_meta article = None ->
  exists analysis,
    analyze_seo (_extract_text article) [] = Some analysis
    /\ let d := _optimize_meta_description title_case
                  (Dict.get (a_title article) EmptyString)
                  (Dict.get (a_intro article) EmptyString)
                  (primary_keywords analysis) in
       snd (optimize_article title_case self article h)
       = h ++ [mkMeta (Some d) None]
       /\ (forall o,
             fst (optimize_article title_case self article h) = Some o ->
             a_meta (copy o) = Some (List.length h)
             /\ schema_description (schema_markup o) = EmptyString
             /\ (List.length (internal_links o) <= 1)%nat).
Proof.
  intro Hmeta.
  destruct (optimize_article_steps self article h) as [analysis [Ha H]].
  assert (Hm : forall h0, meta_of h0 article = mkMeta None None)
    by (intro h0; unfold meta_of; now rewrite Hmeta).
  rewrite Hm in Ha. exists analysis. split; [exact Ha|].
  cbv zeta in *. rewrite Hmeta in H. rewrite read_new in H.
  cbn [Dict.get m_keywords] in H. rewrite write_end in H.
  destruct H as [Hh H]. split; [exact Hh|].
  intros o Ho.
  destruct (_generate_schema_markup self _ article) as [schema|] eqn:E;
    rewrite H in Ho; [|discriminate].
  inversion Ho; subst o. cbn [copy a_meta schema_markup internal_links].
  split; [reflexivity|]. split.
  - rewrite (generate_schema_markup_description _ _ _ _ E), Hm. reflexivity.
  - unfold _suggest_internal_links. cbv zeta. rewrite Hm.
    cbn [m_keywords Dict.get Py.take_list firstn map].
    rewrite app_nil_r.
    destruct (String.eqb (Dict.get (a_template_type article) EmptyString)
                "how_to") eqn:E1;
      destruct (String.eqb (Dict.get (a_template_type article) EmptyString)
                  "comparison") eqn:E2;
      cbn [app List.length]; try lia.
    apply String.eqb_eq in E1. rewrite E1 in E2. discriminate.
Qed.

End OptimizeArticle.


(** The article without [meta], on the empty store. *)
Lemma optimize_article_without_meta_witness :
  a_meta bare_article = None
  /\ exists d,
       snd (optimize_article ascii_title test_optimizer bare_article [])
       = [mkMeta (Some d) None].
Proof.
  assert (H1 : a_meta bare_article = None) by reflexivity.
  split; [exact H1|].
  destruct (optimize_article_without_meta ascii_title test_optimizer
              bare_article [] H1) as [analysis [_ H]].
  cbv zeta in H. destruct H as [Hh _].
  eexists. exact Hh.
Defined.

(** The how-to article and its store. *)
Lemma optimize_article_rewrites_the_shared_meta_witness :
  a_meta howto_article = Some 0%nat
  /\ Heap.read howto_store 0
     = Some (mkMeta (Some "Private calls in minutes")
               (Some ["encrypted calls"; "privacy"]%string))
  /\ exists d,
       m_description
         (meta_of
            (snd (optimize_article ascii_title test_optimizer howto_article
                    howto_store))
            howto_article)
       = Some d.
Proof.
  assert (H1 : a_meta howto_article = Some 0%nat) by reflexivity.
  assert (H2 : Heap.read howto_store 0
               = Some (mkMeta (Some "Private calls in minutes")
                         (Some ["encrypted calls"; "privacy"]%string)))
    by reflexivity.
  split; [exact H1|]. split; [exact H2|].
  destruct (optimize_article_rewrites_the_shared_meta ascii_title
              test_optimizer howto_article howto_store 0 _ H1 H2)
    as [analysis [_ H]].
  cbv zeta in H. destruct H as [_ [Hd _]].
  eexists. exact Hd.
Defined.

Lemma seo_score_bounds (cfg : Config) (a : SeoAnalysis) :
  0 <= _calculate_seo_score cfg a <= 100.
Proof.
  rewrite score_by_rows. unfold Spec.score_short_first.
  pose proof (word_count_points_bounds (min_word_count cfg)
                (max_word_count cfg) (word_count a)).
  pose proof (other_points_bounds a).
  lia.
Qed.

Lemma density_size (text : string) (kws : list string) (a : SeoAnalysis) :
  analyze_seo text kws = Some a ->
  (List.length (keyword_density a) <= List.length kws)%nat.
Proof.
  intro Ha.
  destruct (analyze_seo_shape text kws)
    as [d [q [Hd [_ [r [_ [pk Ha']]]]]]].
  rewrite Ha in Ha'. inversion Ha'; subst a. cbn [keyword_density].
  pose proof (density_loop_keys _ _ _ _ _ Hd) as Hk. cbn in Hk.
  destruct (fold_add_key kws [] (NoDup_nil _)) as [_ [_ H3]].
  unfold Dict.keys in Hk. rewrite <- (length_map fst), Hk.
  simpl in H3. exact H3.
Qed.

Lemma links_length (h : Heap.t) (article : Article) :
  (List.length (_suggest_internal_links h article) <= 4)%nat.
Proof.
  unfold _suggest_internal_links. cbv zeta.
  rewrite !length_app, length_map. unfold Py.take_list.
  pose proof (firstn_le_length 3
                (Dict.get (m_keywords (meta_of h article)) [])).
  destruct (String.eqb (Dict.get (a_template_type article) EmptyString)
              "how_to") eqn:E1;
    destruct (String.eqb (Dict.get (a_template_type article) EmptyString)
                "comparison") eqn:E2;
    cbn [app List.length]; try lia.
  apply String.eqb_eq in E1. rewrite E1 in E2. discriminate.
Qed.

Section OptimizedArticle.

Variable title_case : string -> string.

(** What [optimize_article] returns has a score in [[0, 100]], a
    description of at most 160 characters without white space at either
    end, at most 4 links and at most 5 suggestions more than the article has
    keywords. *)
Theorem optimized_article_is_within_bounds
  (self : Optimizer) (article : Article) (h : Heap.t) (o : OptimizedArticle) :
  Notion.valid_meta h article ->
  fst (optimize_article title_case self article h) = Some o ->
  0 <= seo_score o <= 100
  /\ (exists d,
        m_description
          (meta_of (snd (optimize_article title_case self article h)) (copy o))
        = Some d
        /\ Py.len_str d <= 160 /\ Py.strip d = d)
  /\ (List.length (internal_links o) <= 4)%nat
  /\ (List.length (seo_suggestions o)
      <= 5 + List.length (Dict.get (m_keywords (meta_of h article)) []))%nat.
Proof.
  intros Hvalid Ho.
  destruct (optimize_article_steps title_case self article h)
    as [analysis [Ha H]].
  cbv zeta in H. destruct H as [Hh H]. rewrite Hh.
  destruct (_generate_schema_markup self _ article) as [schema|];
    rewrite H in Ho; [|discriminate].
  inversion Ho; subst o.
  cbn [copy seo_score internal_links seo_suggestions].
  split; [apply seo_score_bounds|].
  split; [|split; [apply links_length|]].
  - eexists. split.
    + unfold meta_of. cbn [a_meta].
      unfold Notion.valid_meta in Hvalid.
      destruct (a_meta article) as [ref|].
      * rewrite read_write_same by exact Hvalid. reflexivity.
      * rewrite read_write_same by (rewrite length_app; simpl; lia).
        reflexivity.
    + rewrite (meta_description_is_stripped_candidate title_case).
      split; [|apply strip_idempotent].
      pose proof (meta_candidate_length title_case
                    (Dict.get (a_title article) EmptyString)
                    (Dict.get (a_intro article) EmptyString)
                    (primary_keywords analysis)).
      pose proof (strip_length
                    (meta_candidate title_case
                       (Dict.get (a_title article) EmptyString)
                       (Dict.get (a_intro article) EmptyString)
                       (primary_keywords analysis))).
      unfold Py.len_str. lia.
  - pose proof (suggestions_length (settings self) analysis).
    pose proof (density_size _ _ _ Ha). lia.
Qed.

End OptimizedArticle.

(** The how-to article is optimized without error. *)
Lemma optimized_article_is_within_bounds_witness :
  Notion.valid_meta howto_store howto_article
  /\ exists o,
       fst (optimize_article ascii_title test_optimizer howto_article
              howto_store) = Some o
       /\ 0 <= seo_score o <= 100
       /\ (List.length (internal_links o) <= 4)%nat.
Proof.
  assert (Hv : Notion.valid_meta howto_store howto_article)
    by (unfold Notion.valid_meta; simpl; lia).
  split; [exact Hv|].
  destruct (fst (optimize_article ascii_title test_optimizer howto_article
                   howto_store)) as [o|] eqn:E;
    [|vm_compute in E; discriminate E].
  exists o. split; [reflexivity|].
  destruct (optimized_article_is_within_bounds ascii_title test_optimizer
              howto_article howto_store o Hv E) as [H1 [_ [H3 _]]].
  exact (conj H1 H3).
Defined.

(** ** The average score of a batch *)

Lemma present_scores (f : SeoAnalysis -> Z) (articles : list (option SeoAnalysis)) :
  flat_map (fun a : option Z => match a with Some s => [s] | None => [] end)
    (map (option_map f) articles)
  = map f (flat_map (fun a : option SeoAnalysis =>
                       match a with Some x => [x] | None => [] end) articles).
Proof.
  induction articles as [|[a|] l IH]; [reflexivity| |];
    cbn [map flat_map option_map app]; now rewrite IH.
Qed.

Lemma sum_bounds (l : list Z) (lo hi : Z) :
  (forall x, In x l -> lo <= x <= hi) ->
  lo * Py.len l <= Py.sum l <= hi * Py.len l.
Proof.
  unfold Py.len. induction l as [|x l IH]; intro H;
    [unfold Py.sum; simpl; lia|].
  rewrite sum_cons. cbn [List.length].
  pose proof (H x (or_introl eq_refl)).
  assert (lo * Z.of_nat (List.length l) <= Py.sum l
          <= hi * Z.of_nat (List.length l))
    by (apply IH; intros; apply H; now right).
  lia.
Qed.

(** The average score of a batch never divides by zero. The row is left out
    exactly when no article has a score: when it is left out none has one,
    and when it is shown some article has one and the average lies in
    [[0, 100]]. *)
Theorem average_score_of_a_batch
  (cfg : Config) (articles : list (option SeoAnalysis)) :
  exists row,
    average_seo_score (map (option_map (_calculate_seo_score cfg)) articles)
    = Some row
    /\ match row with
       | None => Forall (eq None) articles
       | Some avg =>
           (exists a, In (Some a) articles) /\ (0 <= avg)%Q /\ (avg <= 100)%Q
       end.
Proof.
  unfold average_seo_score. cbv zeta. rewrite present_scores.
  destruct (flat_map _ articles) as [|a l] eqn:Hp.
  - exists None. split; [reflexivity|].
    induction articles as [|[x|] rest IH]; [constructor|discriminate|].
    constructor; [reflexivity|]. apply IH. exact Hp.
  - set (scores := map (_calculate_seo_score cfg) (a :: l)).
    assert (Hb : 0 * Py.len scores <= Py.sum scores <= 100 * Py.len scores).
    { apply sum_bounds. intros x Hx. unfold scores in Hx.
      apply in_map_iff in Hx. destruct Hx as [y [<- _]].
      apply seo_score_bounds. }
    assert (Hn : 1 <= Py.len scores)
      by (unfold scores, Py.len; cbn [map List.length]; lia).
    destruct scores as [|s0 l0] eqn:E; [discriminate|].
    rewrite truediv_some by lia. cbn [Exn.bind Exn.ret].
    eexists. split; [reflexivity|].
    assert (Hpos : (0 < inject_Z (Py.len (s0 :: l0)))%Q)
      by (change 0%Q with (inject_Z 0); rewrite <- Zlt_Qlt; lia).
    split; [|split].
    + assert (Hin : In a (flat_map
                           (fun a : option SeoAnalysis =>
                              match a with Some x => [x] | None => [] end)
                           articles))
        by (rewrite Hp; now left).
      apply in_flat_map in Hin. destruct Hin as [[x|] [Hx Ha]];
        [|contradiction].
      destruct Ha as [<-|[]]. now exists x.
    + apply Qle_shift_div_l; [exact Hpos|].
      rewrite Qmult_0_l. change 0%Q with (inject_Z 0).
      rewrite <- Zle_Qle. lia.
    + apply Qle_shift_div_r; [exact Hpos|].
      change 100%Q with (inject_Z 100).
      rewrite <- inject_Z_mult, <- Zle_Qle. lia.
Qed.
